(** * The slide content model of models/content.py

    A shallow embedding of the element classes ([ContentElement] and its four
    subclasses), of [ImageElement]'s filter pipeline, of [SlideData] and of
    the slide and observer methods of [ContentManager], with the properties
    of the specification stated and settled against it, and further
    properties read off the code.

    Conventions of the embedding.
    - Python values whose type the source never fixes are kept as [pyval]
      (the JSON-like values a saved document holds).  An attribute is given a
      Rocq type only where the source coerces it ([float(x)], [str(text)],
      [int(font_size)]) or computes with it (ids as dictionary keys, the
      [type] discriminator, [z_index] as a sort key, paths).
    - A Python [dict] is an association list in insertion order, because the
      source iterates [self.elements] and the order is observable.
    - A function that can raise returns [option]; [None] stands for the raised
      exception.  Where a dynamically typed value falls outside the Rocq type
      of the attribute it is stored in, the function also answers [None]; each
      such place is marked "outside the model".
    - [str] is [string]; one character stands for one code point below U+0100.
    - [float] is the kernel's binary64; conversions between [int] and [float]
      go through [SpecFloat] so that they round as CPython does.
    - The clock, the UUID generator, the file system and the imaging library
      (PIL) are explicit: the first three live in [World], the last is the
      class [PIL]. *)

From Stdlib Require Import ZArith List String Ascii Bool Lia Arith.
From Stdlib Require Import Permutation Sorted.
From Stdlib Require Import Floats.
Import ListNotations.

Set Warnings "-inexact-float,-register-all".

Open Scope string_scope.
Open Scope Z_scope.

(* ===================================================================== *)
(** * Python values *)
(* ===================================================================== *)

Inductive pyval : Type :=
| PNone
| PBool (b : bool)
| PInt (z : Z)
| PFloat (f : float)
| PStr (s : string)
| PList (l : list pyval)
| PTuple (l : list pyval)
| PDict (d : list (string * pyval)).

(** The option monad threads exceptions. *)
Notation "x <- a ;; b" :=
  (match a with Some x => b | None => None end)
  (right associativity, at level 60, a at next level).

(* --------------------------------------------------------------------- *)
(** ** Dictionaries with string keys, in insertion order *)
(* --------------------------------------------------------------------- *)

Section Dict.
Context {V : Type}.

(** [d.get(k)] / [d[k]] *)
Fixpoint dict_get (k : string) (d : list (string * V)) : option V :=
  match d with
  | [] => None
  | (k', v) :: d' => if String.eqb k k' then Some v else dict_get k d'
  end.

(** [k in d] *)
Definition dict_mem (k : string) (d : list (string * V)) : bool :=
  match dict_get k d with Some _ => true | None => false end.

(** [d[k] = v]: an existing key keeps its position, a new key goes last. *)
Fixpoint dict_set (k : string) (v : V) (d : list (string * V))
  : list (string * V) :=
  match d with
  | [] => [(k, v)]
  | (k', v') :: d' =>
      if String.eqb k k' then (k', v) :: d' else (k', v') :: dict_set k v d'
  end.

(** [del d[k]] *)
Fixpoint dict_del (k : string) (d : list (string * V)) : list (string * V) :=
  match d with
  | [] => []
  | (k', v') :: d' =>
      if String.eqb k k' then d' else (k', v') :: dict_del k d'
  end.

Definition dict_keys (d : list (string * V)) : list string := map fst d.
Definition dict_values (d : list (string * V)) : list V := map snd d.
End Dict.

(** [d.get(k, default)] *)
Definition get_default {V} (k : string) (default : V) (d : list (string * V)) : V :=
  match dict_get k d with Some v => v | None => default end.

(* --------------------------------------------------------------------- *)
(** ** Numbers *)
(* --------------------------------------------------------------------- *)

(** [float(z)] for an [int]: the nearest binary64 (ties to even);
    [OverflowError] beyond the range. *)
Definition float_of_int (z : Z) : option float :=
  match binary_normalize prec emax z 0 false with
  | S754_infinity _ | S754_nan => None
  | sf => Some (SF2Prim sf)
  end.

(** [int(f)] for a [float]: truncation toward zero; [ValueError] on NaN,
    [OverflowError] on an infinity. *)
Definition int_of_float (f : float) : option Z :=
  match Prim2SF f with
  | S754_zero _ => Some 0
  | S754_finite s m e =>
      let a := match e with
               | Z0 => Zpos m
               | Zpos p => Z.shiftl (Zpos m) (Zpos p)
               | Zneg p => Z.shiftr (Zpos m) (Zpos p)
               end in
      Some (if s then - a else a)
  | S754_infinity _ | S754_nan => None
  end.

(** [a / b] for two [int]s: the correctly rounded quotient;
    [ZeroDivisionError] for [b = 0], [OverflowError] beyond the range. *)
Definition int_truediv (a b : Z) : option float :=
  let sf (z : Z) := match z with
                    | Z0 => S754_zero false
                    | Zpos p => S754_finite false p 0
                    | Zneg p => S754_finite true p 0
                    end in
  if b =? 0 then None
  else match SFdiv prec emax (sf a) (sf b) with
       | S754_infinity _ | S754_nan => None
       | q => Some (SF2Prim q)
       end.

(** The numeric tower of the arithmetic operators: [bool] counts as [int]. *)
Inductive num : Type :=
| NInt (z : Z)
| NFloat (f : float).

Definition as_num (v : pyval) : option num :=
  match v with
  | PInt z => Some (NInt z)
  | PBool b => Some (NInt (if b then 1 else 0))
  | PFloat f => Some (NFloat f)
  | _ => None
  end.

Definition num_float (n : num) : option float :=
  match n with
  | NInt z => float_of_int z
  | NFloat f => Some f
  end.

(** [a + b], [a * b], [a / b]: [int] with [int] stays exact, anything with a
    [float] converts the [int] operand first. *)
Definition num_add (a b : num) : option num :=
  match a, b with
  | NInt x, NInt y => Some (NInt (x + y))
  | _, _ => fa <- num_float a ;; fb <- num_float b ;; Some (NFloat (fa + fb)%float)
  end.

Definition num_mul (a b : num) : option num :=
  match a, b with
  | NInt x, NInt y => Some (NInt (x * y))
  | _, _ => fa <- num_float a ;; fb <- num_float b ;; Some (NFloat (fa * fb)%float)
  end.

Definition num_truediv (a b : num) : option float :=
  match a, b with
  | NInt x, NInt y => int_truediv x y
  | _, _ =>
      fa <- num_float a ;; fb <- num_float b ;;
      if PrimFloat.eqb fb 0%float then None else Some (fa / fb)%float
  end.

(** [int(n)] *)
Definition num_int (n : num) : option Z :=
  match n with
  | NInt z => Some z
  | NFloat f => int_of_float f
  end.

(** [v != n] for a value against an [int] literal [n] that binary64 holds
    exactly (the source compares with 100): a value of another type is simply
    different, and so is NaN. *)
Definition py_ne_int (v : pyval) (n : Z) : bool :=
  match as_num v with
  | Some (NInt z) => negb (z =? n)
  | Some (NFloat f) =>
      match float_of_int n with
      | Some g => negb (PrimFloat.eqb f g)
      | None => true
      end
  | None => true
  end.

(** [v > n] for a value against an [int] literal [n] that binary64 holds
    exactly (the source compares with 0): [TypeError] off numbers. *)
Definition py_gt_int (v : pyval) (n : Z) : option bool :=
  a <- as_num v ;;
  match a with
  | NInt z => Some (n <? z)
  | NFloat f => g <- float_of_int n ;; Some (PrimFloat.ltb g f)
  end.

(** [v / n] for a value against an [int] literal. *)
Definition py_truediv_int (v : pyval) (n : Z) : option float :=
  a <- as_num v ;; num_truediv a (NInt n).

(** [v[k]] for a string key: [KeyError] on a missing key, [TypeError] when
    [v] is not a dictionary. *)
Definition py_getitem (v : pyval) (k : string) : option pyval :=
  match v with
  | PDict d => dict_get k d
  | _ => None
  end.

(** [float(v)].  Numeric strings, which Python would parse, are outside the
    model. *)
Definition py_float (v : pyval) : option float :=
  n <- as_num v ;; num_float n.

(** [int(v)].  Numeric strings are outside the model. *)
Definition py_int (v : pyval) : option Z :=
  n <- as_num v ;; num_int n.

(** [str(v)] for a value that already is a string; the printed form of any
    other value is outside the model. *)
Definition py_str (v : pyval) : option string :=
  match v with
  | PStr s => Some s
  | _ => None
  end.

(* --------------------------------------------------------------------- *)
(** ** Strings *)
(* --------------------------------------------------------------------- *)

Definition ord (c : ascii) : Z := Z.of_N (N_of_ascii c).
Definition chr (z : Z) : ascii := ascii_of_N (Z.to_N z).

(** The letters below U+0100 that have the other case below U+0100: A-Z,
    and the Latin-1 letters U+00C0-U+00DE but for the sign U+00D7; a-z, and
    U+00E0-U+00FE but for the sign U+00F7.  In both ranges the lower-case
    letter stands 32 code points above the upper-case one. *)
Definition is_upper (c : ascii) : bool :=
  ((65 <=? ord c) && (ord c <=? 90)) ||
  ((192 <=? ord c) && (ord c <=? 222) && negb (ord c =? 215)).
Definition is_lower (c : ascii) : bool :=
  ((97 <=? ord c) && (ord c <=? 122)) ||
  ((224 <=? ord c) && (ord c <=? 254) && negb (ord c =? 247)).

(** Case mapping of one code point.  [lower_char] is [str.lower] on every
    code point below U+0100.  [upper_char] is [str.upper] on all of them but
    three, whose upper case lies outside this range and which are left
    alone here: U+00DF (Python gives two letters), U+00B5 and U+00FF. *)
Definition lower_char (c : ascii) : ascii := if is_upper c then chr (ord c + 32) else c.
Definition upper_char (c : ascii) : ascii := if is_lower c then chr (ord c - 32) else c.

Fixpoint str_map (f : ascii -> ascii) (s : string) : string :=
  match s with
  | EmptyString => EmptyString
  | String c r => String (f c) (str_map f r)
  end.

(** [s.lower()], [s.upper()], [s.capitalize()] *)
Definition lower (s : string) : string := str_map lower_char s.
Definition upper (s : string) : string := str_map upper_char s.
Definition capitalize (s : string) : string :=
  match s with
  | EmptyString => EmptyString
  | String c r => String (upper_char c) (lower r)
  end.

(** [s.startswith(p)] *)
Definition startswith (p s : string) : bool := String.prefix p s.

(** [s[:n]] *)
Definition str_take (n : nat) (s : string) : string := substring 0 n s.

(** The string ["\n"]. *)
Definition newline : string := String (chr 10) "".

(** [sep.join(l)] *)
Definition join (sep : string) (l : list string) : string := String.concat sep l.

(** [x in l] for a list of strings *)
Definition str_in (x : string) (l : list string) : bool := existsb (String.eqb x) l.

(** The white space of [str.split()] among the modelled code points. *)
Definition is_space (c : ascii) : bool :=
  let n := ord c in
  ((9 <=? n) && (n <=? 13)) || ((28 <=? n) && (n <=? 32)) || (n =? 133) || (n =? 160).

(** [len(s.split())]: the number of maximal runs of non-space characters. *)
Fixpoint count_words_from (in_word : bool) (s : string) : Z :=
  match s with
  | EmptyString => 0
  | String c r =>
      if is_space c then count_words_from false r
      else (if in_word then 0 else 1) + count_words_from true r
  end.
Definition count_words (s : string) : Z := count_words_from false s.

(** [str(n)] for a natural number and an integer, in decimal. *)
Definition digit_char (d : nat) : ascii :=
  if Nat.ltb d 10 then ascii_of_nat (48 + d) else ascii_of_nat (55 + d).

Fixpoint nat_digits (fuel base n : nat) (acc : string) : string :=
  match fuel with
  | O => acc
  | S fuel' =>
      let acc' := String (digit_char (Nat.modulo n base)) acc in
      if Nat.ltb n base then acc' else nat_digits fuel' base (Nat.div n base) acc'
  end.

Definition str_of_nat (n : nat) : string := nat_digits (S n) 10 n "".
Definition str_of_int (z : Z) : string :=
  if z <? 0 then "-" ++ str_of_nat (Z.to_nat (- z)) else str_of_nat (Z.to_nat z).

(** [f"{n:04X}"]: upper-case hexadecimal, zero-padded to four digits; a
    longer number keeps all its digits. *)
Fixpoint zeros (n : nat) : string :=
  match n with
  | O => EmptyString
  | S n' => String "0" (zeros n')
  end.
Definition zero_pad (width : nat) (s : string) : string :=
  zeros (width - String.length s) ++ s.
Definition hex_04X (n : nat) : string :=
  let h := nat_digits (S n) 16 n "" in
  zero_pad 4 h.

(* --------------------------------------------------------------------- *)
(** ** os.path (POSIX flavour) *)
(* --------------------------------------------------------------------- *)

(** [os.path.basename(p)]: what follows the last slash. *)
Fixpoint basename_from (acc : string) (p : string) : string :=
  match p with
  | EmptyString => acc
  | String c r =>
      if Ascii.eqb c "/" then basename_from "" r
      else basename_from (acc ++ String c "") r
  end.
Definition basename (p : string) : string := basename_from "" p.

(** Splitting a file name at its last dot. *)
Fixpoint split_last_dot (b : string) : option (string * string) :=
  match b with
  | EmptyString => None
  | String c r =>
      match split_last_dot r with
      | Some (pre, suf) => Some (String c pre, suf)
      | None => if Ascii.eqb c "." then Some ("", b) else None
      end
  end.

Fixpoint all_dots (s : string) : bool :=
  match s with
  | EmptyString => true
  | String c r => Ascii.eqb c "." && all_dots r
  end.

(** [os.path.splitext(p)]: the extension starts at the last dot of the last
    component, unless only dots precede it there. *)
Definition splitext (p : string) : string * string :=
  match split_last_dot (basename p) with
  | Some (pre, suf) =>
      if all_dots pre then (p, "")
      else (substring 0 (String.length p - String.length suf) p, suf)
  | None => (p, "")
  end.

(** [os.path.join(a, b)] and its n-ary form. *)
Definition ends_with_slash (s : string) : bool :=
  match get (String.length s - 1) s with
  | Some c => Ascii.eqb c "/"
  | None => false
  end.

Definition path_join2 (a b : string) : string :=
  if startswith "/" b then b
  else if (String.eqb a "") || ends_with_slash a then a ++ b
  else a ++ "/" ++ b.

Definition path_join (a : string) (rest : list string) : string :=
  fold_left path_join2 rest a.

(** [os.path.relpath(p, "content")] for a path [p] that [path_join] built
    under ["content"]: the part after the directory. *)
Definition relpath_content (p : string) : string :=
  if startswith "content/" p then substring 8 (String.length p - 8) p else p.

(** Truthiness of a value ([if v], [v or ...]). *)
Definition py_truthy (v : pyval) : bool :=
  match v with
  | PNone => false
  | PBool b => b
  | PInt z => negb (z =? 0)
  | PFloat f => negb (PrimFloat.eqb f 0%float)
  | PStr s => negb (String.eqb s "")
  | PList l | PTuple l => match l with [] => false | _ => true end
  | PDict d => match d with [] => false | _ => true end
  end.

(** [v == s] for a string literal [s]: a value of another type is different. *)
Definition py_eq_str (v : pyval) (s : string) : bool :=
  match v with
  | PStr t => String.eqb t s
  | _ => false
  end.

(* ===================================================================== *)
(** * The environment: datetime, PIL, and the world the code runs in *)
(* ===================================================================== *)

(** The part of the [datetime] module the source uses.  [fromisoformat]
    answers [None] where Python raises [ValueError]. *)
Class DatetimeLib : Type := {
  datetime : Type;
  isoformat : datetime -> string;
  fromisoformat : string -> option datetime
}.

(** The part of PIL the source uses, over the stored bytes of a [file] and a
    decoded [image].  An operation answers [None] where PIL raises. *)
Class PIL : Type := {
  file : Type;
  image : Type;
  (** [os.path.getsize] *)
  getsize : file -> Z;
  (** [Image.open(path)] followed by [img.copy()] *)
  Image_open : file -> option image;
  (** [img.save(path, quality=q)]: the bytes written for that path *)
  Image_save : image -> string -> pyval -> option file;
  (** What a save that raises leaves at its target, given what was there:
      PIL opens the target for writing before it encodes, so a file that
      was there can come out cut short, and a new one may stay or go *)
  Image_save_leaves : image -> string -> pyval -> option file -> option file;
  Image_format : image -> pyval;
  Image_mode : image -> pyval;
  Image_size : image -> nat * nat;
  (** ['transparency' in img.info] *)
  Image_has_transparency : image -> bool;
  (** [img.getpixel((px, py))]: the channel values of the pixel *)
  Image_getpixel : image -> nat -> nat -> option (list Z);
  (** [pixels[px, py] = (r, g, b)] on the pixel access object of [img.load()] *)
  Image_putpixel : image -> nat -> nat -> Z * Z * Z -> option image;
  (** [ImageEnhance.Brightness(img).enhance(f)], and so on *)
  enhance_brightness : image -> float -> option image;
  enhance_contrast : image -> float -> option image;
  enhance_color : image -> float -> option image;
  (** [img.filter(ImageFilter.GaussianBlur(radius=r))] *)
  gaussian_blur : image -> pyval -> option image;
  (** [img.convert('L').convert('RGB')] *)
  convert_L_RGB : image -> option image;
  (** [Image.blend(a, b, alpha)] *)
  Image_blend : image -> image -> float -> option image;
  (** [img.thumbnail((150, 150), Image.Resampling.LANCZOS)] *)
  Image_thumbnail : image -> option image
}.

Section WorldModel.
Context {DT : DatetimeLib} {IM : PIL}.

(** What the code reads besides its arguments: successive readings of
    [datetime.now()], successive results of [str(uuid.uuid4())], the regular
    files by path, and whether a path can be created, written or removed. *)
Record World : Type := mkWorld {
  clock : nat -> datetime;
  ticks : nat;
  uuid_source : nat -> string;
  uuid_drawn : nat;
  files : list (string * file);
  writable : string -> bool
}.

(** [datetime.now()] *)
Definition now (w : World) : datetime * World :=
  (clock w (ticks w),
   mkWorld (clock w) (S (ticks w)) (uuid_source w) (uuid_drawn w) (files w) (writable w)).

(** [str(uuid.uuid4())] *)
Definition uuid4 (w : World) : string * World :=
  (uuid_source w (uuid_drawn w),
   mkWorld (clock w) (ticks w) (uuid_source w) (S (uuid_drawn w)) (files w) (writable w)).

Definition with_files (fs : list (string * file)) (w : World) : World :=
  mkWorld (clock w) (ticks w) (uuid_source w) (uuid_drawn w) fs (writable w).

(** [os.path.exists(p)] *)
Definition path_exists (p : string) (w : World) : bool := dict_mem p (files w).

(** Creating the directories of [p] and writing [f] there; [None] where the
    operating system refuses. *)
Definition write_file (p : string) (f : file) (w : World) : option World :=
  if writable w p then Some (with_files (dict_set p f (files w)) w) else None.

(** [img.save(p, quality=q)] inside a [try]: whether it went through, and
    the world it leaves.  A save that raises where the target could be
    opened leaves there what [Image_save_leaves] says; where the operating
    system refuses, nothing changes. *)
Definition try_save (img : image) (p : string) (quality : pyval) (w : World)
  : bool * World :=
  match Image_save img p quality with
  | Some bytes =>
      match write_file p bytes w with
      | Some w' => (true, w')
      | None => (false, w)
      end
  | None =>
      (false,
       if writable w p
       then match Image_save_leaves img p quality (dict_get p (files w)) with
            | Some f => with_files (dict_set p f (files w)) w
            | None => with_files (dict_del p (files w)) w
            end
       else w)
  end.

(** [os.remove(p)] *)
Definition remove_file (p : string) (w : World) : option World :=
  if writable w p && path_exists p w
  then Some (with_files (dict_del p (files w)) w) else None.
End WorldModel.

(* ===================================================================== *)
(** * Elements *)
(* ===================================================================== *)

(** [base_dict.update(extra)] *)
Definition dict_update {V} (d extra : list (string * V)) : list (string * V) :=
  fold_left (fun acc kv => dict_set (fst kv) (snd kv) acc) extra d.

(** Keyword arguments left after the named ones are taken out. *)
Definition kw_without (names : list string) (kw : list (string * pyval))
  : list (string * pyval) :=
  filter (fun kv => negb (str_in (fst kv) names)) kw.

(** A call [f(a=..., **kw)] raises [TypeError] when [kw] repeats a keyword
    that the call already gives. *)
Definition kw_clash (given : list string) (kw : list (string * pyval)) : bool :=
  existsb (fun kv => str_in (fst kv) given) kw.

(** An attribute name that lives on the class (a method), or any name that
    starts with a double underscore.  Of the latter every object has some
    ([__class__], [__dict__], [__doc__], ...) and lacks the others, where
    [hasattr] is [False]; which ones depends on the interpreter, so the model
    does not tell them apart: assigning to any such name is outside the
    model, and the call that does it yields no result here. *)
Definition class_level (methods : list string) (k : string) : bool :=
  str_in k methods || startswith "__" k.

(** The dataclass [ElementStyle]; its annotations are not enforced. *)
Module ElementStyle.
Record t : Type := mk {
  color : pyval;
  background_color : pyval;
  border_color : pyval;
  border_width : pyval;
  opacity : pyval;
  rotation : pyval;
  shadow : pyval;
  shadow_color : pyval;
  shadow_blur : pyval;
  shadow_offset_x : pyval;
  shadow_offset_y : pyval
}.

(** [ElementStyle()] *)
Definition default : t :=
  mk (PStr "#000000") (PStr "transparent") (PStr "transparent") (PInt 0)
     (PFloat 1.0) (PFloat 0.0) (PBool false) (PStr "#000000")
     (PInt 5) (PInt 2) (PInt 2).
End ElementStyle.

Definition default_animation : pyval :=
  PDict [("entrance", PStr "none"); ("exit", PStr "none");
         ("duration", PInt 1000); ("delay", PInt 0)].

(** A time stamp stored in a document: [TypeError] unless it is a string,
    [ValueError] unless the string parses. *)
Definition parse_timestamp {DT : DatetimeLib} (v : pyval) : option datetime :=
  match v with
  | PStr s => fromisoformat s
  | _ => None
  end.

Module ContentElement.
Section WithEnv.
Context {DT : DatetimeLib} {IM : PIL}.

(** The attributes every element carries. *)
Record t : Type := mk {
  id : pyval;
  type : pyval;
  x : pyval;
  y : pyval;
  width : pyval;
  height : pyval;
  z_index : pyval;
  visible : pyval;
  locked : pyval;
  created_at : datetime;
  modified_at : datetime;
  style : ElementStyle.t;
  animation : pyval
}.

Definition methods : list string :=
  ["update_position"; "update_size"; "to_dict"; "from_base_dict"].

(** [ContentElement.__init__] *)
Definition init (element_id element_type x y width height : pyval) (w : World)
  : option (t * World) :=
  let '(id_, w) :=
    if py_truthy element_id then (element_id, w)
    else let '(u, w) := uuid4 w in (PStr u, w) in
  fx <- py_float x ;;
  fy <- py_float y ;;
  fw <- py_float width ;;
  fh <- py_float height ;;
  let '(c, w) := now w in
  let '(m, w) := now w in
  Some (mk id_ element_type (PFloat fx) (PFloat fy) (PFloat fw) (PFloat fh)
           (PInt 0) (PBool true) (PBool false) c m
           ElementStyle.default default_animation, w).

(** [super().__init__(element_type=..., **kwargs)] as the subclasses call
    it: [TypeError] on a keyword that [__init__] does not take. *)
Definition init_kwargs (element_type : string) (kwargs : list (string * pyval))
  (w : World) : option (t * World) :=
  if forallb (fun kv => str_in (fst kv) ["element_id"; "x"; "y"; "width"; "height"])
             kwargs
  then init (get_default "element_id" PNone kwargs) (PStr element_type)
            (get_default "x" (PInt 0) kwargs) (get_default "y" (PInt 0) kwargs)
            (get_default "width" (PInt 100) kwargs)
            (get_default "height" (PInt 50) kwargs) w
  else None.

(** [update_position], [update_size] *)
Definition update_position (e : t) (x y : pyval) (w : World) : option (t * World) :=
  fx <- py_float x ;;
  fy <- py_float y ;;
  let '(m, w) := now w in
  Some (mk (id e) (type e) (PFloat fx) (PFloat fy) (width e) (height e) (z_index e)
           (visible e) (locked e) (created_at e) m (style e) (animation e), w).

Definition update_size (e : t) (width height : pyval) (w : World) : option (t * World) :=
  fw <- py_float width ;;
  fh <- py_float height ;;
  let '(m, w) := now w in
  Some (mk (id e) (type e) (x e) (y e) (PFloat fw) (PFloat fh) (z_index e)
           (visible e) (locked e) (created_at e) m (style e) (animation e), w).

(** [ContentElement.to_dict] *)
Definition to_dict (e : t) : list (string * pyval) :=
  [("id", id e);
   ("type", type e);
   ("x", x e);
   ("y", y e);
   ("width", width e);
   ("height", height e);
   ("z_index", z_index e);
   ("visible", visible e);
   ("locked", locked e);
   ("created_at", PStr (isoformat (created_at e)));
   ("modified_at", PStr (isoformat (modified_at e)));
   ("style", PDict
      [("color", ElementStyle.color (style e));
       ("background_color", ElementStyle.background_color (style e));
       ("border_color", ElementStyle.border_color (style e));
       ("border_width", ElementStyle.border_width (style e));
       ("opacity", ElementStyle.opacity (style e));
       ("rotation", ElementStyle.rotation (style e));
       ("shadow", ElementStyle.shadow (style e));
       ("shadow_color", ElementStyle.shadow_color (style e));
       ("shadow_blur", ElementStyle.shadow_blur (style e));
       ("shadow_offset_x", ElementStyle.shadow_offset_x (style e));
       ("shadow_offset_y", ElementStyle.shadow_offset_y (style e))]);
   ("animation", animation e)].

(** The [try]/[except] around the two time stamps of [from_base_dict]: the
    default of each [data.get] reads the clock before the lookup, a failure
    of either parse sets both stamps to one further reading. *)
Definition restore_timestamps (data : list (string * pyval)) (w : World)
  : datetime * datetime * World :=
  let '(n1, w) := now w in
  match parse_timestamp (get_default "created_at" (PStr (isoformat n1)) data) with
  | None => let '(n, w) := now w in (n, n, w)
  | Some c =>
      let '(n2, w) := now w in
      match parse_timestamp (get_default "modified_at" (PStr (isoformat n2)) data) with
      | None => let '(n, w) := now w in (n, n, w)
      | Some m => (c, m, w)
      end
  end.

(** [ContentElement.from_base_dict] *)
Definition from_base_dict (data : list (string * pyval)) (w : World)
  : option (t * World) :=
  e0 <- init PNone (PStr "text") (PInt 0) (PInt 0) (PInt 100) (PInt 50) w ;;
  let '(_, w) := e0 in
  let '(u, w) := uuid4 w in
  let id_ := get_default "id" (PStr u) data in
  let type_ := get_default "type" (PStr "text") data in
  fx <- py_float (get_default "x" (PInt 0) data) ;;
  fy <- py_float (get_default "y" (PInt 0) data) ;;
  fw <- py_float (get_default "width" (PInt 100) data) ;;
  fh <- py_float (get_default "height" (PInt 50) data) ;;
  let z := get_default "z_index" (PInt 0) data in
  let vis := get_default "visible" (PBool true) data in
  let lck := get_default "locked" (PBool false) data in
  let '(c, m, w) := restore_timestamps data w in
  match get_default "style" (PDict []) data with
  | PDict sd =>
      let st :=
        ElementStyle.mk
          (get_default "color" (PStr "#000000") sd)
          (get_default "background_color" (PStr "transparent") sd)
          (get_default "border_color" (PStr "transparent") sd)
          (get_default "border_width" (PInt 0) sd)
          (get_default "opacity" (PFloat 1.0) sd)
          (get_default "rotation" (PFloat 0.0) sd)
          (get_default "shadow" (PBool false) sd)
          (get_default "shadow_color" (PStr "#000000") sd)
          (get_default "shadow_blur" (PInt 5) sd)
          (get_default "shadow_offset_x" (PInt 2) sd)
          (get_default "shadow_offset_y" (PInt 2) sd) in
      Some (mk id_ type_ (PFloat fx) (PFloat fy) (PFloat fw) (PFloat fh) z vis lck
               c m st (get_default "animation" default_animation data), w)
  | _ => None
  end.

(** [hasattr(element, k)] and [setattr(element, k, v)] on the attributes
    above.  The two time stamps hold [datetime] objects, so assigning a
    document value to them is outside the model. *)
Definition attributes : list string :=
  ["id"; "type"; "x"; "y"; "width"; "height"; "z_index"; "visible"; "locked";
   "created_at"; "modified_at"; "style"; "animation"].

Definition set_modified_at (e : t) (m : datetime) : t :=
  mk (id e) (type e) (x e) (y e) (width e) (height e) (z_index e) (visible e)
     (locked e) (created_at e) m (style e) (animation e).

Definition set_z_index (e : t) (z : pyval) : t :=
  mk (id e) (type e) (x e) (y e) (width e) (height e) z (visible e)
     (locked e) (created_at e) (modified_at e) (style e) (animation e).

Definition setattr (e : t) (k : string) (v : pyval) : option t :=
  let m := mk in
  if String.eqb k "id" then Some (m v (type e) (x e) (y e) (width e) (height e) (z_index e) (visible e) (locked e) (created_at e) (modified_at e) (style e) (animation e))
  else if String.eqb k "type" then Some (m (id e) v (x e) (y e) (width e) (height e) (z_index e) (visible e) (locked e) (created_at e) (modified_at e) (style e) (animation e))
  else if String.eqb k "x" then Some (m (id e) (type e) v (y e) (width e) (height e) (z_index e) (visible e) (locked e) (created_at e) (modified_at e) (style e) (animation e))
  else if String.eqb k "y" then Some (m (id e) (type e) (x e) v (width e) (height e) (z_index e) (visible e) (locked e) (created_at e) (modified_at e) (style e) (animation e))
  else if String.eqb k "width" then Some (m (id e) (type e) (x e) (y e) v (height e) (z_index e) (visible e) (locked e) (created_at e) (modified_at e) (style e) (animation e))
  else if String.eqb k "height" then Some (m (id e) (type e) (x e) (y e) (width e) v (z_index e) (visible e) (locked e) (created_at e) (modified_at e) (style e) (animation e))
  else if String.eqb k "z_index" then Some (set_z_index e v)
  else if String.eqb k "visible" then Some (m (id e) (type e) (x e) (y e) (width e) (height e) (z_index e) v (locked e) (created_at e) (modified_at e) (style e) (animation e))
  else if String.eqb k "locked" then Some (m (id e) (type e) (x e) (y e) (width e) (height e) (z_index e) (visible e) v (created_at e) (modified_at e) (style e) (animation e))
  else if String.eqb k "animation" then Some (m (id e) (type e) (x e) (y e) (width e) (height e) (z_index e) (visible e) (locked e) (created_at e) (modified_at e) (style e) v)
  else None.
End WithEnv.
End ContentElement.

Module TextElement.
Section WithEnv.
Context {DT : DatetimeLib} {IM : PIL}.

(** The attributes of a [TextElement]. *)
Record t : Type := mk {
  base : ContentElement.t;
  text : pyval;
  font_family : pyval;
  font_size : pyval;
  font_weight : pyval;
  font_style : pyval;
  text_align : pyval;
  text_decoration : pyval;
  line_height : pyval;
  letter_spacing : pyval;
  word_spacing : pyval;
  max_lines : pyval;
  text_transform : pyval;
  vertical_align : pyval;
  white_space : pyval;
  word_wrap : pyval;
  text_overflow : pyval
}.

Definition attributes : list string :=
  ["text"; "font_family"; "font_size"; "font_weight"; "font_style"; "text_align"; "text_decoration"; "line_height"; "letter_spacing"; "word_spacing"; "max_lines"; "text_transform"; "vertical_align"; "white_space"; "word_wrap"; "text_overflow"].

Definition methods : list string :=
  ContentElement.methods ++ ["get_formatted_text"; "from_dict"].

(** [element.__dict__.update(base_element.__dict__)] *)
Definition with_base (e : t) (b : ContentElement.t) : t :=
  mk b (text e) (font_family e) (font_size e) (font_weight e) (font_style e) (text_align e) (text_decoration e) (line_height e) (letter_spacing e) (word_spacing e) (max_lines e) (text_transform e) (vertical_align e) (white_space e) (word_wrap e) (text_overflow e).

Definition hasattr (e : t) (k : string) : bool :=
  str_in k attributes || str_in k ContentElement.attributes || class_level methods k.

Definition setattr (e : t) (k : string) (v : pyval) : option t :=
  if String.eqb k "text" then Some (mk (base e) v (font_family e) (font_size e) (font_weight e) (font_style e) (text_align e) (text_decoration e) (line_height e) (letter_spacing e) (word_spacing e) (max_lines e) (text_transform e) (vertical_align e) (white_space e) (word_wrap e) (text_overflow e))
  else if String.eqb k "font_family" then Some (mk (base e) (text e) v (font_size e) (font_weight e) (font_style e) (text_align e) (text_decoration e) (line_height e) (letter_spacing e) (word_spacing e) (max_lines e) (text_transform e) (vertical_align e) (white_space e) (word_wrap e) (text_overflow e))
  else if String.eqb k "font_size" then Some (mk (base e) (text e) (font_family e) v (font_weight e) (font_style e) (text_align e) (text_decoration e) (line_height e) (letter_spacing e) (word_spacing e) (max_lines e) (text_transform e) (vertical_align e) (white_space e) (word_wrap e) (text_overflow e))
  else if String.eqb k "font_weight" then Some (mk (base e) (text e) (font_family e) (font_size e) v (font_style e) (text_align e) (text_decoration e) (line_height e) (letter_spacing e) (word_spacing e) (max_lines e) (text_transform e) (vertical_align e) (white_space e) (word_wrap e) (text_overflow e))
  else if String.eqb k "font_style" then Some (mk (base e) (text e) (font_family e) (font_size e) (font_weight e) v (text_align e) (text_decoration e) (line_height e) (letter_spacing e) (word_spacing e) (max_lines e) (text_transform e) (vertical_align e) (white_space e) (word_wrap e) (text_overflow e))
  else if String.eqb k "text_align" then Some (mk (base e) (text e) (font_family e) (font_size e) (font_weight e) (font_style e) v (text_decoration e) (line_height e) (letter_spacing e) (word_spacing e) (max_lines e) (text_transform e) (vertical_align e) (white_space e) (word_wrap e) (text_overflow e))
  else if String.eqb k "text_decoration" then Some (mk (base e) (text e) (font_family e) (font_size e) (font_weight e) (font_style e) (text_align e) v (line_height e) (letter_spacing e) (word_spacing e) (max_lines e) (text_transform e) (vertical_align e) (white_space e) (word_wrap e) (text_overflow e))
  else if String.eqb k "line_height" then Some (mk (base e) (text e) (font_family e) (font_size e) (font_weight e) (font_style e) (text_align e) (text_decoration e) v (letter_spacing e) (word_spacing e) (max_lines e) (text_transform e) (vertical_align e) (white_space e) (word_wrap e) (text_overflow e))
  else if String.eqb k "letter_spacing" then Some (mk (base e) (text e) (font_family e) (font_size e) (font_weight e) (font_style e) (text_align e) (text_decoration e) (line_height e) v (word_spacing e) (max_lines e) (text_transform e) (vertical_align e) (white_space e) (word_wrap e) (text_overflow e))
  else if String.eqb k "word_spacing" then Some (mk (base e) (text e) (font_family e) (font_size e) (font_weight e) (font_style e) (text_align e) (text_decoration e) (line_height e) (letter_spacing e) v (max_lines e) (text_transform e) (vertical_align e) (white_space e) (word_wrap e) (text_overflow e))
  else if String.eqb k "max_lines" then Some (mk (base e) (text e) (font_family e) (font_size e) (font_weight e) (font_style e) (text_align e) (text_decoration e) (line_height e) (letter_spacing e) (word_spacing e) v (text_transform e) (vertical_align e) (white_space e) (word_wrap e) (text_overflow e))
  else if String.eqb k "text_transform" then Some (mk (base e) (text e) (font_family e) (font_size e) (font_weight e) (font_style e) (text_align e) (text_decoration e) (line_height e) (letter_spacing e) (word_spacing e) (max_lines e) v (vertical_align e) (white_space e) (word_wrap e) (text_overflow e))
  else if String.eqb k "vertical_align" then Some (mk (base e) (text e) (font_family e) (font_size e) (font_weight e) (font_style e) (text_align e) (text_decoration e) (line_height e) (letter_spacing e) (word_spacing e) (max_lines e) (text_transform e) v (white_space e) (word_wrap e) (text_overflow e))
  else if String.eqb k "white_space" then Some (mk (base e) (text e) (font_family e) (font_size e) (font_weight e) (font_style e) (text_align e) (text_decoration e) (line_height e) (letter_spacing e) (word_spacing e) (max_lines e) (text_transform e) (vertical_align e) v (word_wrap e) (text_overflow e))
  else if String.eqb k "word_wrap" then Some (mk (base e) (text e) (font_family e) (font_size e) (font_weight e) (font_style e) (text_align e) (text_decoration e) (line_height e) (letter_spacing e) (word_spacing e) (max_lines e) (text_transform e) (vertical_align e) (white_space e) v (text_overflow e))
  else if String.eqb k "text_overflow" then Some (mk (base e) (text e) (font_family e) (font_size e) (font_weight e) (font_style e) (text_align e) (text_decoration e) (line_height e) (letter_spacing e) (word_spacing e) (max_lines e) (text_transform e) (vertical_align e) (white_space e) (word_wrap e) v)
  else if class_level methods k then None
  else b <- ContentElement.setattr (base e) k v ;; Some (with_base e b).

(** [TextElement.__init__] *)
Definition init (text font_family font_size : pyval) (kwargs : list (string * pyval))
  (w : World) : option (t * World) :=
  bw <- ContentElement.init_kwargs "text" kwargs w ;;
  let '(b, w) := bw in
  s <- py_str text ;;
  n <- py_int font_size ;;
  Some (mk b (PStr s) font_family (PInt n)
           (PStr "normal") (PStr "normal") (PStr "left") (PStr "none") (PFloat 1.2) (PInt 0) (PInt 0) (PNone) (PStr "none") (PStr "top") (PStr "normal") (PBool true) (PStr "ellipsis"), w).

(** [get_formatted_text]: [AttributeError] when a transform is asked of a
    text that is not a string. *)
Definition get_formatted_text (e : t) : option pyval :=
  if py_eq_str (text_transform e) "uppercase"
  then s <- py_str (text e) ;; Some (PStr (upper s))
  else if py_eq_str (text_transform e) "lowercase"
  then s <- py_str (text e) ;; Some (PStr (lower s))
  else if py_eq_str (text_transform e) "capitalize"
  then s <- py_str (text e) ;; Some (PStr (capitalize s))
  else Some (text e).

(** [TextElement.to_dict] *)
Definition to_dict (e : t) : list (string * pyval) :=
  dict_update (ContentElement.to_dict (base e))
    [
     ("text", text e);
     ("font_family", font_family e);
     ("font_size", font_size e);
     ("font_weight", font_weight e);
     ("font_style", font_style e);
     ("text_align", text_align e);
     ("text_decoration", text_decoration e);
     ("line_height", line_height e);
     ("letter_spacing", letter_spacing e);
     ("word_spacing", word_spacing e);
     ("max_lines", max_lines e);
     ("text_transform", text_transform e);
     ("vertical_align", vertical_align e);
     ("white_space", white_space e);
     ("word_wrap", word_wrap e);
     ("text_overflow", text_overflow e)].

(** [TextElement.from_dict] *)
Definition from_dict (data : list (string * pyval)) (w : World) : option (t * World) :=
  cw <- init (get_default "text" (PStr "") data)
             (get_default "font_family" (PStr "Arial") data)
             (get_default "font_size" (PInt 16) data) [] w ;;
  let '(c, w) := cw in
  bw <- ContentElement.from_base_dict data w ;;
  let '(b, w) := bw in
  Some (mk b (text c) (font_family c) (font_size c) 
       (get_default "font_weight" (PStr "normal") data) 
       (get_default "font_style" (PStr "normal") data) 
       (get_default "text_align" (PStr "left") data) 
       (get_default "text_decoration" (PStr "none") data) 
       (get_default "line_height" (PFloat 1.2) data) 
       (get_default "letter_spacing" (PInt 0) data) 
       (get_default "word_spacing" (PInt 0) data) 
       (get_default "max_lines" (PNone) data) 
       (get_default "text_transform" (PStr "none") data) 
       (get_default "vertical_align" (PStr "top") data) 
       (get_default "white_space" (PStr "normal") data) 
       (get_default "word_wrap" (PBool true) data) 
       (get_default "text_overflow" (PStr "ellipsis") data), w).
End WithEnv.
End TextElement.

Module ImageElement.
Section WithEnv.
Context {DT : DatetimeLib} {IM : PIL}.

(** The attributes of an [ImageElement]. *)
Record t : Type := mk {
  base : ContentElement.t;
  image_path : pyval;
  original_path : pyval;
  alt_text : pyval;
  fit_mode : pyval;
  image_quality : pyval;
  preserve_aspect_ratio : pyval;
  filter_effects : pyval;
  crop : pyval;
  image_info : pyval
}.

Definition attributes : list string :=
  ["image_path"; "original_path"; "alt_text"; "fit_mode"; "image_quality"; "preserve_aspect_ratio"; "filter_effects"; "crop"; "image_info"].

Definition methods : list string :=
  ContentElement.methods ++ ["get_processed_path"; "apply_filters"; "_apply_sepia"; "from_dict"].

(** [element.__dict__.update(base_element.__dict__)] *)
Definition with_base (e : t) (b : ContentElement.t) : t :=
  mk b (image_path e) (original_path e) (alt_text e) (fit_mode e) (image_quality e) (preserve_aspect_ratio e) (filter_effects e) (crop e) (image_info e).

Definition hasattr (e : t) (k : string) : bool :=
  str_in k attributes || str_in k ContentElement.attributes || class_level methods k.

Definition setattr (e : t) (k : string) (v : pyval) : option t :=
  if String.eqb k "image_path" then Some (mk (base e) v (original_path e) (alt_text e) (fit_mode e) (image_quality e) (preserve_aspect_ratio e) (filter_effects e) (crop e) (image_info e))
  else if String.eqb k "original_path" then Some (mk (base e) (image_path e) v (alt_text e) (fit_mode e) (image_quality e) (preserve_aspect_ratio e) (filter_effects e) (crop e) (image_info e))
  else if String.eqb k "alt_text" then Some (mk (base e) (image_path e) (original_path e) v (fit_mode e) (image_quality e) (preserve_aspect_ratio e) (filter_effects e) (crop e) (image_info e))
  else if String.eqb k "fit_mode" then Some (mk (base e) (image_path e) (original_path e) (alt_text e) v (image_quality e) (preserve_aspect_ratio e) (filter_effects e) (crop e) (image_info e))
  else if String.eqb k "image_quality" then Some (mk (base e) (image_path e) (original_path e) (alt_text e) (fit_mode e) v (preserve_aspect_ratio e) (filter_effects e) (crop e) (image_info e))
  else if String.eqb k "preserve_aspect_ratio" then Some (mk (base e) (image_path e) (original_path e) (alt_text e) (fit_mode e) (image_quality e) v (filter_effects e) (crop e) (image_info e))
  else if String.eqb k "filter_effects" then Some (mk (base e) (image_path e) (original_path e) (alt_text e) (fit_mode e) (image_quality e) (preserve_aspect_ratio e) v (crop e) (image_info e))
  else if String.eqb k "crop" then Some (mk (base e) (image_path e) (original_path e) (alt_text e) (fit_mode e) (image_quality e) (preserve_aspect_ratio e) (filter_effects e) v (image_info e))
  else if String.eqb k "image_info" then Some (mk (base e) (image_path e) (original_path e) (alt_text e) (fit_mode e) (image_quality e) (preserve_aspect_ratio e) (filter_effects e) (crop e) v)
  else if class_level methods k then None
  else b <- ContentElement.setattr (base e) k v ;; Some (with_base e b).

Definition default_filter_effects : pyval :=
  PDict [("brightness", PInt 100); ("contrast", PInt 100); ("saturation", PInt 100);
         ("hue", PInt 0); ("blur", PInt 0); ("grayscale", PInt 0);
         ("sepia", PInt 0); ("invert", PInt 0)].

Definition default_crop : pyval :=
  PDict [("x", PInt 0); ("y", PInt 0); ("width", PInt 100); ("height", PInt 100)].

Definition default_image_info : pyval :=
  PDict [("format", PStr ""); ("size", PTuple [PInt 0; PInt 0]); ("file_size", PInt 0);
         ("color_mode", PStr ""); ("has_transparency", PBool false)].

(** [ImageElement.__init__] *)
Definition init (image_path alt_text : pyval) (kwargs : list (string * pyval))
  (w : World) : option (t * World) :=
  bw <- ContentElement.init_kwargs "image" kwargs w ;;
  let '(b, w) := bw in
  a <- py_str alt_text ;;
  Some (mk b image_path image_path (PStr a) (PStr "contain") (PInt 100) (PBool true)
           default_filter_effects default_crop default_image_info, w).

(** [ImageElement.to_dict] *)
Definition to_dict (e : t) : list (string * pyval) :=
  dict_update (ContentElement.to_dict (base e))
    [
     ("image_path", image_path e);
     ("original_path", original_path e);
     ("alt_text", alt_text e);
     ("fit_mode", fit_mode e);
     ("image_quality", image_quality e);
     ("preserve_aspect_ratio", preserve_aspect_ratio e);
     ("filter_effects", filter_effects e);
     ("crop", crop e);
     ("image_info", image_info e)].

(** [ImageElement.from_dict] *)
Definition from_dict (data : list (string * pyval)) (w : World) : option (t * World) :=
  cw <- init (get_default "image_path" (PStr "") data)
             (get_default "alt_text" (PStr "") data) [] w ;;
  let '(c, w) := cw in
  bw <- ContentElement.from_base_dict data w ;;
  let '(b, w) := bw in
  Some (mk b (image_path c)
           (get_default "original_path" (PStr "") data)
           (alt_text c)
           (get_default "fit_mode" (PStr "contain") data)
           (get_default "image_quality" (PInt 100) data)
           (get_default "preserve_aspect_ratio" (PBool true) data)
           (get_default "filter_effects" (PDict []) data)
           (get_default "crop" default_crop data)
           (get_default "image_info" (PDict []) data), w).
(** [get_processed_path]: the empty string for a falsy path; [TypeError]
    for a truthy path or an id that is not a string. *)
Definition get_processed_path (e : t) (slide_id : Z) : option string :=
  if negb (py_truthy (image_path e)) then Some ""
  else
    p <- py_str (image_path e) ;;
    i <- py_str (ContentElement.id (base e)) ;;
    let '(filename, ext) := splitext (basename p) in
    let processed_filename := filename ++ "_processed_" ++ str_take 8 i ++ ext in
    Some (path_join "content"
            ["slide_" ++ str_of_int slide_id; "images"; "processed"; processed_filename]).

(** One weighted sum of [_apply_sepia]:
    [int(wr * r + wg * g + wb * b)]. *)
Definition sepia_weighted (wr wg wb : float) (r g b : Z) : option Z :=
  fr <- float_of_int r ;;
  fg <- float_of_int g ;;
  fb <- float_of_int b ;;
  int_of_float (wr * fr + wg * fg + wb * fb)%float.

(** The sepia tone of a pixel: the three weighted sums, each cut at 255. *)
Definition sepia_tone (r g b : Z) : option (Z * Z * Z) :=
  tr <- sepia_weighted 0.393 0.769 0.189 r g b ;;
  tg <- sepia_weighted 0.349 0.686 0.168 r g b ;;
  tb <- sepia_weighted 0.272 0.534 0.131 r g b ;;
  Some (Z.min 255 tr, Z.min 255 tg, Z.min 255 tb).

(** One channel of the blend: [int(c + (tc - c) * intensity / 100)]. *)
Definition sepia_mix (c tc : Z) (intensity : num) : option Z :=
  p <- num_mul (NInt (tc - c)) intensity ;;
  q <- num_truediv p (NInt 100) ;;
  s <- num_add (NInt c) (NFloat q) ;;
  num_int s.

(** The body of the pixel loop of [_apply_sepia]. *)
Definition sepia_pixel (intensity : num) (p : Z * Z * Z) : option (Z * Z * Z) :=
  let '(r, g, b) := p in
  t <- sepia_tone r g b ;;
  let '(tr, tg, tb) := t in
  mix_r <- sepia_mix r tr intensity ;;
  mix_g <- sepia_mix g tg intensity ;;
  mix_b <- sepia_mix b tb intensity ;;
  Some (mix_r, mix_g, mix_b).

(** [_apply_sepia]: rows outside, columns inside, each pixel read from the
    image and written back in place. *)
Definition _apply_sepia (img : image) (intensity : pyval) : option image :=
  let '(size0, size1) := Image_size img in
  fold_left
    (fun acc py =>
       fold_left
         (fun acc px =>
            im <- acc ;;
            chans <- Image_getpixel im px py ;;
            match firstn 3 chans with
            | [r; g; b] =>
                i <- as_num intensity ;;
                mixed <- sepia_pixel i (r, g, b) ;;
                Image_putpixel im px py mixed
            | _ => None
            end)
         (seq 0 size0) acc)
    (seq 0 size1) (Some img).

(** The filter stages of [apply_filters], in the order of the source. *)
Definition run_filters (e : t) (img : image) : option image :=
  let fe := filter_effects e in
  brightness <- py_getitem fe "brightness" ;;
  img <- (if py_ne_int brightness 100
          then f <- py_truediv_int brightness 100 ;; enhance_brightness img f
          else Some img) ;;
  contrast <- py_getitem fe "contrast" ;;
  img <- (if py_ne_int contrast 100
          then f <- py_truediv_int contrast 100 ;; enhance_contrast img f
          else Some img) ;;
  saturation <- py_getitem fe "saturation" ;;
  img <- (if py_ne_int saturation 100
          then f <- py_truediv_int saturation 100 ;; enhance_color img f
          else Some img) ;;
  blur <- py_getitem fe "blur" ;;
  blur_on <- py_gt_int blur 0 ;;
  img <- (if blur_on : bool then gaussian_blur img blur else Some img) ;;
  sepia <- py_getitem fe "sepia" ;;
  sepia_on <- py_gt_int sepia 0 ;;
  img <- (if sepia_on : bool then _apply_sepia img sepia else Some img) ;;
  grayscale <- py_getitem fe "grayscale" ;;
  grayscale_on <- py_gt_int grayscale 0 ;;
  if grayscale_on : bool
  then gray_img <- convert_L_RGB img ;;
       f <- py_truediv_int grayscale 100 ;;
       Image_blend img gray_img f
  else Some img.

(** What [apply_filters] is about to save, and where: [None] covers the
    missing source file and every exception that the [try] of the source
    catches before the save. *)
Definition processed_output (e : t) (slide_id : Z) (w : World)
  : option (string * image) :=
  p <- py_str (image_path e) ;;
  src <- dict_get p (files w) ;;
  img <- Image_open src ;;
  processed_img <- run_filters e img ;;
  processed_path <- get_processed_path e slide_id ;;
  Some (processed_path, processed_img).

(** [apply_filters] *)
Definition apply_filters (e : t) (slide_id : Z) (w : World) : bool * World :=
  match processed_output e slide_id w with
  | Some (processed_path, processed_img) =>
      try_save processed_img processed_path (image_quality e) w
  | None => (false, w)
  end.

End WithEnv.
End ImageElement.

Module IconElement.
Section WithEnv.
Context {DT : DatetimeLib} {IM : PIL}.

(** The attributes of an [IconElement]. *)
Record t : Type := mk {
  base : ContentElement.t;
  icon_code : pyval;
  icon_type : pyval;
  icon_family : pyval;
  icon_size : pyval;
  icon_color : pyval;
  icon_library : pyval;
  icon_variant : pyval;
  custom_svg_path : pyval;
  custom_image_path : pyval
}.

Definition attributes : list string :=
  ["icon_code"; "icon_type"; "icon_family"; "icon_size"; "icon_color"; "icon_library"; "icon_variant"; "custom_svg_path"; "custom_image_path"].

Definition methods : list string :=
  ContentElement.methods ++ ["get_display_value"; "from_dict"].

(** [element.__dict__.update(base_element.__dict__)] *)
Definition with_base (e : t) (b : ContentElement.t) : t :=
  mk b (icon_code e) (icon_type e) (icon_family e) (icon_size e) (icon_color e) (icon_library e) (icon_variant e) (custom_svg_path e) (custom_image_path e).

Definition hasattr (e : t) (k : string) : bool :=
  str_in k attributes || str_in k ContentElement.attributes || class_level methods k.

Definition setattr (e : t) (k : string) (v : pyval) : option t :=
  if String.eqb k "icon_code" then Some (mk (base e) v (icon_type e) (icon_family e) (icon_size e) (icon_color e) (icon_library e) (icon_variant e) (custom_svg_path e) (custom_image_path e))
  else if String.eqb k "icon_type" then Some (mk (base e) (icon_code e) v (icon_family e) (icon_size e) (icon_color e) (icon_library e) (icon_variant e) (custom_svg_path e) (custom_image_path e))
  else if String.eqb k "icon_family" then Some (mk (base e) (icon_code e) (icon_type e) v (icon_size e) (icon_color e) (icon_library e) (icon_variant e) (custom_svg_path e) (custom_image_path e))
  else if String.eqb k "icon_size" then Some (mk (base e) (icon_code e) (icon_type e) (icon_family e) v (icon_color e) (icon_library e) (icon_variant e) (custom_svg_path e) (custom_image_path e))
  else if String.eqb k "icon_color" then Some (mk (base e) (icon_code e) (icon_type e) (icon_family e) (icon_size e) v (icon_library e) (icon_variant e) (custom_svg_path e) (custom_image_path e))
  else if String.eqb k "icon_library" then Some (mk (base e) (icon_code e) (icon_type e) (icon_family e) (icon_size e) (icon_color e) v (icon_variant e) (custom_svg_path e) (custom_image_path e))
  else if String.eqb k "icon_variant" then Some (mk (base e) (icon_code e) (icon_type e) (icon_family e) (icon_size e) (icon_color e) (icon_library e) v (custom_svg_path e) (custom_image_path e))
  else if String.eqb k "custom_svg_path" then Some (mk (base e) (icon_code e) (icon_type e) (icon_family e) (icon_size e) (icon_color e) (icon_library e) (icon_variant e) v (custom_image_path e))
  else if String.eqb k "custom_image_path" then Some (mk (base e) (icon_code e) (icon_type e) (icon_family e) (icon_size e) (icon_color e) (icon_library e) (icon_variant e) (custom_svg_path e) v)
  else if class_level methods k then None
  else b <- ContentElement.setattr (base e) k v ;; Some (with_base e b).

(** [IconElement.__init__] *)
Definition init (icon_code icon_type : pyval) (kwargs : list (string * pyval))
  (w : World) : option (t * World) :=
  bw <- ContentElement.init_kwargs "icon" kwargs w ;;
  let '(b, w) := bw in
  s <- py_str icon_code ;;
  Some (mk b (PStr s) icon_type (PStr "Arial") (PInt 24) (PStr "#000000") (PStr "")
           (PStr "regular") (PStr "") (PStr ""), w).

(** [get_display_value]: the f-string of the [fontawesome] branch needs the
    printed form of the code, modelled for strings. *)
Definition get_display_value (e : t) : option pyval :=
  if py_eq_str (icon_type e) "unicode" || py_eq_str (icon_type e) "emoji"
  then Some (icon_code e)
  else if py_eq_str (icon_type e) "fontawesome"
  then s <- py_str (icon_code e) ;; Some (PStr ("fa-" ++ s))
  else Some (icon_code e).

(** [IconElement.to_dict] *)
Definition to_dict (e : t) : list (string * pyval) :=
  dict_update (ContentElement.to_dict (base e))
    [
     ("icon_code", icon_code e);
     ("icon_type", icon_type e);
     ("icon_family", icon_family e);
     ("icon_size", icon_size e);
     ("icon_color", icon_color e);
     ("icon_library", icon_library e);
     ("icon_variant", icon_variant e);
     ("custom_svg_path", custom_svg_path e);
     ("custom_image_path", custom_image_path e)].

(** [IconElement.from_dict] *)
Definition from_dict (data : list (string * pyval)) (w : World) : option (t * World) :=
  cw <- init (get_default "icon_code" (PStr "") data)
             (get_default "icon_type" (PStr "unicode") data) [] w ;;
  let '(c, w) := cw in
  bw <- ContentElement.from_base_dict data w ;;
  let '(b, w) := bw in
  Some (mk b (icon_code c) (icon_type c)
           (get_default "icon_family" (PStr "Arial") data)
           (get_default "icon_size" (PInt 24) data)
           (get_default "icon_color" (PStr "#000000") data)
           (get_default "icon_library" (PStr "") data)
           (get_default "icon_variant" (PStr "regular") data)
           (get_default "custom_svg_path" (PStr "") data)
           (get_default "custom_image_path" (PStr "") data), w).
End WithEnv.
End IconElement.

Module SymbolElement.
Section WithEnv.
Context {DT : DatetimeLib} {IM : PIL}.

(** The attributes of a [SymbolElement]. *)
Record t : Type := mk {
  base : ContentElement.t;
  symbol : pyval;
  symbol_type : pyval;
  symbol_size : pyval;
  symbol_unicode : pyval;
  symbol_name : pyval;
  symbol_category : pyval;
  math_notation : pyval;
  latex_code : pyval
}.

Definition attributes : list string :=
  ["symbol"; "symbol_type"; "symbol_size"; "symbol_unicode"; "symbol_name"; "symbol_category"; "math_notation"; "latex_code"].

Definition methods : list string :=
  ContentElement.methods ++ ["get_unicode_info"; "from_dict"].

(** [element.__dict__.update(base_element.__dict__)] *)
Definition with_base (e : t) (b : ContentElement.t) : t :=
  mk b (symbol e) (symbol_type e) (symbol_size e) (symbol_unicode e) (symbol_name e) (symbol_category e) (math_notation e) (latex_code e).

Definition hasattr (e : t) (k : string) : bool :=
  str_in k attributes || str_in k ContentElement.attributes || class_level methods k.

Definition setattr (e : t) (k : string) (v : pyval) : option t :=
  if String.eqb k "symbol" then Some (mk (base e) v (symbol_type e) (symbol_size e) (symbol_unicode e) (symbol_name e) (symbol_category e) (math_notation e) (latex_code e))
  else if String.eqb k "symbol_type" then Some (mk (base e) (symbol e) v (symbol_size e) (symbol_unicode e) (symbol_name e) (symbol_category e) (math_notation e) (latex_code e))
  else if String.eqb k "symbol_size" then Some (mk (base e) (symbol e) (symbol_type e) v (symbol_unicode e) (symbol_name e) (symbol_category e) (math_notation e) (latex_code e))
  else if String.eqb k "symbol_unicode" then Some (mk (base e) (symbol e) (symbol_type e) (symbol_size e) v (symbol_name e) (symbol_category e) (math_notation e) (latex_code e))
  else if String.eqb k "symbol_name" then Some (mk (base e) (symbol e) (symbol_type e) (symbol_size e) (symbol_unicode e) v (symbol_category e) (math_notation e) (latex_code e))
  else if String.eqb k "symbol_category" then Some (mk (base e) (symbol e) (symbol_type e) (symbol_size e) (symbol_unicode e) (symbol_name e) v (math_notation e) (latex_code e))
  else if String.eqb k "math_notation" then Some (mk (base e) (symbol e) (symbol_type e) (symbol_size e) (symbol_unicode e) (symbol_name e) (symbol_category e) v (latex_code e))
  else if String.eqb k "latex_code" then Some (mk (base e) (symbol e) (symbol_type e) (symbol_size e) (symbol_unicode e) (symbol_name e) (symbol_category e) (math_notation e) v)
  else if class_level methods k then None
  else b <- ContentElement.setattr (base e) k v ;; Some (with_base e b).

(** [SymbolElement.__init__] *)
Definition init (symbol symbol_type : pyval) (kwargs : list (string * pyval))
  (w : World) : option (t * World) :=
  bw <- ContentElement.init_kwargs "symbol" kwargs w ;;
  let '(b, w) := bw in
  s <- py_str symbol ;;
  Some (mk b (PStr s) symbol_type (PInt 24) (PStr "") (PStr "") (PStr "")
           (PStr "") (PStr ""), w).

(** [get_unicode_info]: the descriptors of the first code point; the empty
    dictionary for a falsy symbol; [TypeError] for a truthy symbol that is
    not a string. *)
Definition get_unicode_info (e : t) : option pyval :=
  if py_truthy (symbol e)
  then match symbol e with
       | PStr (String c _) =>
           let code := N.to_nat (N_of_ascii c) in
           Some (PDict [("decimal", PStr (str_of_nat code));
                        ("hex", PStr ("U+" ++ hex_04X code));
                        ("html", PStr ("&#" ++ str_of_nat code ++ ";"));
                        ("css", PStr ("\" ++ hex_04X code))])
       | _ => None
       end
  else Some (PDict []).

(** [SymbolElement.to_dict] *)
Definition to_dict (e : t) : option (list (string * pyval)) :=
  info <- get_unicode_info e ;;
  Some (dict_update (ContentElement.to_dict (base e))
    [
     ("symbol", symbol e);
     ("symbol_type", symbol_type e);
     ("symbol_size", symbol_size e);
     ("symbol_unicode", symbol_unicode e);
     ("symbol_name", symbol_name e);
     ("symbol_category", symbol_category e);
     ("math_notation", math_notation e);
     ("latex_code", latex_code e);
     ("unicode_info", info)]).

(** [SymbolElement.from_dict] *)
Definition from_dict (data : list (string * pyval)) (w : World) : option (t * World) :=
  cw <- init (get_default "symbol" (PStr "") data)
             (get_default "symbol_type" (PStr "emoji") data) [] w ;;
  let '(c, w) := cw in
  bw <- ContentElement.from_base_dict data w ;;
  let '(b, w) := bw in
  Some (mk b (symbol c) (symbol_type c)
           (get_default "symbol_size" (PInt 24) data)
           (get_default "symbol_unicode" (PStr "") data)
           (get_default "symbol_name" (PStr "") data)
           (get_default "symbol_category" (PStr "") data)
           (get_default "math_notation" (PStr "") data)
           (get_default "latex_code" (PStr "") data), w).
End WithEnv.
End SymbolElement.

(** An element of a slide: an instance of one of the four subclasses. *)
Inductive Element {DT : DatetimeLib} : Type :=
| EText (e : TextElement.t)
| EImage (e : ImageElement.t)
| EIcon (e : IconElement.t)
| ESymbol (e : SymbolElement.t).

Section ElementOps.
Context {DT : DatetimeLib} {IM : PIL}.

Definition element_base (el : Element) : ContentElement.t :=
  match el with
  | EText e => TextElement.base e
  | EImage e => ImageElement.base e
  | EIcon e => IconElement.base e
  | ESymbol e => SymbolElement.base e
  end.

Definition element_with_base (el : Element) (b : ContentElement.t) : Element :=
  match el with
  | EText e => EText (TextElement.with_base e b)
  | EImage e => EImage (ImageElement.with_base e b)
  | EIcon e => EIcon (IconElement.with_base e b)
  | ESymbol e => ESymbol (SymbolElement.with_base e b)
  end.

(** [element.id], [element.type], [element.z_index] *)
Definition element_id (el : Element) : pyval := ContentElement.id (element_base el).
Definition element_type (el : Element) : pyval := ContentElement.type (element_base el).
Definition element_z_index (el : Element) : pyval :=
  ContentElement.z_index (element_base el).

(** [element.to_dict()], dispatched on the class of the instance *)
Definition element_to_dict (el : Element) : option (list (string * pyval)) :=
  match el with
  | EText e => Some (TextElement.to_dict e)
  | EImage e => Some (ImageElement.to_dict e)
  | EIcon e => Some (IconElement.to_dict e)
  | ESymbol e => SymbolElement.to_dict e
  end.

Definition element_hasattr (el : Element) (k : string) : bool :=
  match el with
  | EText e => TextElement.hasattr e k
  | EImage e => ImageElement.hasattr e k
  | EIcon e => IconElement.hasattr e k
  | ESymbol e => SymbolElement.hasattr e k
  end.

Definition element_setattr (el : Element) (k : string) (v : pyval) : option Element :=
  match el with
  | EText e => e' <- TextElement.setattr e k v ;; Some (EText e')
  | EImage e => e' <- ImageElement.setattr e k v ;; Some (EImage e')
  | EIcon e => e' <- IconElement.setattr e k v ;; Some (EIcon e')
  | ESymbol e => e' <- SymbolElement.setattr e k v ;; Some (ESymbol e')
  end.

(** [element.text]: [AttributeError] off a [TextElement]. *)
Definition element_text (el : Element) : option pyval :=
  match el with
  | EText e => Some (TextElement.text e)
  | _ => None
  end.
End ElementOps.

(* ===================================================================== *)
(** * Sorting *)
(* ===================================================================== *)

(** [list.sort(key=...)] is stable: equal keys keep their order.  A stable
    sort has one possible result, computed here by insertion. *)
Section StableSort.
Context {A : Type}.

Fixpoint insert_by_key (k : Z) (x : A) (l : list (Z * A)) : list (Z * A) :=
  match l with
  | [] => [(k, x)]
  | (k', y) :: l' =>
      if k <=? k' then (k, x) :: l else (k', y) :: insert_by_key k x l'
  end.

Fixpoint sort_keyed (l : list (Z * A)) : list (Z * A) :=
  match l with
  | [] => []
  | (k, x) :: l' => insert_by_key k x (sort_keyed l')
  end.

(** All keys are computed before any element moves; a key that raises
    leaves the exception to the caller. *)
Fixpoint keyed (key : A -> option Z) (l : list A) : option (list (Z * A)) :=
  match l with
  | [] => Some []
  | x :: l' => k <- key x ;; r <- keyed key l' ;; Some ((k, x) :: r)
  end.

Definition sort_by_key (key : A -> option Z) (l : list A) : option (list A) :=
  kl <- keyed key l ;; Some (map snd (sort_keyed kl)).
End StableSort.

(** [l.remove(x)]: the first occurrence goes. *)
Fixpoint list_remove (x : string) (l : list string) : list string :=
  match l with
  | [] => []
  | y :: l' => if String.eqb x y then l' else y :: list_remove x l'
  end.

(** [l[-n:]] *)
Definition last_n {A} (n : nat) (l : list A) : list A :=
  skipn (List.length l - n) l.

(* ===================================================================== *)
(** * Slides *)
(* ===================================================================== *)

Definition SUPPORTED_IMAGE_FORMATS : list string :=
  [".jpg"; ".jpeg"; ".png"; ".gif"; ".bmp"; ".webp"; ".svg"].
Definition DEFAULT_SLIDE_WIDTH : Z := 1920.
Definition DEFAULT_SLIDE_HEIGHT : Z := 1080.

(** [unicodedata.category(c) == 'So'] on the modelled code points: the broken
    bar, the copyright and registered signs and the degree sign. *)
Definition category_So (c : ascii) : bool :=
  let n := ord c in (n =? 166) || (n =? 169) || (n =? 174) || (n =? 176).

Fixpoint str_exists (f : ascii -> bool) (s : string) : bool :=
  match s with
  | EmptyString => false
  | String c r => f c || str_exists f r
  end.

Module SlideData.
Section WithEnv.
Context {DT : DatetimeLib} {IM : PIL}.

Record t : Type := mk {
  slide_id : Z;
  title : string;
  background_color : pyval;
  background_image : pyval;
  background_gradient : pyval;
  last_modified : datetime;
  version : Z;
  created_at : datetime;
  elements : list (string * Element);
  element_order : list string;
  config : pyval;
  change_history : list pyval
}.

Definition default_config : pyval :=
  PDict [("width", PInt DEFAULT_SLIDE_WIDTH); ("height", PInt DEFAULT_SLIDE_HEIGHT);
         ("animation_in", PStr "none"); ("animation_out", PStr "none");
         ("duration", PInt 5000); ("auto_advance", PBool false);
         ("transition", PStr "none"); ("background_music", PNone);
         ("notes", PStr "")].

(** [SlideData.__init__], with [slide_id] an [int] and [title] a [str]. *)
Definition init (slide_id : Z) (title : string) (background_color : pyval) (w : World)
  : t * World :=
  let '(lm, w) := now w in
  let '(ca, w) := now w in
  (mk slide_id title background_color PNone PNone lm 1 ca [] [] default_config [], w).

Definition with_elements (s : t) (els : list (string * Element)) : t :=
  mk (slide_id s) (title s) (background_color s) (background_image s)
     (background_gradient s) (last_modified s) (version s) (created_at s)
     els (element_order s) (config s) (change_history s).

Definition with_element_order (s : t) (order : list string) : t :=
  mk (slide_id s) (title s) (background_color s) (background_image s)
     (background_gradient s) (last_modified s) (version s) (created_at s)
     (elements s) order (config s) (change_history s).

Definition with_change_history (s : t) (h : list pyval) : t :=
  mk (slide_id s) (title s) (background_color s) (background_image s)
     (background_gradient s) (last_modified s) (version s) (created_at s)
     (elements s) (element_order s) (config s) h.

(** [_add_to_history] *)
Definition _add_to_history (action element_id : string) (data : pyval) (s : t)
  (w : World) : t * World :=
  let '(n, w) := now w in
  let h : list pyval :=
    (change_history s ++
       [PDict [("timestamp", PStr (isoformat n));
               ("action", PStr action);
               ("element_id", PStr element_id);
               ("data", data);
               ("version", PInt (version s))]])%list in
  (with_change_history s (if Nat.ltb 100 (List.length h) then last_n 100 h else h), w).

(** [_update_modified] *)
Definition _update_modified (s : t) (w : World) : t * World :=
  let '(n, w) := now w in
  (mk (slide_id s) (title s) (background_color s) (background_image s)
      (background_gradient s) n (version s + 1) (created_at s)
      (elements s) (element_order s) (config s) (change_history s), w).

(** The four lines that end every [add_*_element]:
    [self.elements[element.id] = element],
    [self.element_order.append(element.id)], the history entry and the
    version.  An id that is not a string is outside the model. *)
Definition register (el : Element) (data : pyval) (s : t) (w : World)
  : option (string * t * World) :=
  eid <- py_str (element_id el) ;;
  let s := with_elements s (dict_set eid el (elements s)) in
  let s := with_element_order s (element_order s ++ [eid]) in
  let '(s, w) := _add_to_history "add_element" eid data s w in
  let '(s, w) := _update_modified s w in
  Some (eid, s, w).

(** [add_text_element] *)
Definition add_text_element (text : string) (x y width height : pyval)
  (options : list (string * pyval)) (s : t) (w : World)
  : option (pyval * t * World) :=
  if kw_clash ["text"; "x"; "y"; "width"; "height"] options then None
  else
    ew <- TextElement.init (PStr text)
            (get_default "font_family" (PStr "Arial") options)
            (get_default "font_size" (PInt 16) options)
            ([("x", x); ("y", y); ("width", width); ("height", height)]
               ++ kw_without ["font_family"; "font_size"] options) w ;;
    let '(element, w) := ew in
    r <- register (EText element)
           (PDict [("type", PStr "text"); ("text", PStr text)]) s w ;;
    let '(eid, s, w) := r in
    Some (PStr eid, s, w).

(** [_copy_image_to_slide_folder]: the relative path of the copy, or [None]
    for an unsupported extension or a failed copy. *)
Definition _copy_image_to_slide_folder (image_path : string) (s : t) (w : World)
  : option string * World :=
  let file_ext := lower (snd (splitext image_path)) in
  if negb (str_in file_ext SUPPORTED_IMAGE_FORMATS) then (None, w)
  else
    let slide_dir :=
      path_join "content" ["slide_" ++ str_of_int (slide_id s); "images"; "original"] in
    let '(u, w) := uuid4 w in
    let filename := u ++ "_" ++ basename image_path in
    let dest_path := path_join2 slide_dir filename in
    match dict_get image_path (files w) with
    | Some src =>
        match write_file dest_path src w with
        | Some w' => (Some (relpath_content dest_path), w')
        | None => (None, w)
        end
    | None => (None, w)
    end.

(** [_get_image_info] *)
Definition _get_image_info (image_path : string) (w : World) : pyval :=
  match dict_get image_path (files w) with
  | Some f =>
      match Image_open f with
      | Some img =>
          PDict [("format", Image_format img);
                 ("size", PTuple [PInt (Z.of_nat (fst (Image_size img)));
                                  PInt (Z.of_nat (snd (Image_size img)))]);
                 ("file_size", PInt (getsize f));
                 ("color_mode", Image_mode img);
                 ("has_transparency", PBool (Image_has_transparency img))]
      | None => PDict []
      end
  | None => PDict []
  end.

(** [add_image_element] *)
Definition add_image_element (image_path : string) (x y width height : pyval)
  (options : list (string * pyval)) (s : t) (w : World)
  : option (pyval * t * World) :=
  if negb (path_exists image_path w) then Some (PNone, s, w)
  else
    let '(copied, w) := _copy_image_to_slide_folder image_path s w in
    match copied with
    | None => Some (PNone, s, w)
    | Some copied_path =>
        if String.eqb copied_path "" then Some (PNone, s, w)
        else if kw_clash ["image_path"; "x"; "y"; "width"; "height"] options then None
        else
          ew <- ImageElement.init (PStr copied_path)
                  (get_default "alt_text" (PStr "") options)
                  ([("x", x); ("y", y); ("width", width); ("height", height)]
                     ++ kw_without ["alt_text"] options) w ;;
          let '(e0, w) := ew in
          let element :=
            ImageElement.mk (ImageElement.base e0) (ImageElement.image_path e0)
              (PStr image_path) (ImageElement.alt_text e0) (ImageElement.fit_mode e0)
              (ImageElement.image_quality e0) (ImageElement.preserve_aspect_ratio e0)
              (ImageElement.filter_effects e0) (ImageElement.crop e0)
              (_get_image_info image_path w) in
          r <- register (EImage element)
                 (PDict [("type", PStr "image"); ("path", PStr image_path)]) s w ;;
          let '(eid, s, w) := r in
          let '(_, w) := ImageElement.apply_filters element (slide_id s) w in
          Some (PStr eid, s, w)
    end.

(** [add_icon_element] *)
Definition add_icon_element (icon_code : string) (x y size : pyval)
  (options : list (string * pyval)) (s : t) (w : World)
  : option (pyval * t * World) :=
  if kw_clash ["icon_code"; "x"; "y"; "width"; "height"] options then None
  else
    ew <- IconElement.init (PStr icon_code)
            (get_default "icon_type" (PStr "unicode") options)
            ([("x", x); ("y", y); ("width", size); ("height", size)]
               ++ kw_without ["icon_type"] options) w ;;
    let '(e0, w) := ew in
    let element :=
      IconElement.mk (IconElement.base e0) (IconElement.icon_code e0)
        (IconElement.icon_type e0) (IconElement.icon_family e0) size
        (IconElement.icon_color e0) (IconElement.icon_library e0)
        (IconElement.icon_variant e0) (IconElement.custom_svg_path e0)
        (IconElement.custom_image_path e0) in
    r <- register (EIcon element)
           (PDict [("type", PStr "icon"); ("code", PStr icon_code)]) s w ;;
    let '(eid, s, w) := r in
    Some (PStr eid, s, w).

(** [_is_emoji], [_is_mathematical_symbol] *)
Definition _is_emoji (text : string) : bool := str_exists category_So text.

Definition _is_mathematical_symbol (text : string) : bool :=
  let math_ranges := [(0x2200, 0x22FF); (0x2190, 0x21FF);
                      (0x27C0, 0x27EF); (0x2980, 0x29FF)] in
  str_exists
    (fun c => existsb (fun r => (fst r <=? ord c) && (ord c <=? snd r)) math_ranges)
    text.

(** [add_symbol_element] *)
Definition add_symbol_element (symbol : string) (x y size : pyval)
  (options : list (string * pyval)) (s : t) (w : World)
  : option (pyval * t * World) :=
  if kw_clash ["symbol"; "x"; "y"; "width"; "height"] options then None
  else
    ew <- SymbolElement.init (PStr symbol)
            (get_default "symbol_type" (PStr "emoji") options)
            ([("x", x); ("y", y); ("width", size); ("height", size)]
               ++ kw_without ["symbol_type"] options) w ;;
    let '(e0, w) := ew in
    let symbol_type :=
      if _is_emoji symbol then PStr "emoji"
      else if _is_mathematical_symbol symbol then PStr "mathematical"
      else SymbolElement.symbol_type e0 in
    let element :=
      SymbolElement.mk (SymbolElement.base e0) (SymbolElement.symbol e0)
        symbol_type size (SymbolElement.symbol_unicode e0)
        (SymbolElement.symbol_name e0) (SymbolElement.symbol_category e0)
        (SymbolElement.math_notation e0) (SymbolElement.latex_code e0) in
    r <- register (ESymbol element)
           (PDict [("type", PStr "symbol"); ("symbol", PStr symbol)]) s w ;;
    let '(eid, s, w) := r in
    Some (PStr eid, s, w).

(** [_get_thumbnail_path] *)
Definition _get_thumbnail_path (e : ImageElement.t) (s : t) : option string :=
  i <- py_str (ContentElement.id (ImageElement.base e)) ;;
  Some (path_join "content"
          ["slide_" ++ str_of_int (slide_id s); "images"; "thumbnails";
           "thumb_" ++ str_take 8 i ++ ".jpg"]).

Definition remove_if_exists (p : string) (w : World) : option World :=
  if path_exists p w then remove_file p w else Some w.

(** [_remove_image_files]: three removals inside one [try]; the first
    exception ends the sequence and is swallowed. *)
Definition _remove_image_files (e : ImageElement.t) (s : t) (w : World) : World :=
  let original (w : World) : option World :=
    if py_truthy (ImageElement.image_path e)
    then p <- py_str (ImageElement.image_path e) ;;
         remove_if_exists (path_join2 "content" p) w
    else Some w in
  let processed (w : World) : option World :=
    p <- ImageElement.get_processed_path e (slide_id s) ;; remove_if_exists p w in
  let thumbnail (w : World) : option World :=
    p <- _get_thumbnail_path e s ;; remove_if_exists p w in
  match original w with
  | None => w
  | Some w1 =>
      match processed w1 with
      | None => w1
      | Some w2 =>
          match thumbnail w2 with
          | None => w2
          | Some w3 => w3
          end
      end
  end.

(** [remove_element] *)
Definition remove_element (element_id : string) (s : t) (w : World)
  : option (pyval * t * World) :=
  match dict_get element_id (elements s) with
  | None => Some (PBool false, s, w)
  | Some element =>
      d <- element_to_dict element ;;
      let '(s, w) := _add_to_history "remove_element" element_id (PDict d) s w in
      let w :=
        if py_eq_str (element_type element) "image"
        then match element with
             | EImage e => _remove_image_files e s w
             | _ => w
             end
        else w in
      let s := with_elements s (dict_del element_id (elements s)) in
      let s :=
        if str_in element_id (element_order s)
        then with_element_order s (list_remove element_id (element_order s))
        else s in
      let '(s, w) := _update_modified s w in
      Some (PBool true, s, w)
  end.

(** The loop of [update_element] over the keyword arguments. *)
Fixpoint apply_updates (updates : list (string * pyval)) (el : Element)
  : option Element :=
  match updates with
  | [] => Some el
  | (key, value) :: rest =>
      if element_hasattr el key
      then el' <- element_setattr el key value ;; apply_updates rest el'
      else apply_updates rest el
  end.

(** [update_element].  A slide whose element of type ["image"] is not an
    [ImageElement] raises [AttributeError] at [apply_filters]. *)
Definition update_element (element_id : string) (updates : list (string * pyval))
  (s : t) (w : World) : option (pyval * t * World) :=
  match dict_get element_id (elements s) with
  | None => Some (PBool false, s, w)
  | Some element =>
      old_data <- element_to_dict element ;;
      element <- apply_updates updates element ;;
      let '(n, w) := now w in
      let element :=
        element_with_base element
          (ContentElement.set_modified_at (element_base element) n) in
      fw <- (if py_eq_str (element_type element) "image"
                && existsb (fun kv => startswith "filter_" (fst kv)) updates
             then match element with
                  | EImage e => Some (snd (ImageElement.apply_filters e (slide_id s) w))
                  | _ => None
                  end
             else Some w) ;;
      let s := with_elements s (dict_set element_id element (elements s)) in
      let '(s, w) :=
        _add_to_history "update_element" element_id
          (PDict [("old", PDict old_data); ("new", PDict updates)]) s fw in
      let '(s, w) := _update_modified s w in
      Some (PBool true, s, w)
  end.

(** The sort key of [reorder_element]: [self.elements[eid].z_index], with
    [KeyError] for an id that [elements] lacks.  A z-index that is not an
    [int] is outside the model. *)
Definition z_key (els : list (string * Element)) (eid : string) : option Z :=
  el <- dict_get eid els ;;
  match element_z_index el with
  | PInt z => Some z
  | _ => None
  end.

(** [reorder_element] *)
Definition reorder_element (element_id : string) (new_z_index : pyval)
  (s : t) (w : World) : option (pyval * t * World) :=
  match dict_get element_id (elements s) with
  | None => Some (PBool false, s, w)
  | Some element =>
      let old_z_index := element_z_index element in
      let element :=
        element_with_base element
          (ContentElement.set_z_index (element_base element) new_z_index) in
      let s := with_elements s (dict_set element_id element (elements s)) in
      order <- sort_by_key (z_key (elements s)) (element_order s) ;;
      let s := with_element_order s order in
      let '(s, w) :=
        _add_to_history "reorder_element" element_id
          (PDict [("old_z_index", old_z_index); ("new_z_index", new_z_index)]) s w in
      let '(s, w) := _update_modified s w in
      Some (PBool true, s, w)
  end.

(** [get_elements_by_type] *)
Definition get_elements_by_type (element_type_ : string) (s : t)
  : list (string * Element) :=
  filter (fun kv => py_eq_str (element_type (snd kv)) element_type_) (elements s).

(** The elements of a list of texts as strings: [TypeError] in [join] when
    one of them is not a string. *)
Fixpoint all_str (l : list pyval) : option (list string) :=
  match l with
  | [] => Some []
  | v :: l' => s <- py_str v ;; r <- all_str l' ;; Some (s :: r)
  end.

Fixpoint all_some {A} (l : list (option A)) : option (list A) :=
  match l with
  | [] => Some []
  | o :: l' => a <- o ;; r <- all_some l' ;; Some (a :: r)
  end.

(** [get_all_text_content] *)
Definition get_all_text_content (s : t) : option string :=
  let text_elements := get_elements_by_type "text" s in
  texts <- all_some (map element_text (dict_values text_elements)) ;;
  strs <- all_str texts ;;
  Some (join newline strs).

(** [stats['by_type'][t] = stats['by_type'].get(t, 0) + 1] *)
Definition count_type (ty : string) (by_type : list (string * pyval))
  : option (list (string * pyval)) :=
  n <- py_int (get_default ty (PInt 0) by_type) ;;
  Some (dict_set ty (PInt (n + 1)) by_type).

(** The loop of [get_slide_statistics] over [self.elements.values()],
    carrying [by_type], [total_characters], [total_words], [image_count].
    A type that is not a string, and a text that is not one, are outside
    the model. *)
Fixpoint statistics_loop (els : list Element)
  (acc : list (string * pyval) * Z * Z * Z)
  : option (list (string * pyval) * Z * Z * Z) :=
  match els with
  | [] => Some acc
  | el :: rest =>
      let '(by_type, chars, words, images) := acc in
      ty <- py_str (element_type el) ;;
      by_type <- count_type ty by_type ;;
      if String.eqb ty "text"
      then txt <- element_text el ;;
           str <- py_str txt ;;
           statistics_loop rest
             (by_type, chars + Z.of_nat (String.length str),
              words + count_words str, images)
      else if String.eqb ty "image"
      then statistics_loop rest (by_type, chars, words, images + 1)
      else statistics_loop rest (by_type, chars, words, images)
  end.

(** [get_slide_statistics] *)
Definition get_slide_statistics (s : t) : option pyval :=
  r <- statistics_loop (dict_values (elements s)) ([], 0, 0, 0) ;;
  let '(by_type, chars, words, images) := r in
  Some (PDict [("total_elements", PInt (Z.of_nat (List.length (elements s))));
               ("by_type", PDict by_type);
               ("total_characters", PInt chars);
               ("total_words", PInt words);
               ("image_count", PInt images);
               ("file_sizes", PDict [])]).

(** [_create_thumbnail]: an existing thumbnail is returned as it is;
    otherwise one is made; the empty string after any exception. *)
Definition _create_thumbnail (e : ImageElement.t) (s : t) (w : World)
  : string * World :=
  match _get_thumbnail_path e s with
  | None => ("", w)
  | Some thumbnail_path =>
      if path_exists thumbnail_path w then (thumbnail_path, w)
      else
        match
          (p <- py_str (ImageElement.image_path e) ;;
           src <- dict_get (path_join2 "content" p) (files w) ;;
           img <- Image_open src ;;
           Image_thumbnail img)
        with
        | Some small =>
            let '(saved, w') := try_save small thumbnail_path (PInt 85) w in
            (if saved : bool then thumbnail_path else "", w')
        | None => ("", w)
        end
  end.

(** The loop of [create_processed_version] over [self.elements.items()]. *)
Fixpoint processed_elements (els : list (string * Element)) (s : t)
  (acc : list (string * pyval)) (w : World)
  : option (list (string * pyval) * World) :=
  match els with
  | [] => Some (acc, w)
  | (eid, el) :: rest =>
      d <- element_to_dict el ;;
      if py_eq_str (element_type el) "image"
      then match el with
           | EImage e =>
               processed_path <- ImageElement.get_processed_path e (slide_id s) ;;
               let display :=
                 if path_exists processed_path w then PStr processed_path
                 else ImageElement.image_path e in
               let d := dict_set "display_path" display d in
               let '(thumb, w) := _create_thumbnail e s w in
               let d := dict_set "thumbnail" (PStr thumb) d in
               processed_elements rest s (dict_set eid (PDict d) acc) w
           | _ => None
           end
      else if py_eq_str (element_type el) "text"
      then match el with
           | EText e =>
               ft <- TextElement.get_formatted_text e ;;
               let d := dict_set "formatted_text" ft d in
               processed_elements rest s (dict_set eid (PDict d) acc) w
           | _ => None
           end
      else processed_elements rest s (dict_set eid (PDict d) acc) w
  end.

(** [create_processed_version]: it returns a document and leaves the slide
    as it is; [self.config.copy()] needs a dictionary. *)
Definition create_processed_version (s : t) (w : World) : option (pyval * World) :=
  match config s with
  | PDict cfg =>
      let '(n, w) := now w in
      r <- processed_elements (elements s) s [] w ;;
      let '(els, w) := r in
      Some (PDict [("slide_id", PInt (slide_id s));
                   ("title", PStr (title s));
                   ("background",
                    PDict [("color", background_color s);
                           ("image", background_image s);
                           ("gradient", background_gradient s)]);
                   ("config", PDict cfg);
                   ("elements", PDict els);
                   ("element_order", PList (map PStr (element_order s)));
                   ("processed_at", PStr (isoformat n));
                   ("version", PInt (version s))], w)
  | _ => None
  end.

(** [SlideData.to_dict] *)
Fixpoint elements_to_dict (els : list (string * Element))
  : option (list (string * pyval)) :=
  match els with
  | [] => Some []
  | (eid, el) :: rest =>
      d <- element_to_dict el ;;
      r <- elements_to_dict rest ;;
      Some ((eid, PDict d) :: r)
  end.

Definition to_dict (s : t) : option (list (string * pyval)) :=
  els <- elements_to_dict (elements s) ;;
  stats <- get_slide_statistics s ;;
  Some [("slide_id", PInt (slide_id s));
        ("title", PStr (title s));
        ("background_color", background_color s);
        ("background_image", background_image s);
        ("background_gradient", background_gradient s);
        ("created_at", PStr (isoformat (created_at s)));
        ("last_modified", PStr (isoformat (last_modified s)));
        ("version", PInt (version s));
        ("config", config s);
        ("elements", PDict els);
        ("element_order", PList (map PStr (element_order s)));
        ("change_history", PList (last_n 10 (change_history s)));
        ("statistics", stats)].

(** The element loop of [from_dict]: dispatch on the [type] of each record;
    a record of another type is skipped. *)
Fixpoint restore_elements (elements_data : list (string * pyval))
  (acc : list (string * Element)) (w : World)
  : option (list (string * Element) * World) :=
  match elements_data with
  | [] => Some (acc, w)
  | (eid, PDict element_data) :: rest =>
      let element_type_ := get_default "type" (PStr "text") element_data in
      if py_eq_str element_type_ "text"
      then r <- TextElement.from_dict element_data w ;;
           let '(e, w) := r in
           restore_elements rest (dict_set eid (EText e) acc) w
      else if py_eq_str element_type_ "image"
      then r <- ImageElement.from_dict element_data w ;;
           let '(e, w) := r in
           restore_elements rest (dict_set eid (EImage e) acc) w
      else if py_eq_str element_type_ "icon"
      then r <- IconElement.from_dict element_data w ;;
           let '(e, w) := r in
           restore_elements rest (dict_set eid (EIcon e) acc) w
      else if py_eq_str element_type_ "symbol"
      then r <- SymbolElement.from_dict element_data w ;;
           let '(e, w) := r in
           restore_elements rest (dict_set eid (ESymbol e) acc) w
      else restore_elements rest acc w
  | _ :: _ => None
  end.

(** The [try]/[except] around the two time stamps of [from_dict]. *)
Definition restore_timestamps (data : list (string * pyval)) (w : World)
  : datetime * datetime * World :=
  let '(n1, w) := now w in
  match parse_timestamp (get_default "created_at" (PStr (isoformat n1)) data) with
  | None => let '(n, w) := now w in (n, n, w)
  | Some c =>
      let '(n2, w) := now w in
      match parse_timestamp (get_default "last_modified" (PStr (isoformat n2)) data) with
      | None => let '(n, w) := now w in (n, n, w)
      | Some m => (c, m, w)
      end
  end.

(** [SlideData.from_dict].  The attributes that the model types take their
    stored value only when it has that type: a [version] that is not an
    [int], an [element_order] that is not a list of strings and a
    [change_history] that is not a list are outside the model. *)
Definition from_dict (data : list (string * pyval)) (w : World) : option (t * World) :=
  sid <- py_int (get_default "slide_id" (PInt 1) data) ;;
  ttl <- py_str (get_default "title" (PStr "") data) ;;
  let '(s0, w) := init sid ttl (get_default "background_color" (PStr "#ffffff") data) w in
  ver <- match get_default "version" (PInt 1) data with
         | PInt v => Some v
         | _ => None
         end ;;
  order <- match get_default "element_order" (PList []) data with
           | PList l => all_str l
           | _ => None
           end ;;
  history <- match get_default "change_history" (PList []) data with
             | PList l => Some l
             | _ => None
             end ;;
  let '(ca, lm, w) := restore_timestamps data w in
  match get_default "elements" (PDict []) data with
  | PDict elements_data =>
      r <- restore_elements elements_data [] w ;;
      let '(els, w) := r in
      Some (mk sid ttl (background_color s0)
               (get_default "background_image" PNone data)
               (get_default "background_gradient" PNone data)
               lm ver ca els order
               (get_default "config" (PDict []) data)
               history, w)
  | _ => None
  end.
End WithEnv.
End SlideData.

(* ===================================================================== *)
(** * Calls on a slide *)
(* ===================================================================== *)

Section Calls.
Context {DT : DatetimeLib} {IM : PIL}.

(** The public operations of a slide that the specification names. *)
Inductive call : Type :=
| AddText (text : string) (x y width height : pyval) (options : list (string * pyval))
| AddImage (image_path : string) (x y width height : pyval)
           (options : list (string * pyval))
| AddIcon (icon_code : string) (x y size : pyval) (options : list (string * pyval))
| AddSymbol (symbol : string) (x y size : pyval) (options : list (string * pyval))
| RemoveElement (element_id : string)
| UpdateElement (element_id : string) (updates : list (string * pyval))
| ReorderElement (element_id : string) (new_z_index : pyval)
| CreateProcessedVersion
| GetSlideStatistics
| GetElementsByType (element_type : string)
| GetAllTextContent.

(** What a call returns: a value, or the dictionary of elements that
    [get_elements_by_type] builds. *)
Inductive answer : Type :=
| Value (v : pyval)
| Elements (d : list (string * Element)).

Definition mutating (c : call) : bool :=
  match c with
  | AddText _ _ _ _ _ _ | AddImage _ _ _ _ _ _ | AddIcon _ _ _ _ _
  | AddSymbol _ _ _ _ _ | RemoveElement _ | UpdateElement _ _
  | ReorderElement _ _ => true
  | _ => false
  end.

(** A mutating call reports failure by returning [None] or [False]. *)
Definition succeeded (a : answer) : bool :=
  match a with
  | Value PNone => false
  | Value (PBool false) => false
  | _ => true
  end.

Definition as_value (r : option (pyval * SlideData.t * World))
  : option (answer * SlideData.t * World) :=
  x <- r ;; let '(v, s, w) := x in Some (Value v, s, w).

(** One call; [None] when it raises. *)
Definition run_call (c : call) (s : SlideData.t) (w : World)
  : option (answer * SlideData.t * World) :=
  match c with
  | AddText text x y width height options =>
      as_value (SlideData.add_text_element text x y width height options s w)
  | AddImage image_path x y width height options =>
      as_value (SlideData.add_image_element image_path x y width height options s w)
  | AddIcon icon_code x y size options =>
      as_value (SlideData.add_icon_element icon_code x y size options s w)
  | AddSymbol symbol x y size options =>
      as_value (SlideData.add_symbol_element symbol x y size options s w)
  | RemoveElement element_id =>
      as_value (SlideData.remove_element element_id s w)
  | UpdateElement element_id updates =>
      as_value (SlideData.update_element element_id updates s w)
  | ReorderElement element_id new_z_index =>
      as_value (SlideData.reorder_element element_id new_z_index s w)
  | CreateProcessedVersion =>
      r <- SlideData.create_processed_version s w ;;
      let '(v, w) := r in Some (Value v, s, w)
  | GetSlideStatistics =>
      v <- SlideData.get_slide_statistics s ;; Some (Value v, s, w)
  | GetElementsByType element_type =>
      Some (Elements (SlideData.get_elements_by_type element_type s), s, w)
  | GetAllTextContent =>
      v <- SlideData.get_all_text_content s ;; Some (Value (PStr v), s, w)
  end.

(** A sequence of calls, with the answers in order. *)
Fixpoint run_calls (cs : list call) (s : SlideData.t) (w : World)
  : option (list answer * SlideData.t * World) :=
  match cs with
  | [] => Some ([], s, w)
  | c :: rest =>
      r <- run_call c s w ;;
      let '(a, s, w) := r in
      r' <- run_calls rest s w ;;
      let '(answers, s, w) := r' in
      Some (a :: answers, s, w)
  end.

(** How many of the calls changed the slide. *)
Fixpoint successes (cs : list call) (answers : list answer) : Z :=
  match cs, answers with
  | c :: cs', a :: answers' =>
      (if mutating c && succeeded a then 1 else 0) + successes cs' answers'
  | _, _ => 0
  end.
End Calls.

(* ===================================================================== *)
(** * A small environment to run the code in *)
(* ===================================================================== *)

(** Time stamps identified with their ISO text
    [YYYY-MM-DDTHH:MM:SS], optionally followed by [.ffffff]. *)
Module IsoText.
Definition is_digit (c : ascii) : bool := (48 <=? ord c) && (ord c <=? 57).

Fixpoint matches (pattern s : string) : bool :=
  match pattern, s with
  | EmptyString, EmptyString => true
  | String p pattern', String c s' =>
      (if Ascii.eqb p "d" then is_digit c else Ascii.eqb p c) && matches pattern' s'
  | _, _ => false
  end.

Definition well_formed (s : string) : bool :=
  matches "dddd-dd-ddTdd:dd:dd" s || matches "dddd-dd-ddTdd:dd:dd.dddddd" s.

#[export] Instance lib : DatetimeLib := {|
  datetime := string;
  isoformat := fun d => d;
  fromisoformat := fun s => if well_formed s then Some s else None
|}.
End IsoText.

(** Rasters as rows of RGB pixels, stored undecoded.  Pixel access, loading
    and saving are implemented; the enhancers, the blur, the conversions and
    the thumbnail are not, and raise. *)
Module Raster.
Definition pixel : Type := Z * Z * Z.
Definition raster : Type := list (list pixel).

Definition size (img : raster) : nat * nat :=
  (match img with [] => O | row :: _ => List.length row end, List.length img).

Definition getpixel (img : raster) (px py : nat) : option (list Z) :=
  row <- nth_error img py ;;
  p <- nth_error row px ;;
  let '(r, g, b) := p in Some [r; g; b].

Fixpoint set_nth {A} (n : nat) (x : A) (l : list A) : option (list A) :=
  match n, l with
  | O, _ :: l' => Some (x :: l')
  | S n', y :: l' => r <- set_nth n' x l' ;; Some (y :: r)
  | _, [] => None
  end.

Definition putpixel (img : raster) (px py : nat) (p : pixel) : option raster :=
  row <- nth_error img py ;;
  row' <- set_nth px p row ;;
  set_nth py row' img.

#[export] Instance lib : PIL := {|
  file := raster;
  image := raster;
  getsize := fun f => Z.of_nat (3 * List.length (List.concat f));
  Image_open := fun f => Some f;
  Image_save := fun img _ _ => Some img;
  Image_save_leaves := fun _ _ _ old => old;
  Image_format := fun _ => PStr "PPM";
  Image_mode := fun _ => PStr "RGB";
  Image_size := size;
  Image_has_transparency := fun _ => false;
  Image_getpixel := getpixel;
  Image_putpixel := putpixel;
  enhance_brightness := fun _ _ => None;
  enhance_contrast := fun _ _ => None;
  enhance_color := fun _ _ => None;
  gaussian_blur := fun _ _ => None;
  convert_L_RGB := fun _ => None;
  Image_blend := fun _ _ _ => None;
  Image_thumbnail := fun _ => None
|}.
End Raster.

Module Demo.
Import IsoText Raster.

(** A clock that advances one second per reading, from midnight. *)
Definition two_digits (n : nat) : string :=
  String (digit_char (Nat.div n 10)) (String (digit_char (Nat.modulo n 10)) "").

Definition clock (n : nat) : string :=
  "2024-01-01T00:" ++ two_digits (Nat.modulo (Nat.div n 60) 60) ++ ":"
    ++ two_digits (Nat.modulo n 60).

(** Identifiers [id-0], [id-1], ... in the order they are drawn. *)
Definition uuids (n : nat) : string := "id-" ++ str_of_nat n.

Definition photo : raster := [[(10, 20, 30); (200, 100, 50)]].

(** A world with one image file and every path writable. *)
Definition world : World :=
  mkWorld clock 0 uuids 0 [("photo.png", photo); ("scan.tiff", photo)] (fun _ => true).

(** [SlideData(1, "Demo")] *)
Definition slide : SlideData.t := fst (SlideData.init 1 "Demo" (PStr "#ffffff") world).
Definition world1 : World := snd (SlideData.init 1 "Demo" (PStr "#ffffff") world).
End Demo.


(* ===================================================================== *)
(** * Facts about the helpers *)
(* ===================================================================== *)

Ltac inv H := inversion H; subst; clear H.

(** Splitting a successful computation into its successful steps. *)
Ltac break_step :=
  match goal with
  | H : Some _ = Some _ |- _ => inv H
  | H : (_, _) = (_, _) |- _ => inv H
  | H : None = Some _ |- _ => discriminate H
  | H : match ?x with _ => _ end = Some _ |- _ => destruct x eqn:?
  | H : match ?x with _ => _ end = (_, _) |- _ => destruct x eqn:?
  end.
Ltac break_steps := repeat break_step.

Section DictFacts.
Context {V : Type}.
Implicit Types (d : list (string * V)) (k : string).

Lemma dict_get_In_keys k d v : dict_get k d = Some v -> In k (dict_keys d).
Proof.
  induction d as [|[k' v'] d IH]; simpl; [discriminate|].
  destruct (String.eqb k k') eqn:E; intros H.
  - apply String.eqb_eq in E. now left.
  - right. now apply IH.
Qed.

Lemma dict_get_None_keys k d : dict_get k d = None -> ~ In k (dict_keys d).
Proof.
  induction d as [|[k' v'] d IH]; simpl; [tauto|].
  destruct (String.eqb k k') eqn:E; [discriminate|].
  intros H [H1|H1].
  - subst. now rewrite String.eqb_refl in E.
  - now apply IH.
Qed.

Lemma dict_mem_In_keys k d : dict_mem k d = true <-> In k (dict_keys d).
Proof.
  unfold dict_mem. destruct (dict_get k d) eqn:E; split; intros H;
    try reflexivity; try discriminate.
  - eapply dict_get_In_keys; eassumption.
  - now apply dict_get_None_keys in E.
Qed.

(** Assigning to a key that is present leaves the keys as they are. *)
Lemma dict_set_keys_present k v d :
  In k (dict_keys d) -> dict_keys (dict_set k v d) = dict_keys d.
Proof.
  induction d as [|[k' v'] d IH]; simpl; [tauto|].
  destruct (String.eqb k k') eqn:E; simpl; [reflexivity|].
  intros [H|H].
  - subst. now rewrite String.eqb_refl in E.
  - now rewrite IH.
Qed.

(** Assigning to a new key appends it. *)
Lemma dict_set_keys_fresh k v d :
  ~ In k (dict_keys d) -> dict_keys (dict_set k v d) = (dict_keys d ++ [k])%list.
Proof.
  induction d as [|[k' v'] d IH]; simpl; [reflexivity|].
  intros H. destruct (String.eqb k k') eqn:E.
  - apply String.eqb_eq in E. subst. tauto.
  - simpl. rewrite IH; tauto.
Qed.

Lemma dict_del_keys k d : dict_keys (dict_del k d) = list_remove k (dict_keys d).
Proof.
  induction d as [|[k' v'] d IH]; simpl; [reflexivity|].
  destruct (String.eqb k k'); simpl; [reflexivity|now rewrite IH].
Qed.

Lemma dict_get_set_same k v d : dict_get k (dict_set k v d) = Some v.
Proof.
  induction d as [|[k' v'] d IH]; simpl.
  - now rewrite String.eqb_refl.
  - destruct (String.eqb k k') eqn:E; simpl; rewrite E; [reflexivity|exact IH].
Qed.

Lemma dict_get_set_other k k' v d :
  k <> k' -> dict_get k (dict_set k' v d) = dict_get k d.
Proof.
  intros N. induction d as [|[k0 v0] d IH]; simpl.
  - destruct (String.eqb k k') eqn:E; [apply String.eqb_eq in E; tauto|reflexivity].
  - destruct (String.eqb k' k0) eqn:E; simpl.
    + apply String.eqb_eq in E. subst.
      destruct (String.eqb k k0) eqn:E'; [apply String.eqb_eq in E'; tauto|reflexivity].
    + destruct (String.eqb k k0); [reflexivity|exact IH].
Qed.
End DictFacts.

Lemma str_in_In x l : str_in x l = true <-> In x l.
Proof.
  unfold str_in. rewrite existsb_exists. split.
  - intros [y [H E]]. apply String.eqb_eq in E. now subst.
  - intros H. exists x. split; [exact H|apply String.eqb_refl].
Qed.

(** Removing an element that occurs once. *)
Lemma list_remove_perm x l : In x l -> Permutation l (x :: list_remove x l).
Proof.
  induction l as [|y l IH]; simpl; [tauto|].
  destruct (String.eqb x y) eqn:E.
  - apply String.eqb_eq in E. subst. reflexivity.
  - intros [H|H]; [subst; now rewrite String.eqb_refl in E|].
    rewrite perm_swap. now constructor; apply IH.
Qed.

Lemma last_n_short {A} n (l : list A) : (List.length l <= n)%nat -> last_n n l = l.
Proof.
  intros H. unfold last_n. replace (List.length l - n)%nat with O by lia. reflexivity.
Qed.

Lemma last_n_length {A} n (l : list A) : (List.length (last_n n l) <= n)%nat.
Proof. unfold last_n. rewrite length_skipn. lia. Qed.

(** Cutting, appending and cutting again is appending and cutting once: what
    [_add_to_history] keeps after many appends is the tail of everything that
    was appended. *)
Lemma last_n_app_l {A} n (l m : list A) :
  last_n n (last_n n l ++ m) = last_n n (l ++ m).
Proof.
  destruct (Nat.le_gt_cases (List.length l) n) as [H|H].
  - now rewrite (last_n_short n l H).
  - unfold last_n. rewrite !length_app, length_skipn.
    rewrite !skipn_app, length_skipn, skipn_skipn.
    f_equal; f_equal; lia.
Qed.

(* ===================================================================== *)
(** * What one call does to a slide *)
(* ===================================================================== *)

Section SlideFacts.
Context {DT : DatetimeLib} {IM : PIL}.
Import SlideData.

(** The mark every successful mutation leaves: one more version, one more
    history entry, the history cut to its last hundred. *)
Definition recorded (s s' : t) : Prop :=
  version s' = version s + 1 /\
  exists entry, change_history s' = last_n 100 (change_history s ++ [entry]).

Lemma add_to_history_spec action eid data s w s' w' :
  _add_to_history action eid data s w = (s', w') ->
  exists entry,
    s' = with_change_history s (last_n 100 (change_history s ++ [entry])).
Proof.
  unfold _add_to_history. destruct (now w) as [n w0]. intros H. inv H.
  eexists. f_equal.
  match goal with |- (if Nat.ltb 100 (List.length ?h) then _ else _) = _ =>
    destruct (Nat.ltb 100 (List.length h)) eqn:E; [reflexivity|] end.
  apply Nat.ltb_ge in E. symmetry. apply last_n_short. exact E.
Qed.

Lemma update_modified_spec s w s' w' :
  _update_modified s w = (s', w') ->
  version s' = version s + 1 /\ elements s' = elements s /\
  element_order s' = element_order s /\ change_history s' = change_history s /\
  slide_id s' = slide_id s.
Proof.
  unfold _update_modified. destruct (now w) as [n w0]. intros H. inv H.
  simpl. auto.
Qed.

(** A history entry and a version step after the elements and the order
    were set. *)
Lemma record_spec action eid data s w s1 w1 s' w' :
  _add_to_history action eid data s w = (s1, w1) ->
  _update_modified s1 w1 = (s', w') ->
  elements s' = elements s /\ element_order s' = element_order s /\
  slide_id s' = slide_id s /\ recorded s s'.
Proof.
  intros H1 H2. apply add_to_history_spec in H1. destruct H1 as [entry ->].
  apply update_modified_spec in H2. destruct H2 as (Hv & He & Ho & Hh & Hi).
  unfold recorded. rewrite Hv, He, Ho, Hh, Hi. simpl.
  repeat split; eauto.
Qed.

Lemma register_spec el data s w eid s' w' :
  register el data s w = Some (eid, s', w') ->
  element_id el = PStr eid /\
  elements s' = dict_set eid el (elements s) /\
  element_order s' = (element_order s ++ [eid])%list /\
  recorded s s'.
Proof.
  unfold register. intros H.
  destruct (py_str (element_id el)) as [k|] eqn:Ek; [|discriminate].
  destruct (_add_to_history _ _ _ _ _) as [s1 w1] eqn:E1.
  destruct (_update_modified s1 w1) as [s2 w2] eqn:E2.
  inv H.
  destruct (record_spec _ _ _ _ _ _ _ _ _ E1 E2) as (He & Ho & _ & Hr).
  simpl in He, Ho. unfold recorded in *. simpl in Hr.
  repeat split; try tauto.
  destruct (element_id el); try discriminate. simpl in Ek. congruence.
Qed.

Definition is_add (c : call) : bool :=
  match c with
  | AddText _ _ _ _ _ _ | AddImage _ _ _ _ _ _ | AddIcon _ _ _ _ _
  | AddSymbol _ _ _ _ _ => true
  | _ => false
  end.

(** The ways a call that returns can leave the slide. *)
Inductive effect (s s' : t) : call -> answer -> Prop :=
| effect_none c a :
    mutating c && succeeded a = false -> s' = s -> effect s s' c a
| effect_add c eid el :
    is_add c = true ->
    element_id el = PStr eid ->
    elements s' = dict_set eid el (elements s) ->
    element_order s' = (element_order s ++ [eid])%list ->
    recorded s s' ->
    effect s s' c (Value (PStr eid))
| effect_remove eid el :
    dict_get eid (elements s) = Some el ->
    elements s' = dict_del eid (elements s) ->
    element_order s' =
      (if str_in eid (element_order s) then list_remove eid (element_order s)
       else element_order s) ->
    recorded s s' ->
    effect s s' (RemoveElement eid) (Value (PBool true))
| effect_update eid updates old el :
    dict_get eid (elements s) = Some old ->
    elements s' = dict_set eid el (elements s) ->
    element_order s' = element_order s ->
    recorded s s' ->
    effect s s' (UpdateElement eid updates) (Value (PBool true))
| effect_reorder eid z old :
    dict_get eid (elements s) = Some old ->
    elements s' =
      dict_set eid
        (element_with_base old (ContentElement.set_z_index (element_base old) z))
        (elements s) ->
    sort_by_key (z_key (elements s')) (element_order s) = Some (element_order s') ->
    recorded s s' ->
    effect s s' (ReorderElement eid z) (Value (PBool true)).

Lemma add_text_element_effect text x y width height options s w a s' w' :
  add_text_element text x y width height options s w = Some (a, s', w') ->
  effect s s' (AddText text x y width height options) (Value a).
Proof.
  unfold add_text_element. intros H. break_steps.
  match goal with H : register _ _ _ _ = Some _ |- _ =>
    apply register_spec in H; destruct H as (? & ? & ? & ?) end.
  eapply effect_add; eauto.
Qed.

Lemma add_icon_element_effect icon_code x y size options s w a s' w' :
  add_icon_element icon_code x y size options s w = Some (a, s', w') ->
  effect s s' (AddIcon icon_code x y size options) (Value a).
Proof.
  unfold add_icon_element. intros H. break_steps.
  match goal with H : register _ _ _ _ = Some _ |- _ =>
    apply register_spec in H; destruct H as (? & ? & ? & ?) end.
  eapply effect_add; eauto.
Qed.

Lemma add_symbol_element_effect symbol x y size options s w a s' w' :
  add_symbol_element symbol x y size options s w = Some (a, s', w') ->
  effect s s' (AddSymbol symbol x y size options) (Value a).
Proof.
  unfold add_symbol_element. intros H. break_steps.
  match goal with H : register _ _ _ _ = Some _ |- _ =>
    apply register_spec in H; destruct H as (? & ? & ? & ?) end.
  eapply effect_add; eauto.
Qed.

Lemma add_image_element_effect image_path x y width height options s w a s' w' :
  add_image_element image_path x y width height options s w = Some (a, s', w') ->
  effect s s' (AddImage image_path x y width height options) (Value a).
Proof.
  unfold add_image_element. intros H. break_steps;
    try (apply effect_none; reflexivity).
  match goal with H : register _ _ _ _ = Some _ |- _ =>
    apply register_spec in H; destruct H as (? & ? & ? & ?) end.
  eapply effect_add; eauto.
Qed.

Lemma remove_element_effect eid s w a s' w' :
  remove_element eid s w = Some (a, s', w') ->
  effect s s' (RemoveElement eid) (Value a).
Proof.
  unfold remove_element. intros H.
  destruct (dict_get eid (elements s)) as [el|] eqn:Eg.
  2:{ inv H. apply effect_none; reflexivity. }
  destruct (element_to_dict el) as [d|]; [|discriminate].
  destruct (_add_to_history _ _ _ _ _) as [s1 w1] eqn:E1.
  match type of H with context [_update_modified ?a ?b] =>
    destruct (_update_modified a b) as [s2 w2] eqn:E2 end.
  inv H.
  apply add_to_history_spec in E1. destruct E1 as [entry ->].
  apply update_modified_spec in E2. destruct E2 as (Hv & He & Ho & Hh & _).
  eapply effect_remove; eauto.
  - rewrite He. destruct (str_in eid _); reflexivity.
  - rewrite Ho. simpl. destruct (str_in eid (element_order s)); reflexivity.
  - split.
    + rewrite Hv. destruct (str_in eid _); reflexivity.
    + exists entry. rewrite Hh. destruct (str_in eid _); reflexivity.
Qed.

Lemma update_element_effect eid updates s w a s' w' :
  update_element eid updates s w = Some (a, s', w') ->
  effect s s' (UpdateElement eid updates) (Value a).
Proof.
  unfold update_element. intros H.
  destruct (dict_get eid (elements s)) as [el|] eqn:Eg.
  2:{ inv H. apply effect_none; reflexivity. }
  destruct (element_to_dict el) as [d|]; [|discriminate].
  destruct (apply_updates updates el) as [el'|]; [|discriminate].
  destruct (now w) as [n w0].
  match type of H with match ?x with _ => _ end = _ =>
    destruct x as [fw|]; [|discriminate] end.
  destruct (_add_to_history _ _ _ _ _) as [s1 w1] eqn:E1.
  destruct (_update_modified s1 w1) as [s2 w2] eqn:E2.
  inv H.
  destruct (record_spec _ _ _ _ _ _ _ _ _ E1 E2) as (He & Ho & _ & Hr).
  simpl in He, Ho, Hr.
  eapply effect_update; eauto.
Qed.

Lemma reorder_element_effect eid z s w a s' w' :
  reorder_element eid z s w = Some (a, s', w') ->
  effect s s' (ReorderElement eid z) (Value a).
Proof.
  unfold reorder_element. intros H.
  destruct (dict_get eid (elements s)) as [el|] eqn:Eg.
  2:{ inv H. apply effect_none; reflexivity. }
  match type of H with match ?x with _ => _ end = _ =>
    destruct x as [order|] eqn:Es; [|discriminate] end.
  destruct (_add_to_history _ _ _ _ _) as [s1 w1] eqn:E1.
  destruct (_update_modified s1 w1) as [s2 w2] eqn:E2.
  inv H.
  destruct (record_spec _ _ _ _ _ _ _ _ _ E1 E2) as (He & Ho & _ & Hr).
  simpl in He, Ho, Hr.
  eapply effect_reorder; eauto.
  rewrite He, Ho. exact Es.
Qed.

(** Every call that returns has one of the effects above. *)
Lemma run_call_effect c s w a s' w' :
  run_call c s w = Some (a, s', w') -> effect s s' c a.
Proof.
  destruct c; simpl; unfold as_value; intros H; break_steps;
    try (apply effect_none; reflexivity).
  - eapply add_text_element_effect; eassumption.
  - eapply add_image_element_effect; eassumption.
  - eapply add_icon_element_effect; eassumption.
  - eapply add_symbol_element_effect; eassumption.
  - eapply remove_element_effect; eassumption.
  - eapply update_element_effect; eassumption.
  - eapply reorder_element_effect; eassumption.
Qed.
End SlideFacts.

(* ===================================================================== *)
(** * Facts about the stable sort *)
(* ===================================================================== *)

Section SortFacts.
Context {A : Type}.
Implicit Types (l : list (Z * A)) (k : Z) (x : A).

Definition key_le (a b : Z * A) : Prop := fst a <= fst b.
Definition has_key (k : Z) (a : Z * A) : bool := fst a =? k.

Lemma insert_by_key_perm k x l : Permutation (insert_by_key k x l) ((k, x) :: l).
Proof.
  induction l as [|[k' y] l IH]; simpl; [reflexivity|].
  destruct (k <=? k'); [reflexivity|].
  rewrite IH. apply perm_swap.
Qed.

Lemma sort_keyed_perm l : Permutation (sort_keyed l) l.
Proof.
  induction l as [|[k x] l IH]; simpl; [reflexivity|].
  rewrite insert_by_key_perm. now constructor.
Qed.

Lemma insert_by_key_sorted k x l :
  StronglySorted key_le l -> StronglySorted key_le (insert_by_key k x l).
Proof.
  induction l as [|[k' y] l IH]; simpl; intros H.
  - repeat constructor.
  - destruct (k <=? k') eqn:E.
    + apply Z.leb_le in E. constructor; [exact H|].
      constructor; [exact E|].
      inv H. eapply Forall_impl; [|eassumption].
      intros a Ha. unfold key_le in *. simpl in *. lia.
    + apply Z.leb_gt in E. inv H. constructor; [now apply IH|].
      eapply Permutation_Forall; [symmetry; apply insert_by_key_perm|].
      constructor; [unfold key_le; simpl; lia|assumption].
Qed.

Lemma sort_keyed_sorted l : StronglySorted key_le (sort_keyed l).
Proof.
  induction l as [|[k x] l IH]; simpl; [constructor|].
  now apply insert_by_key_sorted.
Qed.

(** Stability: the elements of one key come out in the order they went in. *)
Lemma insert_by_key_stable k0 k x l :
  filter (has_key k0) (insert_by_key k x l) = filter (has_key k0) ((k, x) :: l).
Proof.
  induction l as [|[k' y] l IH]; [reflexivity|].
  simpl insert_by_key. destruct (k <=? k') eqn:E; [reflexivity|].
  apply Z.leb_gt in E. simpl in *. unfold has_key in *. simpl in *.
  rewrite IH.
  destruct (k' =? k0) eqn:E1, (k =? k0) eqn:E2; try reflexivity.
  apply Z.eqb_eq in E1, E2. lia.
Qed.

Lemma sort_keyed_stable k0 l :
  filter (has_key k0) (sort_keyed l) = filter (has_key k0) l.
Proof.
  induction l as [|[k x] l IH]; [reflexivity|].
  simpl sort_keyed. rewrite insert_by_key_stable. simpl. now rewrite IH.
Qed.

Lemma keyed_spec (key : A -> option Z) (xs : list A) kl :
  keyed key xs = Some kl ->
  map snd kl = xs /\ Forall (fun a => key (snd a) = Some (fst a)) kl.
Proof.
  revert kl. induction xs as [|x xs IH]; simpl; intros kl H.
  - inv H. split; constructor.
  - destruct (key x) as [k|] eqn:Ek; [|discriminate].
    destruct (keyed key xs) as [r|]; [|discriminate]. inv H.
    destruct (IH r eq_refl) as [H1 H2]. simpl. split; [now f_equal|].
    constructor; assumption.
Qed.

Lemma keyed_total (key : A -> option Z) (xs : list A) :
  Forall (fun x => key x <> None) xs -> exists kl, keyed key xs = Some kl.
Proof.
  induction 1 as [|x xs Hx _ IH]; simpl; [eauto|].
  destruct (key x) as [k|]; [|congruence].
  destruct IH as [r ->]. eauto.
Qed.

Lemma sort_by_key_perm (key : A -> option Z) (xs ys : list A) :
  sort_by_key key xs = Some ys -> Permutation xs ys.
Proof.
  unfold sort_by_key. destruct (keyed key xs) as [kl|] eqn:E; [|discriminate].
  intros H. inv H. apply keyed_spec in E. destruct E as [<- _].
  apply Permutation_map. symmetry. apply sort_keyed_perm.
Qed.
End SortFacts.

(* ===================================================================== *)
(** * Sequences of calls: version, history, order *)
(* ===================================================================== *)

Section Traces.
Context {DT : DatetimeLib} {IM : PIL}.
Import SlideData.


(** Where [_copy_image_to_slide_folder] puts the copy. *)
Definition copy_destination (image_path : string) (s : t) (w : World) : string :=
  path_join2
    (path_join "content" ["slide_" ++ str_of_int (slide_id s); "images"; "original"])
    (uuid_source w (uuid_drawn w) ++ "_" ++ basename image_path).

(** Whether a call changes the slide, read off the guards of the code and
    not off what the call answers.  The additions of a text, an icon and a
    symbol have no guard.  [add_image_element] gives up when the source file
    does not exist, and when [_copy_image_to_slide_folder] returns no path:
    the extension is not a supported one, the copy cannot be written, or the
    path of the copy relative to [content] is empty.  [remove_element],
    [update_element] and [reorder_element] give up on an id that is not a
    key of [elements].  The other calls only read. *)
Definition changes_slide (c : call) (s : t) (w : World) : bool :=
  match c with
  | AddText _ _ _ _ _ _ | AddIcon _ _ _ _ _ | AddSymbol _ _ _ _ _ => true
  | AddImage image_path _ _ _ _ _ =>
      path_exists image_path w &&
      str_in (lower (snd (splitext image_path))) SUPPORTED_IMAGE_FORMATS &&
      writable w (copy_destination image_path s w) &&
      negb (String.eqb (relpath_content (copy_destination image_path s w)) "")
  | RemoveElement element_id | UpdateElement element_id _
  | ReorderElement element_id _ => dict_mem element_id (elements s)
  | _ => false
  end.






Lemma effect_history s s' c a :
  effect s s' c a ->
  (mutating c && succeeded a = false /\ change_history s' = change_history s) \/
  (mutating c && succeeded a = true /\
   exists entry, change_history s' = last_n 100 (change_history s ++ [entry])).
Proof.
  intros H. destruct H as [c a Hf ->|c eid el Hc _ _ _ [_ Hh]|eid el _ _ _ [_ Hh]
                          |eid ups old el _ _ _ [_ Hh]|eid z old _ _ _ [_ Hh]].
  - left. auto.
  - right. split; [|exact Hh]. destruct c; try discriminate; reflexivity.
  - right. auto.
  - right. auto.
  - right. auto.
Qed.

Lemma history_along_calls cs :
  forall s w answers s' w',
    run_calls cs s w = Some (answers, s', w') ->
    exists entries,
      Z.of_nat (List.length entries) = successes cs answers /\
      change_history s' =
        match entries with
        | [] => change_history s
        | _ => last_n 100 (change_history s ++ entries)
        end.
Proof.
  induction cs as [|c cs IH]; simpl; intros s w answers s' w' H.
  - inv H. exists []. simpl. auto.
  - destruct (run_call c s w) as [[[a s1] w1]|] eqn:E1; [|discriminate].
    destruct (run_calls cs s1 w1) as [[[answers1 s2] w2]|] eqn:E2; [|discriminate].
    inv H. apply run_call_effect in E1. apply effect_history in E1.
    destruct (IH _ _ _ _ _ E2) as (entries & Hlen & Hh).
    destruct E1 as [[Hf Hs]|[Hf [e Hs]]]; rewrite Hf.
    + exists entries. rewrite Hs in Hh. split; auto.
    + exists (e :: entries). split; [simpl List.length; lia|].
      rewrite Hh, Hs. destruct entries as [|e' entries]; [reflexivity|].
      rewrite last_n_app_l. f_equal. rewrite <- app_assoc. reflexivity.
Qed.

(** C7, as the code has it. Along any sequence of calls that return, every
    successful mutating call appends one entry to [change_history], and what
    the slide keeps is the last hundred of all the entries in the order they
    were recorded, the oldest dropped first.  So a history of at most a
    hundred entries never grows beyond a hundred, and after one successful
    mutation the history has at most a hundred entries whatever it was
    before.  A longer history, which [from_dict] loads as it is stored, stays
    as long as it is until then. *)
Theorem change_history_keeps_last_hundred cs :
  forall s w answers s' w',
    run_calls cs s w = Some (answers, s', w') ->
    exists entries,
      Z.of_nat (List.length entries) = successes cs answers /\
      change_history s' =
        match entries with
        | [] => change_history s
        | _ => last_n 100 (change_history s ++ entries)
        end /\
      ((List.length (change_history s) <= 100)%nat ->
       (List.length (change_history s') <= 100)%nat) /\
      (0 < successes cs answers ->
       (List.length (change_history s') <= 100)%nat) /\
      (successes cs answers = 0 -> change_history s' = change_history s).
Proof.
  intros s w answers s' w' H.
  destruct (history_along_calls cs _ _ _ _ _ H) as (entries & Hlen & Hh).
  exists entries. split; [exact Hlen|]. split; [exact Hh|].
  rewrite Hh, <- Hlen. destruct entries as [|e entries].
  - split; [auto|]. split; [simpl; lia|reflexivity].
  - split; [intros _; apply last_n_length|].
    split; [intros _; apply last_n_length|]. simpl List.length. lia.
Qed.
End Traces.

Section Sync.
Context {DT : DatetimeLib} {IM : PIL}.
Import SlideData.

(** [element_order] lists every key of [elements] once and nothing else. *)
Definition in_sync (s : t) : Prop :=
  NoDup (element_order s) /\
  Permutation (element_order s) (dict_keys (elements s)).

(** Along a run, every element that is added gets an id that the slide does
    not hold yet: the drawn UUID, or the [element_id] the caller passes in
    the options. *)
Fixpoint fresh_ids (cs : list call) (s : t) (w : World) : Prop :=
  match cs with
  | [] => True
  | c :: rest =>
      match run_call c s w with
      | Some (a, s', w') =>
          (forall eid, is_add c = true -> a = Value (PStr eid) ->
                       ~ In eid (dict_keys (elements s))) /\
          fresh_ids rest s' w'
      | None => True
      end
  end.

Lemma list_remove_sync x l l' :
  NoDup l -> Permutation l l' -> In x l ->
  NoDup (list_remove x l) /\ Permutation (list_remove x l) (list_remove x l').
Proof.
  intros Hn Hp Hi.
  assert (Hi' : In x l') by (eapply Permutation_in; eassumption).
  pose proof (list_remove_perm x l Hi) as P1.
  pose proof (list_remove_perm x l' Hi') as P2.
  split.
  - eapply Permutation_NoDup in Hn; [|exact P1]. now inv Hn.
  - apply Permutation_cons_inv with (a := x).
    rewrite <- P1, <- P2. exact Hp.
Qed.

Lemma effect_sync s s' c a :
  effect s s' c a ->
  (forall eid, is_add c = true -> a = Value (PStr eid) ->
               ~ In eid (dict_keys (elements s))) ->
  in_sync s -> in_sync s'.
Proof.
  intros H Hfresh [Hn Hp].
  destruct H as [c a Hf ->|c eid el Hc _ He Ho _|eid el Hg He Ho _
                |eid ups old el Hg He Ho _|eid z old Hg He Ho _].
  - split; assumption.
  - specialize (Hfresh eid Hc eq_refl). unfold in_sync.
    rewrite He, Ho, dict_set_keys_fresh by exact Hfresh. split.
    + apply NoDup_app; [exact Hn|repeat constructor; simpl; tauto|].
      intros x Hx [<-|[]]. apply Hfresh. eapply Permutation_in; eassumption.
    + now apply Permutation_app_tail.
  - apply dict_get_In_keys in Hg.
    assert (Hi : In eid (element_order s))
      by (eapply Permutation_in; [symmetry|]; eassumption).
    unfold in_sync. rewrite He, Ho, dict_del_keys.
    rewrite (proj2 (str_in_In eid (element_order s)) Hi).
    now apply list_remove_sync.
  - apply dict_get_In_keys in Hg. unfold in_sync.
    rewrite He, Ho, dict_set_keys_present by exact Hg. split; assumption.
  - apply dict_get_In_keys in Hg. apply sort_by_key_perm in Ho. unfold in_sync.
    rewrite He, dict_set_keys_present by exact Hg. split.
    + eapply Permutation_NoDup; eassumption.
    + rewrite <- Ho. exact Hp.
Qed.

Lemma run_calls_sync cs :
  forall s w answers s' w',
    in_sync s -> run_calls cs s w = Some (answers, s', w') ->
    fresh_ids cs s w -> in_sync s'.
Proof.
  induction cs as [|c cs IH]; simpl; intros s w answers s' w' Hs H Hf.
  - now inv H.
  - destruct (run_call c s w) as [[[a s1] w1]|] eqn:E1; [|discriminate].
    destruct (run_calls cs s1 w1) as [[[answers1 s2] w2]|] eqn:E2; [|discriminate].
    inv H. destruct Hf as [Hf1 Hf2].
    eapply IH; [|eassumption|exact Hf2].
    eapply effect_sync; [eapply run_call_effect|exact Hf1|exact Hs]. eassumption.
Qed.

(** C3, as the code has it. From a freshly constructed slide, after any
    sequence of calls that return (adds of the four kinds, removals,
    updates, reorderings and the read-only calls), [element_order] is a
    permutation of exactly the keys of [elements] and holds no id twice,
    provided that the id of every element added along the way was not yet a
    key of [elements] when it was added. *)
Theorem element_order_in_sync_with_fresh_ids slide_id title background_color w0 cs :
  forall answers s' w',
    run_calls cs (fst (init slide_id title background_color w0))
                 (snd (init slide_id title background_color w0))
      = Some (answers, s', w') ->
    fresh_ids cs (fst (init slide_id title background_color w0))
                 (snd (init slide_id title background_color w0)) ->
    NoDup (element_order s') /\
    Permutation (element_order s') (dict_keys (elements s')).
Proof.
  intros answers s' w' H Hf.
  eapply run_calls_sync; [|exact H|exact Hf].
  unfold init. destruct (now w0) as [lm w1]. destruct (now w1) as [ca w2].
  simpl. split; constructor.
Qed.
End Sync.

(* ===================================================================== *)
(** * Rejected images *)
(* ===================================================================== *)

Section RejectedImages.
Context {DT : DatetimeLib} {IM : PIL}.
Import SlideData.

(** The extension test of [_copy_image_to_slide_folder]. *)
Definition supported_extension (image_path : string) : bool :=
  str_in (lower (snd (splitext image_path))) SUPPORTED_IMAGE_FORMATS.

(** C4. [add_image_element] on a path that does not exist, or whose
    extension, lower-cased, is not one of [SUPPORTED_IMAGE_FORMATS], returns
    [None] and leaves the slide as it was: the same elements, the same
    element order, the same history and the same version (nor is anything
    written or drawn in the world). *)
Theorem add_image_element_rejects image_path x y width height options s w :
  path_exists image_path w = false \/ supported_extension image_path = false ->
  add_image_element image_path x y width height options s w = Some (PNone, s, w).
Proof.
  unfold add_image_element, supported_extension. intros H.
  destruct (path_exists image_path w) eqn:E; [|reflexivity].
  destruct H as [H|H]; [discriminate|].
  simpl. unfold _copy_image_to_slide_folder. rewrite H. reflexivity.
Qed.
End RejectedImages.

(* ===================================================================== *)
(** * What the filter pipeline reads *)
(* ===================================================================== *)

Section FilterBank.
Context {DT : DatetimeLib} {IM : PIL}.
Import ImageElement.

(** [element.filter_effects = fe] *)
Definition with_filter_effects (e : t) (fe : pyval) : t :=
  mk (base e) (image_path e) (original_path e) (alt_text e) (fit_mode e)
     (image_quality e) (preserve_aspect_ratio e) fe (crop e) (image_info e).

(** Two filter banks that hold the same value, or both nothing, under every
    key but ["hue"] and ["invert"]. *)
Definition same_but_hue_and_invert (fe1 fe2 : pyval) : Prop :=
  forall k, k <> "hue" -> k <> "invert" -> py_getitem fe1 k = py_getitem fe2 k.

Lemma run_filters_reads_six_keys e fe1 fe2 img :
  same_but_hue_and_invert fe1 fe2 ->
  run_filters (with_filter_effects e fe1) img
  = run_filters (with_filter_effects e fe2) img.
Proof.
  intros H. unfold run_filters. simpl.
  rewrite (H "brightness"), (H "contrast"), (H "saturation"),
          (H "blur"), (H "sepia"), (H "grayscale") by discriminate.
  reflexivity.
Qed.

(** C9. For every image element, every slide id and every world (so every
    source raster), [apply_filters] gives the same answer and writes the same
    bytes to the same path under two filter banks that differ at most in
    their ["hue"] and ["invert"] entries. *)
Theorem apply_filters_ignores_hue_and_invert e fe1 fe2 slide_id w :
  same_but_hue_and_invert fe1 fe2 ->
  apply_filters (with_filter_effects e fe1) slide_id w
  = apply_filters (with_filter_effects e fe2) slide_id w.
Proof.
  intros H. unfold apply_filters, processed_output.
  change (image_path (with_filter_effects e fe1)) with (image_path e).
  change (image_path (with_filter_effects e fe2)) with (image_path e).
  destruct (py_str (image_path e)) as [p|]; [|reflexivity].
  destruct (dict_get p (files w)) as [src|]; [|reflexivity].
  destruct (Image_open src) as [img|]; [|reflexivity].
  rewrite (run_filters_reads_six_keys e fe1 fe2 img H).
  reflexivity.
Qed.
End FilterBank.

(* ===================================================================== *)
(** * The text content of a slide *)
(* ===================================================================== *)

Section TextContent.
Context {DT : DatetimeLib} {IM : PIL}.
Import SlideData.

(** Reading of the specification: the texts of the text elements, taken
    in the order of [element_order], joined by a newline. *)
Definition text_content_in_element_order (s : t) : option string :=
  let is_text eid :=
    match dict_get eid (elements s) with
    | Some el => py_eq_str (element_type el) "text"
    | None => false
    end in
  texts <- all_some (map (fun eid => el <- dict_get eid (elements s) ;; element_text el)
                         (filter is_text (element_order s))) ;;
  strs <- all_str texts ;;
  Some (join newline strs).

(** The texts of the elements of type ["text"], walking the dictionary in
    insertion order. *)
Fixpoint texts_in_insertion_order (els : list (string * Element)) : list (option pyval) :=
  match els with
  | [] => []
  | (_, el) :: rest =>
      if py_eq_str (element_type el) "text"
      then element_text el :: texts_in_insertion_order rest
      else texts_in_insertion_order rest
  end.

Definition joined (texts : list (option pyval)) : option string :=
  ts <- all_some texts ;; strs <- all_str ts ;; Some (join newline strs).

Lemma get_all_text_content_insertion_order s :
  get_all_text_content s = joined (texts_in_insertion_order (elements s)).
Proof.
  unfold get_all_text_content, joined, get_elements_by_type, dict_values.
  replace (map element_text
             (map snd
                (filter (fun kv => py_eq_str (element_type (snd kv)) "text")
                        (elements s))))
    with (texts_in_insertion_order (elements s)); [reflexivity|].
  induction (elements s) as [|[k el] els IH]; simpl; [reflexivity|].
  destruct (py_eq_str (element_type el) "text"); simpl; now rewrite IH.
Qed.

(** Replacing an element by one of the same type and text, in place. *)
Lemma texts_dict_set eid old el els :
  dict_get eid els = Some old ->
  element_type el = element_type old ->
  element_text el = element_text old ->
  texts_in_insertion_order (dict_set eid el els) = texts_in_insertion_order els.
Proof.
  intros Hg Ht Hx. induction els as [|[k e] els IH]; simpl in *; [discriminate|].
  destruct (String.eqb eid k); simpl.
  - inv Hg. now rewrite Ht, Hx.
  - now rewrite IH.
Qed.

(** C5, as the code has it. [get_all_text_content] joins, by a single
    newline, the texts of the elements of type ["text"] in the insertion
    order of the [elements] dictionary; a successful [reorder_element]
    re-sorts [element_order] but leaves that dictionary order, and with it
    the text content, as it was. *)
Theorem text_content_follows_insertion_order eid z s w a s' w' :
  reorder_element eid z s w = Some (a, s', w') ->
  get_all_text_content s' = joined (texts_in_insertion_order (elements s)) /\
  get_all_text_content s' = get_all_text_content s.
Proof.
  intros H. apply reorder_element_effect in H.
  rewrite !get_all_text_content_insertion_order.
  assert (E : texts_in_insertion_order (elements s')
              = texts_in_insertion_order (elements s)).
  { inversion H; subst; try discriminate; [reflexivity|].
    match goal with
    | Hg : dict_get _ _ = Some ?old, He : elements s' = _ |- _ =>
        rewrite He; eapply texts_dict_set; [exact Hg| |]; destruct old; reflexivity
    end. }
  rewrite E. split; reflexivity.
Qed.
End TextContent.

(* ===================================================================== *)
(** * Reordering *)
(* ===================================================================== *)

Section Reordering.
Context {DT : DatetimeLib} {IM : PIL}.
Import SlideData.

(** The z-index of the element stored under an id, as an integer. *)
Definition z_of (s : t) (eid : string) : Z :=
  match z_key (elements s) eid with
  | Some z => z
  | None => 0
  end.

(** [x] stands somewhere before [y] in [l]. *)
Definition precedes {A} (x y : A) (l : list A) : Prop :=
  exists l1 l2 l3, l = (l1 ++ x :: l2 ++ y :: l3)%list.

(** The position of an id in a list, and how many ids of a list have a
    z-index below a bound: the two sides of the placement that the
    specification words. *)
Fixpoint position (x : string) (l : list string) : option nat :=
  match l with
  | [] => None
  | y :: l' => if String.eqb x y then Some O
               else match position x l' with
                    | Some n => Some (S n)
                    | None => None
                    end
  end.

Definition count_below (s : t) (z : Z) (l : list string) : nat :=
  List.length (filter (fun eid => z_of s eid <? z) l).

Lemma sorted_precedes {A} (key : A -> Z) (x y : A) (l : list A) :
  StronglySorted (fun a b => key a <= key b) l ->
  In x l -> In y l -> key x < key y -> precedes x y l.
Proof.
  intros Hs Hx Hy Hlt.
  destruct (in_split _ _ Hy) as (l1 & l3 & ->).
  apply in_app_or in Hx. destruct Hx as [Hx|[Hx|Hx]].
  - destruct (in_split _ _ Hx) as (a & b & ->).
    exists a, b, l3. now rewrite <- app_assoc.
  - subst. lia.
  - exfalso. clear Hy. induction l1 as [|c l1 IH]; simpl in Hs; inv Hs.
    + match goal with H : Forall _ l3 |- _ =>
        rewrite Forall_forall in H; specialize (H x Hx); simpl in H; lia end.
    + now apply IH.
Qed.

Section Keyed.
Variable key : string -> option Z.

Let zf (i : string) : Z := match key i with Some z => z | None => 0 end.

Lemma keyed_sorted_ids (kl : list (Z * string)) :
  Forall (fun a => key (snd a) = Some (fst a)) kl ->
  StronglySorted key_le kl ->
  StronglySorted (fun a b => zf a <= zf b) (map snd kl).
Proof.
  intros Hk Hs. induction Hs as [|a l Hs IH Ha]; simpl; [constructor|].
  inv Hk. constructor; [now apply IH|].
  rewrite Forall_map. rewrite Forall_forall in *.
  intros b Hb. unfold zf.
  match goal with H : key (snd a) = _ |- _ => rewrite H end.
  match goal with H : forall x, In x l -> key _ = _ |- _ => rewrite (H b Hb) end.
  exact (Ha b Hb).
Qed.

Lemma keyed_filter_ids (k : Z) (kl : list (Z * string)) :
  Forall (fun a => key (snd a) = Some (fst a)) kl ->
  filter (fun i => zf i =? k) (map snd kl) = map snd (filter (has_key k) kl).
Proof.
  induction 1 as [|a l Ha _ IH]; simpl; [reflexivity|].
  unfold zf at 1, has_key at 1. rewrite Ha, IH.
  destruct (fst a =? k); reflexivity.
Qed.

(** What [list.sort(key=...)] promises, read off the ids. *)
Lemma sort_by_key_spec (ids ids' : list string) :
  sort_by_key key ids = Some ids' ->
  Permutation ids ids' /\
  StronglySorted (fun a b => zf a <= zf b) ids' /\
  (forall k, filter (fun i => zf i =? k) ids' = filter (fun i => zf i =? k) ids).
Proof.
  intros H. split; [eapply sort_by_key_perm; exact H|].
  unfold sort_by_key in H. destruct (keyed key ids) as [kl|] eqn:E; [|discriminate].
  inv H. apply keyed_spec in E. destruct E as [<- Hk].
  assert (Hk' : Forall (fun a => key (snd a) = Some (fst a)) (sort_keyed kl)).
  { eapply Permutation_Forall; [symmetry; apply sort_keyed_perm|exact Hk]. }
  split.
  - apply keyed_sorted_ids; [exact Hk'|apply sort_keyed_sorted].
  - intros k. rewrite !keyed_filter_ids by assumption.
    now rewrite sort_keyed_stable.
Qed.
End Keyed.

(** C8, as the code has it. On a slide whose [element_order] lists only ids
    of elements with integer z-indexes, [reorder_element] with a known id and
    an integer z-index succeeds, sets that element's z-index and leaves the
    others, and makes [element_order] the stable ascending sort of what it
    was: a permutation, in ascending z-index order, in which the elements of
    each z-index keep their relative order.  So the reordered element comes
    after every element of strictly smaller z-index and before every element
    of strictly greater z-index, and among the elements of its own z-index it
    keeps its place (after those that preceded it). *)
Theorem reorder_element_stable_sort eid z old s w :
  dict_get eid (elements s) = Some old ->
  Forall (fun i => z_key (elements s) i <> None) (element_order s) ->
  exists s' w',
    reorder_element eid (PInt z) s w = Some (PBool true, s', w') /\
    z_key (elements s') eid = Some z /\
    (forall i, i <> eid -> z_key (elements s') i = z_key (elements s) i) /\
    Permutation (element_order s) (element_order s') /\
    StronglySorted (fun a b => z_of s' a <= z_of s' b) (element_order s') /\
    (forall k, filter (fun i => z_of s' i =? k) (element_order s')
               = filter (fun i => z_of s' i =? k) (element_order s)) /\
    (forall x, In x (element_order s) -> In eid (element_order s) ->
               (z_of s' x < z -> precedes x eid (element_order s')) /\
               (z < z_of s' x -> precedes eid x (element_order s'))).
Proof.
  intros Hg Hall.
  set (new := element_with_base old
                (ContentElement.set_z_index (element_base old) (PInt z))).
  assert (Hnew : forall i, z_key (dict_set eid new (elements s)) i
                           = if String.eqb i eid then Some z
                             else z_key (elements s) i).
  { intros i. unfold z_key. destruct (String.eqb i eid) eqn:E.
    - apply String.eqb_eq in E. subst i. rewrite dict_get_set_same.
      subst new. destruct old; reflexivity.
    - apply String.eqb_neq in E. now rewrite dict_get_set_other. }
  destruct (keyed_total (z_key (dict_set eid new (elements s))) (element_order s))
    as [kl Hkl].
  { eapply Forall_impl; [|exact Hall]. intros i Hi. rewrite Hnew.
    destruct (String.eqb i eid); [discriminate|exact Hi]. }
  destruct (reorder_element eid (PInt z) s w) as [[[a s'] w']|] eqn:E.
  2:{ exfalso. unfold reorder_element in E. rewrite Hg in E. fold new in E.
      simpl in E. unfold sort_by_key in E. rewrite Hkl in E. discriminate. }
  pose proof (reorder_element_effect _ _ _ _ _ _ _ E) as Heff.
  inversion Heff; subst; try discriminate.
  { exfalso. unfold reorder_element in E. rewrite Hg in E. fold new in E.
    simpl in E. unfold sort_by_key in E. rewrite Hkl in E. simpl in E.
    match goal with H : _ && _ = false |- _ => inv E; discriminate H end. }
  match goal with
  | H1 : dict_get eid (elements s) = Some ?o, He : elements s' = _,
    Ho : sort_by_key _ _ = Some _ |- _ =>
      rewrite Hg in H1; inv H1; fold new in He;
      rename He into Hels; rename Ho into Hsort
  end.
  exists s', w'. split; [reflexivity|].
  assert (Hz : forall i, z_key (elements s') i
                         = if String.eqb i eid then Some z else z_key (elements s) i)
    by (intros i; rewrite Hels; apply Hnew).
  destruct (sort_by_key_spec _ _ _ Hsort) as (Hperm & Hsorted & Hstable).
  split; [now rewrite Hz, String.eqb_refl|].
  split. { intros i Hi. rewrite Hz. apply String.eqb_neq in Hi. now rewrite Hi. }
  split; [exact Hperm|]. split; [exact Hsorted|]. split; [exact Hstable|].
  intros x Hx He.
  assert (Hze : z_of s' eid = z) by (unfold z_of; now rewrite Hz, String.eqb_refl).
  split; intros Hlt.
  - apply (sorted_precedes (z_of s')); try assumption;
      try (eapply Permutation_in; eassumption). lia.
  - apply (sorted_precedes (z_of s')); try assumption;
      try (eapply Permutation_in; eassumption). lia.
Qed.
End Reordering.

(* ===================================================================== *)
(** * Loading a slide *)
(* ===================================================================== *)

Section Loading.
Context {DT : DatetimeLib} {IM : PIL}.
Import SlideData.

(** [data.get('element_order', [])] as a list of ids. *)
Definition stored_element_order (data : list (string * pyval)) : option (list string) :=
  match get_default "element_order" (PList []) data with
  | PList l => all_str l
  | _ => None
  end.

(** The four discriminators that [from_dict] dispatches on. *)
Definition known_type (v : pyval) : bool :=
  py_eq_str v "text" || py_eq_str v "image" || py_eq_str v "icon"
  || py_eq_str v "symbol".

(** A document whose [element_order] lists one id, stored with a type that no
    element class has. *)
Definition ghost_document : list (string * pyval) :=
  [("slide_id", PInt 7);
   ("element_order", PList [PStr "ghost"]);
   ("elements", PDict [("ghost", PDict [("id", PStr "ghost"); ("type", PStr "video")])])].

Lemma from_dict_element_order data w s w' :
  from_dict data w = Some (s, w') -> stored_element_order data = Some (element_order s).
Proof.
  unfold from_dict, stored_element_order. intros H.
  destruct (py_int _) as [sid|]; [|discriminate].
  destruct (py_str _) as [ttl|]; [|discriminate].
  destruct (init _ _ _ _) as [s0 w0].
  destruct (match get_default "version" _ _ with PInt v => Some v | _ => None end);
    [|discriminate].
  destruct (match get_default "element_order" _ _ with PList l => all_str l | _ => None end)
    as [order|]; [|discriminate].
  destruct (match get_default "change_history" _ _ with PList l => Some l | _ => None end);
    [|discriminate].
  destruct (restore_timestamps data w0) as [[ca lm] w1].
  destruct (get_default "elements" _ _); try discriminate.
  destruct (restore_elements _ _ _) as [[els w2]|]; [|discriminate].
  inv H. reflexivity.
Qed.

Lemma restore_elements_skips eid record rest acc w :
  known_type (get_default "type" (PStr "text") record) = false ->
  restore_elements ((eid, PDict record) :: rest) acc w = restore_elements rest acc w.
Proof.
  unfold known_type. intros H. simpl.
  destruct (py_eq_str _ "text"); [discriminate|].
  destruct (py_eq_str _ "image"); [discriminate|].
  destruct (py_eq_str _ "icon"); [discriminate|].
  destruct (py_eq_str _ "symbol"); [discriminate|]. reflexivity.
Qed.

(** C10. [SlideData.from_dict] takes [element_order] from the document as it
    is stored, and skips every element record whose type is none of
    ["text"], ["image"], ["icon"], ["symbol"]; so there is a document, in
    whatever world it is loaded, that loads into a slide whose
    [element_order] lists an id that [elements] does not hold. *)
Theorem from_dict_order_out_of_sync :
  (forall data w s w',
     from_dict data w = Some (s, w') ->
     stored_element_order data = Some (element_order s)) /\
  (forall eid record rest acc w,
     known_type (get_default "type" (PStr "text") record) = false ->
     restore_elements ((eid, PDict record) :: rest) acc w
     = restore_elements rest acc w) /\
  (forall w, exists s w',
     from_dict ghost_document w = Some (s, w') /\
     In "ghost" (element_order s) /\
     ~ In "ghost" (dict_keys (elements s))).
Proof.
  split; [exact from_dict_element_order|]. split; [exact restore_elements_skips|].
  intros w. unfold from_dict. simpl.
  destruct (restore_timestamps ghost_document _) as [[ca lm] w1].
  eexists. eexists. split; [reflexivity|]. simpl. split; [now left|tauto].
Qed.
End Loading.

(* ===================================================================== *)
(** * Saving and restoring an element *)
(* ===================================================================== *)

Section RoundTrip.
Context {DT : DatetimeLib} {IM : PIL}.

Definition is_float (v : pyval) : Prop := match v with PFloat _ => True | _ => False end.
Definition is_str (v : pyval) : Prop := match v with PStr _ => True | _ => False end.
Definition is_int (v : pyval) : Prop := match v with PInt _ => True | _ => False end.

(** The attributes that a constructor coerces hold a value of the type it
    coerces to: the geometry a [float], the text (alternative text, icon code,
    symbol) a [str], the font size an [int].  Every constructor leaves an
    element so; [update_element] can store anything. *)
Definition coerced (el : Element) : Prop :=
  let b := element_base el in
  is_float (ContentElement.x b) /\ is_float (ContentElement.y b) /\
  is_float (ContentElement.width b) /\ is_float (ContentElement.height b) /\
  match el with
  | EText e => is_str (TextElement.text e) /\ is_int (TextElement.font_size e)
  | EImage e => is_str (ImageElement.alt_text e)
  | EIcon e => is_str (IconElement.icon_code e)
  | ESymbol e => is_str (SymbolElement.symbol e)
  end.

(** Both time stamps of the element come back from their ISO text. *)
Definition timestamps_parse (el : Element) : Prop :=
  let b := element_base el in
  fromisoformat (isoformat (ContentElement.created_at b))
    = Some (ContentElement.created_at b) /\
  fromisoformat (isoformat (ContentElement.modified_at b))
    = Some (ContentElement.modified_at b).

(** [cls.from_dict(data)] for the class of [el]. *)
Definition variant_from_dict (el : Element) (data : list (string * pyval)) (w : World)
  : option (Element * World) :=
  match el with
  | EText _ => r <- TextElement.from_dict data w ;; Some (EText (fst r), snd r)
  | EImage _ => r <- ImageElement.from_dict data w ;; Some (EImage (fst r), snd r)
  | EIcon _ => r <- IconElement.from_dict data w ;; Some (EIcon (fst r), snd r)
  | ESymbol _ => r <- SymbolElement.from_dict data w ;; Some (ESymbol (fst r), snd r)
  end.

Definition with_timestamps (el : Element) (c m : datetime) : Element :=
  let b := element_base el in
  element_with_base el
    (ContentElement.mk (ContentElement.id b) (ContentElement.type b)
       (ContentElement.x b) (ContentElement.y b) (ContentElement.width b)
       (ContentElement.height b) (ContentElement.z_index b)
       (ContentElement.visible b) (ContentElement.locked b) c m
       (ContentElement.style b) (ContentElement.animation b)).

(** A saved element with other values stored for its two time stamps. *)
Definition restamped (d : list (string * pyval)) (c m : pyval) : list (string * pyval) :=
  dict_set "created_at" c (dict_set "modified_at" m d).

(** The time stamps that [from_base_dict] gives an element read in the world
    [w] from a document that stores [c] and [m]: the clock has been read four
    times when the [try] starts. *)
Definition reloaded_timestamps (c m : pyval) (w : World) : datetime * datetime :=
  match parse_timestamp c with
  | None => let n := clock w (5 + ticks w) in (n, n)
  | Some tc =>
      match parse_timestamp m with
      | None => let n := clock w (6 + ticks w) in (n, n)
      | Some tm => (tc, tm)
      end
  end.

Ltac open_element b :=
  destruct b as [id_ ty x y wd ht z vis lck ca ma st an]; destruct st;
  simpl; intros (Hx & Hy & Hw & Hh & Hown);
  destruct x; try contradiction; destruct y; try contradiction;
  destruct wd; try contradiction; destruct ht; try contradiction.

(** How often the clock has been read when [from_dict] returns: twice by
    each of the two constructors, once for each default that [data.get] is
    given, and once more by the [except] branch if it runs. *)
Definition reloaded_ticks (c m : pyval) (w : World) : nat :=
  match parse_timestamp c with
  | None => 6 + ticks w
  | Some _ =>
      match parse_timestamp m with
      | None => 7 + ticks w
      | Some _ => 6 + ticks w
      end
  end.

Ltac reload :=
  unfold reloaded_timestamps, reloaded_ticks, parse_timestamp;
  repeat match goal with
         | |- context [match ?c with PStr _ => _ | _ => _ end] =>
             destruct c; cbn
         | |- context [fromisoformat ?s] => destruct (fromisoformat s); cbn
         end;
  eexists; (split; [reflexivity|split; reflexivity]).

Definition reloaded (el : Element) (c m : pyval) (w : World) : Element :=
  with_timestamps el (fst (reloaded_timestamps c m w)) (snd (reloaded_timestamps c m w)).

(** The world that [from_dict] leaves: the same clock, read some more
    times. *)
Definition reloaded_world (c m : pyval) (w w' : World) : Prop :=
  clock w' = clock w /\ ticks w' = reloaded_ticks c m w.

Lemma text_reload (e : TextElement.t) c m w :
  coerced (EText e) ->
  exists w',
    variant_from_dict (EText e) (restamped (TextElement.to_dict e) c m) w
    = Some (reloaded (EText e) c m w, w') /\
    reloaded_world c m w w'.
Proof.
  destruct e as [b text ff fs fw fst_ ta td lh ls ws ml tt va wsp ww tov].
  open_element b. destruct Hown as [Ht Hs].
  destruct text; try contradiction. destruct fs; try contradiction.
  unfold variant_from_dict, reloaded, reloaded_world, with_timestamps,
    TextElement.from_dict, TextElement.to_dict, ContentElement.to_dict,
    TextElement.init, ContentElement.init_kwargs, ContentElement.from_base_dict,
    ContentElement.init, ContentElement.restore_timestamps, restamped.
  cbn. reload.
Qed.

Lemma image_reload (e : ImageElement.t) c m w :
  coerced (EImage e) ->
  exists w',
    variant_from_dict (EImage e) (restamped (ImageElement.to_dict e) c m) w
    = Some (reloaded (EImage e) c m w, w') /\
    reloaded_world c m w w'.
Proof.
  destruct e as [b ip op alt fm iq par fe cr ii].
  open_element b. destruct alt; try contradiction.
  unfold variant_from_dict, reloaded, reloaded_world, with_timestamps,
    ImageElement.from_dict, ImageElement.to_dict, ContentElement.to_dict,
    ImageElement.init, ContentElement.init_kwargs, ContentElement.from_base_dict,
    ContentElement.init, ContentElement.restore_timestamps, restamped.
  cbn. reload.
Qed.

Lemma icon_reload (e : IconElement.t) c m w :
  coerced (EIcon e) ->
  exists w',
    variant_from_dict (EIcon e) (restamped (IconElement.to_dict e) c m) w
    = Some (reloaded (EIcon e) c m w, w') /\
    reloaded_world c m w w'.
Proof.
  destruct e as [b ic it ifam isz icol ilib ivar svg img].
  open_element b. destruct ic; try contradiction.
  unfold variant_from_dict, reloaded, reloaded_world, with_timestamps,
    IconElement.from_dict, IconElement.to_dict, ContentElement.to_dict,
    IconElement.init, ContentElement.init_kwargs, ContentElement.from_base_dict,
    ContentElement.init, ContentElement.restore_timestamps, restamped.
  cbn. reload.
Qed.

Lemma symbol_unicode_info (e : SymbolElement.t) :
  is_str (SymbolElement.symbol e) ->
  exists info, SymbolElement.get_unicode_info e = Some info.
Proof.
  unfold SymbolElement.get_unicode_info.
  destruct (SymbolElement.symbol e) as [| | | |[|a r]| | |]; simpl;
    try contradiction; eauto.
Qed.

Lemma symbol_reload (e : SymbolElement.t) c m w :
  coerced (ESymbol e) ->
  exists d w',
    SymbolElement.to_dict e = Some d /\
    variant_from_dict (ESymbol e) (restamped d c m) w
    = Some (reloaded (ESymbol e) c m w, w') /\
    reloaded_world c m w w'.
Proof.
  intros H. unfold SymbolElement.to_dict.
  destruct (symbol_unicode_info e) as [info Hinfo]; [apply H|].
  rewrite Hinfo. clear Hinfo. revert H.
  destruct e as [b sy sty ssz su sn sc mn lc].
  open_element b. destruct sy; try contradiction.
  match goal with
  | |- exists d w', Some ?X = Some d /\ @?P d w' =>
      cut (exists w', P X w');
      [intros [w' Hrel]; exists X, w'; split; [reflexivity|exact Hrel]|]
  end.
  unfold variant_from_dict, reloaded, reloaded_world, with_timestamps,
    SymbolElement.from_dict, ContentElement.to_dict,
    SymbolElement.init, ContentElement.init_kwargs, ContentElement.from_base_dict,
    ContentElement.init, ContentElement.restore_timestamps, restamped.
  cbn. reload.
Qed.

Lemma element_reload el c m w :
  coerced el ->
  exists d w',
    element_to_dict el = Some d /\
    variant_from_dict el (restamped d c m) w = Some (reloaded el c m w, w') /\
    reloaded_world c m w w'.
Proof.
  destruct el as [e|e|e|e]; intros H.
  - destruct (text_reload e c m w H) as [w' Hw]. simpl. eauto.
  - destruct (image_reload e c m w H) as [w' Hw]. simpl. eauto.
  - destruct (icon_reload e c m w H) as [w' Hw]. simpl. eauto.
  - exact (symbol_reload e c m w H).
Qed.

(** Storing the element's own time stamps changes nothing in its saved form. *)
Lemma restamped_own el d :
  element_to_dict el = Some d ->
  restamped d (PStr (isoformat (ContentElement.created_at (element_base el))))
              (PStr (isoformat (ContentElement.modified_at (element_base el)))) = d.
Proof.
  destruct el as [e|e|e|e]; simpl; intros H.
  - inv H. destruct e as [b]. destruct b. reflexivity.
  - inv H. destruct e as [b]. destruct b. reflexivity.
  - inv H. destruct e as [b]. destruct b. reflexivity.
  - unfold SymbolElement.to_dict in H.
    destruct (SymbolElement.get_unicode_info e); [|discriminate]. inv H.
    destruct e as [b]. destruct b. reflexivity.
Qed.

Lemma with_own_timestamps el :
  with_timestamps el (ContentElement.created_at (element_base el))
                     (ContentElement.modified_at (element_base el)) = el.
Proof. destruct el as [e|e|e|e]; destruct e as [b]; destruct b; reflexivity. Qed.

(** C1, as the code has it. For an element of any of the four classes whose
    coerced attributes hold values of the coerced types, [from_dict] of its
    class applied to its [to_dict] gives back the element, equal in every
    attribute, whenever both time stamps come back from their ISO text; and
    if the saved form is given a [created_at] or a [modified_at] that does
    not parse, [from_dict] gives back the element with both time stamps set
    to the time of the rebuild: one and the same reading of the clock, made
    during the call of [from_dict] and the last one that the call makes
    (the [datetime.now()] of the [except] branch). *)
Theorem element_round_trip el w :
  coerced el ->
  (timestamps_parse el ->
   exists d w',
     element_to_dict el = Some d /\
     variant_from_dict el d w = Some (el, w')) /\
  (forall c m,
     parse_timestamp c = None \/ parse_timestamp m = None ->
     exists d n w',
       element_to_dict el = Some d /\
       variant_from_dict el (restamped d c m) w
       = Some (with_timestamps el (clock w n) (clock w n), w') /\
       (ticks w <= n < ticks w')%nat /\
       ticks w' = S n /\
       now (mkWorld (clock w) n (uuid_source w') (uuid_drawn w') (files w')
              (writable w'))
       = (clock w n, w')).
Proof.
  intros H. split.
  - intros [Hc Hm].
    destruct (element_reload el
                (PStr (isoformat (ContentElement.created_at (element_base el))))
                (PStr (isoformat (ContentElement.modified_at (element_base el))))
                w H) as (d & w' & Hd & Hr & _).
    exists d, w'. split; [exact Hd|].
    rewrite (restamped_own el d Hd) in Hr. rewrite Hr.
    unfold reloaded, reloaded_timestamps, parse_timestamp.
    rewrite Hc, Hm. simpl. now rewrite with_own_timestamps.
  - intros c m Hbad.
    destruct (element_reload el c m w H) as (d & w' & Hd & Hr & Hk & Ht).
    unfold reloaded, reloaded_timestamps in Hr. unfold reloaded_ticks in Ht.
    assert (Hnow : forall n, ticks w' = S n ->
              now (mkWorld (clock w) n (uuid_source w') (uuid_drawn w') (files w')
                     (writable w'))
              = (clock w n, w')).
    { intros n Hn. unfold now. cbn. rewrite <- Hk, <- Hn. now destruct w'. }
    destruct (parse_timestamp c) as [tc|].
    + destruct (parse_timestamp m) as [tm|].
      * destruct Hbad; discriminate.
      * exists d, (6 + ticks w)%nat, w'.
        split; [exact Hd|]. split; [exact Hr|]. split; [lia|]. split; [exact Ht|].
        apply Hnow, Ht.
    + exists d, (5 + ticks w)%nat, w'.
      split; [exact Hd|]. split; [exact Hr|]. split; [lia|]. split; [exact Ht|].
      apply Hnow, Ht.
Qed.
End RoundTrip.

(* ===================================================================== *)
(** * Binary64 arithmetic on small non-negative numbers *)
(* ===================================================================== *)


Section SmallFloats.




(** A mantissa is [slim k] when it is zero or positive with at most [k]
    binary digits. *)
Definition slim (k : Z) (m : Z) : Prop :=
  m = 0 \/ exists p, m = Zpos p /\ Zpos (digits2_pos p) <= k.








(** The floats the sums are made of: zero, or positive and finite with the
    digits of the mantissa plus the exponent at most [M] and the exponent at
    most [E]. *)
Definition small (M E : Z) (x : spec_float) : Prop :=
  match x with
  | S754_zero _ => True
  | S754_finite s m e => s = false /\ Zpos (digits2_pos m) + e <= M /\ e <= E
  | _ => False
  end.


Lemma slim_nonneg_gap k m : slim k m -> m <> 0 -> 1 <= k.
Proof.
  intros [->|(p & -> & Hp)] Hm; [tauto|].
  pose proof (Pos2Z.is_pos (digits2_pos p)). lia.
Qed.














End SmallFloats.

(* ===================================================================== *)
(** * The sepia blend *)
(* ===================================================================== *)

Section Sepia.





















End Sepia.

Section SepiaImage.
Context {IM : PIL}.














End SepiaImage.


(* ===================================================================== *)
(** * Further properties of a slide *)
(* ===================================================================== *)

Section DictMore.
Context {V : Type}.
Implicit Types (d : list (string * V)) (k : string).

Lemma dict_set_fresh k v d :
  ~ In k (dict_keys d) -> dict_set k v d = (d ++ [(k, v)])%list.
Proof.
  induction d as [|[k' v'] d IH]; simpl; [reflexivity|].
  intros H. destruct (String.eqb k k') eqn:E.
  - apply String.eqb_eq in E. subst. tauto.
  - rewrite IH; tauto.
Qed.

Lemma dict_del_set_fresh k v d :
  ~ In k (dict_keys d) -> dict_del k (dict_set k v d) = d.
Proof.
  induction d as [|[k' v'] d IH]; simpl.
  - now rewrite String.eqb_refl.
  - intros H. destruct (String.eqb k k') eqn:E.
    + apply String.eqb_eq in E. subst. tauto.
    + simpl. rewrite E, IH; tauto.
Qed.

Lemma dict_get_del_other k k' d :
  k <> k' -> dict_get k (dict_del k' d) = dict_get k d.
Proof.
  intros N. induction d as [|[k0 v0] d IH]; simpl; [reflexivity|].
  destruct (String.eqb k' k0) eqn:E; simpl.
  - apply String.eqb_eq in E. subst.
    destruct (String.eqb k k0) eqn:E'; [apply String.eqb_eq in E'; tauto|reflexivity].
  - now rewrite IH.
Qed.
End DictMore.

Lemma list_remove_app_fresh x l : ~ In x l -> list_remove x (l ++ [x]) = l.
Proof.
  induction l as [|y l IH]; simpl.
  - now rewrite String.eqb_refl.
  - intros H. destruct (String.eqb x y) eqn:E.
    + apply String.eqb_eq in E. subst. tauto.
    + rewrite IH; tauto.
Qed.

Lemma str_in_app_r x l : str_in x (l ++ [x]) = true.
Proof. apply str_in_In. apply in_or_app. right. now left. Qed.

Section MoreSlideFacts.
Context {DT : DatetimeLib} {IM : PIL}.
Import SlideData.

(* --------------------------------------------------------------------- *)
(** ** An id that the slide does not have *)

(** X4. [remove_element], [update_element] and [reorder_element] called with an
    id that is not a key of [elements] return [False] and leave the slide,
    the clock and the files exactly as they were. *)
Theorem unknown_id_changes_nothing eid s w :
  dict_get eid (elements s) = None ->
  remove_element eid s w = Some (PBool false, s, w) /\
  (forall updates, update_element eid updates s w = Some (PBool false, s, w)) /\
  (forall z, reorder_element eid z s w = Some (PBool false, s, w)).
Proof.
  intros H. unfold remove_element, update_element, reorder_element.
  rewrite H. auto.
Qed.

(* --------------------------------------------------------------------- *)
(** ** Keyword options that no constructor takes *)

Lemma init_kwargs_rejects ty kwargs w k :
  In k (dict_keys kwargs) ->
  ~ In k ["element_id"; "x"; "y"; "width"; "height"] ->
  ContentElement.init_kwargs ty kwargs w = None.
Proof.
  intros Hin Hk. unfold ContentElement.init_kwargs.
  match goal with |- (if ?b then _ else _) = _ => destruct b eqn:E end;
    [|reflexivity].
  exfalso. rewrite forallb_forall in E.
  apply in_map_iff in Hin. destruct Hin as [[k' v] [Hfst Hin]]. simpl in Hfst. subst k'.
  specialize (E _ Hin). simpl fst in E. apply str_in_In in E. tauto.
Qed.

Lemma kw_clash_false given kw k :
  kw_clash given kw = false -> In k (dict_keys kw) -> ~ In k given.
Proof.
  unfold kw_clash. intros H Hin Hg.
  apply in_map_iff in Hin. destruct Hin as [[k' v] [Hfst Hin]]. simpl in Hfst. subst k'.
  assert (existsb (fun kv => str_in (fst kv) given) kw = true) as C; [|congruence].
  apply existsb_exists. exists (k, v). split; [exact Hin|]. now apply str_in_In.
Qed.

Lemma kw_without_keeps names kw k :
  In k (dict_keys kw) -> ~ In k names -> In k (dict_keys (kw_without names kw)).
Proof.
  intros Hin Hn. apply in_map_iff in Hin. destruct Hin as [[k' v] [Hfst Hin]].
  simpl in Hfst. subst k'. apply in_map_iff. exists (k, v). split; [reflexivity|].
  apply filter_In. split; [exact Hin|]. simpl.
  destruct (str_in k names) eqn:E; [|reflexivity].
  apply str_in_In in E. tauto.
Qed.

(** What the keyword arguments of an [add_*_element] lead to when one of
    them is a name that neither the subclass constructor nor
    [ContentElement.__init__] takes: the [TypeError] of the constructor. *)
Lemma rejected_kwargs given named (x y width height : pyval) options k ty w :
  In k (dict_keys options) ->
  k <> "element_id" -> ~ In k named ->
  kw_clash (given :: ["x"; "y"; "width"; "height"]) options = false ->
  ContentElement.init_kwargs ty
    ([("x", x); ("y", y); ("width", width); ("height", height)]
       ++ kw_without named options) w = None.
Proof.
  intros Hin He Hn Hc.
  pose proof (kw_clash_false _ _ _ Hc Hin) as Hg.
  apply init_kwargs_rejects with (k := k).
  - unfold dict_keys. rewrite map_app. apply in_or_app. right.
    now apply kw_without_keeps.
  - simpl in *. intuition congruence.
Qed.

Lemma add_text_element_rejects k text x y width height options s w :
  In k (dict_keys options) ->
  k <> "element_id" -> k <> "font_family" -> k <> "font_size" ->
  add_text_element text x y width height options s w = None.
Proof.
  intros Hin He H1 H2. unfold add_text_element.
  destruct (kw_clash _ options) eqn:Hc; [reflexivity|].
  unfold TextElement.init.
  rewrite (rejected_kwargs "text" ["font_family"; "font_size"] x y width height
             options k "text" w Hin He); [reflexivity| |exact Hc].
  simpl. intuition congruence.
Qed.

(** X1. The only options that [add_text_element] can pass on are [element_id],
    [font_family] and [font_size]; [add_icon_element] takes [element_id] and
    [icon_type], [add_symbol_element] [element_id] and [symbol_type].  Any
    other option, the other attributes of the element included
    ([font_weight], [line_height], [z_index], ...), makes the call raise. *)
Theorem add_element_rejects_other_options k options s w :
  In k (dict_keys options) -> k <> "element_id" ->
  (forall text x y width height,
     k <> "font_family" -> k <> "font_size" ->
     add_text_element text x y width height options s w = None) /\
  (forall icon_code x y size,
     k <> "icon_type" -> add_icon_element icon_code x y size options s w = None) /\
  (forall symbol x y size,
     k <> "symbol_type" -> add_symbol_element symbol x y size options s w = None).
Proof.
  intros Hin He. split; [|split].
  - intros text x y width height H1 H2.
    now apply add_text_element_rejects with (k := k).
  - intros icon_code x y size H1. unfold add_icon_element.
    destruct (kw_clash _ options) eqn:Hc; [reflexivity|].
    unfold IconElement.init.
    rewrite (rejected_kwargs "icon_code" ["icon_type"] x y size size
               options k "icon" w Hin He); [reflexivity| |exact Hc].
    simpl. intuition congruence.
  - intros symbol x y size H1. unfold add_symbol_element.
    destruct (kw_clash _ options) eqn:Hc; [reflexivity|].
    unfold SymbolElement.init.
    rewrite (rejected_kwargs "symbol" ["symbol_type"] x y size size
               options k "symbol" w Hin He); [reflexivity| |exact Hc].
    simpl. intuition congruence.
Qed.

(* --------------------------------------------------------------------- *)
(** ** Adding a text and finding it again *)

(** The entry that [_add_to_history] appends, and the whole method as one
    equation: appending and cutting to the last hundred. *)
Definition history_entry (action element_id : string) (data : pyval) (s : t)
  (w : World) : pyval :=
  PDict [("timestamp", PStr (isoformat (clock w (ticks w))));
         ("action", PStr action);
         ("element_id", PStr element_id);
         ("data", data);
         ("version", PInt (version s))].

Lemma add_to_history_eq action eid data s w :
  _add_to_history action eid data s w
  = (with_change_history s
       (last_n 100 (change_history s ++ [history_entry action eid data s w])),
     snd (now w)).
Proof.
  unfold _add_to_history, history_entry. cbn -[last_n Nat.ltb]. f_equal. f_equal.
  match goal with |- (if ?b then _ else _) = _ => destruct b eqn:E end;
    [reflexivity|].
  apply Nat.ltb_ge in E. symmetry. now apply last_n_short.
Qed.

(** X2. [add_text_element] without options on geometry that converts to
    [float]: it returns the next UUID; under that id [elements] holds a text
    element with the text, the converted geometry, Arial at size 16 and
    z-index 0; the id goes to the end of [element_order]; every other key of
    [elements] keeps its element; the version goes up by one and the history
    gains an [add_element] entry that records the version before the call. *)
Theorem add_text_element_stores_text text x y width height fx fy fw fh s w :
  py_float x = Some fx -> py_float y = Some fy ->
  py_float width = Some fw -> py_float height = Some fh ->
  let eid := uuid_source w (uuid_drawn w) in
  exists e s' w' entry,
    add_text_element text x y width height [] s w = Some (PStr eid, s', w') /\
    dict_get eid (elements s') = Some (EText e) /\
    TextElement.text e = PStr text /\
    TextElement.font_family e = PStr "Arial" /\
    TextElement.font_size e = PInt 16 /\
    ContentElement.id (TextElement.base e) = PStr eid /\
    ContentElement.type (TextElement.base e) = PStr "text" /\
    ContentElement.x (TextElement.base e) = PFloat fx /\
    ContentElement.y (TextElement.base e) = PFloat fy /\
    ContentElement.width (TextElement.base e) = PFloat fw /\
    ContentElement.height (TextElement.base e) = PFloat fh /\
    ContentElement.z_index (TextElement.base e) = PInt 0 /\
    (forall k, k <> eid -> dict_get k (elements s') = dict_get k (elements s)) /\
    element_order s' = (element_order s ++ [eid])%list /\
    version s' = version s + 1 /\
    change_history s' = last_n 100 (change_history s ++ [entry]) /\
    py_getitem entry "action" = Some (PStr "add_element") /\
    py_getitem entry "element_id" = Some (PStr eid) /\
    py_getitem entry "version" = Some (PInt (version s)).
Proof.
  intros Hx Hy Hw Hh eid.
  unfold add_text_element, TextElement.init, ContentElement.init_kwargs,
    ContentElement.init. cbn -[register].
  rewrite Hx, Hy, Hw, Hh. cbn -[register].
  unfold register. cbn -[_add_to_history _update_modified].
  rewrite add_to_history_eq. unfold _update_modified. cbn -[last_n].
  eexists _, _, _, _. split; [reflexivity|]. cbn -[last_n].
  split; [apply dict_get_set_same|].
  repeat (split; [reflexivity|]).
  split; [intros k Hk; now apply dict_get_set_other|].
  repeat (split; [reflexivity|]). reflexivity.
Qed.

(* --------------------------------------------------------------------- *)
(** ** Removing what was added *)

(** The element that an add call stores can be saved. *)
Lemma added_element_saves c s w eid s1 w1 :
  is_add c = true ->
  run_call c s w = Some (Value (PStr eid), s1, w1) ->
  exists el d,
    elements s1 = dict_set eid el (elements s) /\
    element_order s1 = (element_order s ++ [eid])%list /\
    version s1 = version s + 1 /\
    element_to_dict el = Some d.
Proof.
  intros Hadd H. destruct c; try discriminate Hadd; simpl in H; unfold as_value in H.
  - destruct (add_text_element _ _ _ _ _ _ _ _) as [[[a s'] w']|] eqn:E; [|discriminate].
    inv H. unfold add_text_element in E. break_steps.
    match goal with H : register _ _ _ _ = Some _ |- _ =>
      apply register_spec in H; destruct H as (? & ? & ? & ? & ?) end.
    eexists _, _. repeat split; eauto. reflexivity.
  - destruct (add_image_element _ _ _ _ _ _ _ _) as [[[a s'] w']|] eqn:E; [|discriminate].
    inv H. unfold add_image_element in E. break_steps.
    match goal with H : register _ _ _ _ = Some _ |- _ =>
      apply register_spec in H; destruct H as (? & ? & ? & ? & ?) end.
    eexists _, _. repeat split; eauto. reflexivity.
  - destruct (add_icon_element _ _ _ _ _ _ _) as [[[a s'] w']|] eqn:E; [|discriminate].
    inv H. unfold add_icon_element in E. break_steps.
    match goal with H : register _ _ _ _ = Some _ |- _ =>
      apply register_spec in H; destruct H as (? & ? & ? & ? & ?) end.
    eexists _, _. repeat split; eauto. reflexivity.
  - destruct (add_symbol_element _ _ _ _ _ _ _) as [[[a s'] w']|] eqn:E; [|discriminate].
    inv H. unfold add_symbol_element in E.
    destruct (kw_clash _ _); [discriminate|].
    destruct (SymbolElement.init _ _ _ _) as [[e0 w0]|] eqn:Ei; [|discriminate].
    match type of E with
    | context [register ?el ?d ?s0 ?w0'] =>
        destruct (register el d s0 w0') as [[[i s2] w2]|] eqn:Er; [|discriminate]
    end.
    inv E. apply register_spec in Er. destruct Er as (? & ? & ? & ? & ?).
    unfold SymbolElement.init in Ei. break_steps.
    match goal with
    | H : elements s1 = dict_set eid ?el _ |- _ =>
        assert (Hd : exists d, element_to_dict el = Some d)
    end.
    { unfold element_to_dict, SymbolElement.to_dict.
      edestruct symbol_unicode_info as [info Hi]; [|rewrite Hi; eauto].
      exact I. }
    destruct Hd as [d Hd]. eexists _, d. repeat split; eauto.
Qed.

(** X3. An add call that returns an id which the slide did not have, followed
    by [remove_element] of that id: the removal succeeds, [elements] and
    [element_order] are again what they were before the add, and the version
    has gone up by two. *)
Theorem remove_undoes_add c s w eid s1 w1 :
  is_add c = true ->
  run_call c s w = Some (Value (PStr eid), s1, w1) ->
  ~ In eid (dict_keys (elements s)) -> ~ In eid (element_order s) ->
  exists s2 w2,
    remove_element eid s1 w1 = Some (PBool true, s2, w2) /\
    elements s2 = elements s /\
    element_order s2 = element_order s /\
    version s2 = version s + 2.
Proof.
  intros Hadd H Hk Ho.
  destruct (added_element_saves c s w eid s1 w1 Hadd H) as (el & d & He & Hord & Hv & Hd).
  unfold remove_element.
  rewrite He, dict_get_set_same, Hd, add_to_history_eq.
  unfold _update_modified. cbn -[last_n str_in].
  rewrite Hord, str_in_app_r. cbn -[last_n].
  eexists _, _. split; [reflexivity|]. cbn -[last_n].
  rewrite He, Hv, dict_del_set_fresh, list_remove_app_fresh by assumption.
  repeat split. lia.
Qed.

(* --------------------------------------------------------------------- *)
(** ** What an update leaves alone *)

(** X5. A successful [update_element] changes the element under the given id and
    nothing else of the two containers: [element_order] is the same list
    (also when the update assigns [z_index]), [elements] has the same keys in
    the same order, every other key keeps its element; the version goes up
    by one. *)
Theorem update_element_keeps_order eid updates s w s' w' :
  update_element eid updates s w = Some (PBool true, s', w') ->
  element_order s' = element_order s /\
  dict_keys (elements s') = dict_keys (elements s) /\
  (forall k, k <> eid -> dict_get k (elements s') = dict_get k (elements s)) /\
  version s' = version s + 1.
Proof.
  intros H. apply update_element_effect in H. inversion H; subst.
  - discriminate.
  - match goal with
    | Hg : dict_get eid (elements s) = Some _, He : elements s' = _,
      Ho : element_order s' = _, Hr : recorded s s' |- _ =>
        rewrite He, Ho; destruct Hr as [Hv _]; rewrite Hv;
        apply dict_get_In_keys in Hg
    end.
    split; [reflexivity|]. split; [now apply dict_set_keys_present|].
    split; [|reflexivity]. intros k Hk. now apply dict_get_set_other.
Qed.

(** The loop over the updates when the element has none of the names. *)
Lemma apply_updates_unknown updates el :
  Forall (fun kv => element_hasattr el (fst kv) = false) updates ->
  apply_updates updates el = Some el.
Proof.
  induction 1 as [|[k v] rest Hk _ IH]; simpl; [reflexivity|].
  simpl in Hk. now rewrite Hk.
Qed.

(** An element whose [type] says ["image"] is an [ImageElement]. *)
Definition image_is_image (el : Element) : Prop :=
  match el with
  | EImage _ => True
  | _ => py_eq_str (element_type el) "image" = false
  end.

(** X6. [update_element] with names that the element does not have: no
    attribute is assigned and none is created, and yet the call returns
    [True], stamps the element with the time of the call, and counts as a
    change (one more version). *)
Theorem update_element_ignores_unknown_attributes eid updates old d s w :
  dict_get eid (elements s) = Some old ->
  element_to_dict old = Some d ->
  image_is_image old ->
  Forall (fun kv => element_hasattr old (fst kv) = false) updates ->
  exists s' w',
    update_element eid updates s w = Some (PBool true, s', w') /\
    elements s' =
      dict_set eid
        (element_with_base old
           (ContentElement.set_modified_at (element_base old) (clock w (ticks w))))
        (elements s) /\
    element_order s' = element_order s /\
    version s' = version s + 1.
Proof.
  intros Hg Hd Himg Hun. unfold update_element.
  rewrite Hg, Hd, (apply_updates_unknown _ _ Hun).
  cbn -[_add_to_history _update_modified].
  match goal with
  | |- context [match ?x with Some fw => _ | None => None end] =>
      assert (Hfw : exists fw, x = Some fw)
  end.
  { destruct (_ && _) eqn:Eb; [|eauto].
    apply andb_true_iff in Eb. destruct Eb as [Et _].
    destruct old as [e|e|e|e]; simpl in Himg |- *; eauto;
      unfold element_type in *; destruct e as [b]; destruct b; simpl in *; congruence. }
  destruct Hfw as [fw Hfw]. rewrite Hfw, add_to_history_eq.
  unfold _update_modified. cbn -[last_n].
  eexists _, _. split; [reflexivity|]. cbn -[last_n]. auto.
Qed.
(* --------------------------------------------------------------------- *)
(** ** Statistics *)

(** How many elements of a list say the type [t]. *)
Definition count_of_type (t : string) (els : list Element) : Z :=
  Z.of_nat (List.length (filter (fun el => py_eq_str (element_type el) t) els)).

(** A count as [by_type] holds it: no key for a type that was never seen. *)
Definition counted (n : Z) : option pyval :=
  if n =? 0 then None else Some (PInt n).

(** [len(element.text)] summed over the elements of type ["text"]. *)
Definition characters_of (el : Element) : Z :=
  if py_eq_str (element_type el) "text"
  then match element_text el with
       | Some (PStr t) => Z.of_nat (String.length t)
       | _ => 0
       end
  else 0.

Definition total_characters (els : list Element) : Z :=
  fold_right (fun el acc => characters_of el + acc) 0 els.

Lemma count_of_type_nonneg t els : 0 <= count_of_type t els.
Proof. unfold count_of_type. lia. Qed.

Lemma count_of_type_cons t el els :
  count_of_type t (el :: els)
  = (if py_eq_str (element_type el) t then 1 else 0) + count_of_type t els.
Proof.
  unfold count_of_type. simpl.
  destruct (py_eq_str (element_type el) t); simpl List.length; lia.
Qed.

Lemma count_type_spec (n : string -> Z) ty by_type :
  (forall t, 0 <= n t) ->
  (forall t, dict_get t by_type = counted (n t)) ->
  count_type ty by_type = Some (dict_set ty (PInt (n ty + 1)) by_type) /\
  forall t, dict_get t (dict_set ty (PInt (n ty + 1)) by_type)
            = counted (n t + (if String.eqb ty t then 1 else 0)).
Proof.
  intros Hn Hb. split.
  - unfold count_type, get_default. rewrite Hb. unfold counted.
    destruct (n ty =? 0) eqn:E; simpl; [|reflexivity].
    apply Z.eqb_eq in E. now rewrite E.
  - intros t. destruct (String.eqb ty t) eqn:E.
    + apply String.eqb_eq in E. subst t. rewrite dict_get_set_same.
      unfold counted. specialize (Hn ty).
      destruct (n ty + 1 =? 0) eqn:E0; [apply Z.eqb_eq in E0; lia|reflexivity].
    + apply String.eqb_neq in E. rewrite dict_get_set_other by congruence.
      rewrite Hb. f_equal. lia.
Qed.

(** The loop of [get_slide_statistics], started on counts [n]. *)
Lemma statistics_loop_counts els :
  forall (n : string -> Z) by_type chars words images r,
    (forall t, 0 <= n t) ->
    (forall t, dict_get t by_type = counted (n t)) ->
    statistics_loop els (by_type, chars, words, images) = Some r ->
    let '(by_type', chars', _, images') := r in
    (forall t, dict_get t by_type' = counted (n t + count_of_type t els)) /\
    chars' = chars + total_characters els /\
    images' = images + count_of_type "image" els.
Proof.
  induction els as [|el els IH]; intros n by_type chars words images r Hn Hb H.
  - simpl in H. inv H. repeat split; try (unfold count_of_type; simpl; lia).
    intros t. rewrite Hb. f_equal. unfold count_of_type. simpl. lia.
  - simpl in H.
    destruct (py_str (element_type el)) as [ty|] eqn:Ety; [|discriminate].
    assert (Hty : element_type el = PStr ty)
      by (destruct (element_type el); try discriminate; simpl in Ety; congruence).
    destruct (count_type_spec n ty by_type Hn Hb) as [Hc Hb'].
    rewrite Hc in H.
    set (n' := fun t => n t + (if String.eqb ty t then 1 else 0)) in *.
    assert (Hn' : forall t, 0 <= n' t).
    { intros t. unfold n'. specialize (Hn t). destruct (String.eqb ty t); lia. }
    assert (Hstep : forall t, n' t + count_of_type t els
                              = n t + count_of_type t (el :: els)).
    { intros t. rewrite count_of_type_cons, Hty. unfold n'. simpl. lia. }
    assert (Himg : forall i, (if String.eqb ty "image" then i + 1 else i)
                             + count_of_type "image" els
                             = i + count_of_type "image" (el :: els)).
    { intros i. rewrite count_of_type_cons, Hty. simpl.
      destruct (String.eqb ty "image"); lia. }
    destruct (String.eqb ty "text") eqn:Etext.
    + apply String.eqb_eq in Etext. subst ty.
      destruct (element_text el) as [txt|] eqn:Etxt; [|discriminate].
      destruct (py_str txt) as [str|] eqn:Estr; [|discriminate].
      specialize (IH n' _ _ _ _ r Hn' Hb' H).
      destruct r as [[[bt' c'] wd'] im'].
      destruct IH as (I1 & I2 & I3). split; [|split].
      * intros t. now rewrite I1, Hstep.
      * rewrite I2. simpl. unfold characters_of. rewrite Hty, Etxt. simpl.
        destruct txt; try discriminate. simpl in Estr. inv Estr. lia.
      * rewrite I3. exact (Himg images).
    + assert (Hch : total_characters (el :: els) = total_characters els).
      { simpl. unfold characters_of. rewrite Hty. simpl. now rewrite Etext. }
      destruct (String.eqb ty "image") eqn:Eimage.
      * specialize (IH n' _ _ _ _ r Hn' Hb' H).
        destruct r as [[[bt' c'] wd'] im'].
        destruct IH as (I1 & I2 & I3). split; [|split].
        -- intros t. now rewrite I1, Hstep.
        -- now rewrite I2, Hch.
        -- rewrite I3. exact (Himg images).
      * specialize (IH n' _ _ _ _ r Hn' Hb' H).
        destruct r as [[[bt' c'] wd'] im'].
        destruct IH as (I1 & I2 & I3). split; [|split].
        -- intros t. now rewrite I1, Hstep.
        -- now rewrite I2, Hch.
        -- rewrite I3. exact (Himg images).
Qed.

Lemma get_elements_by_type_length t s :
  Z.of_nat (List.length (get_elements_by_type t s))
  = count_of_type t (dict_values (elements s)).
Proof.
  unfold get_elements_by_type, count_of_type, dict_values. f_equal.
  induction (elements s) as [|[k el] l IH]; simpl; [reflexivity|].
  destruct (py_eq_str (element_type el) t); simpl; now rewrite IH.
Qed.

(** X10. The statistics of a slide agree with its contents: [total_elements] is
    the number of elements, [by_type] holds for every type the number of
    elements that [get_elements_by_type] finds (and no key for a type without
    elements), [image_count] is the number of elements of type ["image"],
    and [total_characters] is the length of the texts of the elements of
    type ["text"], added up. *)
Theorem get_slide_statistics_counts s stats :
  get_slide_statistics s = Some stats ->
  exists by_type,
    py_getitem stats "total_elements"
      = Some (PInt (Z.of_nat (List.length (elements s)))) /\
    py_getitem stats "by_type" = Some (PDict by_type) /\
    (forall t, dict_get t by_type
               = counted (Z.of_nat (List.length (get_elements_by_type t s)))) /\
    py_getitem stats "image_count"
      = Some (PInt (Z.of_nat (List.length (get_elements_by_type "image" s)))) /\
    py_getitem stats "total_characters"
      = Some (PInt (total_characters (dict_values (elements s)))).
Proof.
  unfold get_slide_statistics. intros H.
  destruct (statistics_loop _ _) as [[[[bt c] wd] im]|] eqn:E; [|discriminate].
  inv H.
  pose proof (statistics_loop_counts _ (fun _ => 0) [] 0 0 0 _
                (fun _ => Z.le_refl 0) (fun _ => eq_refl) E) as (H1 & H2 & H3).
  cbn beta in H1. rewrite Z.add_0_l in H2, H3.
  exists bt. cbn. rewrite !get_elements_by_type_length.
  repeat split; try congruence. intros t. now rewrite H1, Z.add_0_l, get_elements_by_type_length.
Qed.
(* --------------------------------------------------------------------- *)
(** ** Saving a slide and loading it again *)

(** The [type] of the element names its class, as every constructor sets
    it. *)
Definition well_typed (el : Element) : Prop :=
  element_type el
  = PStr (match el with
          | EText _ => "text"
          | EImage _ => "image"
          | EIcon _ => "icon"
          | ESymbol _ => "symbol"
          end).

(** An element that comes back from its saved form. *)
Definition saveable (el : Element) : Prop :=
  well_typed el /\ coerced el /\ timestamps_parse el.

Lemma saved_type el d :
  element_to_dict el = Some d ->
  get_default "type" (PStr "text") d = element_type el.
Proof.
  destruct el as [e|e|e|e]; simpl; intros H.
  - inv H. destruct e as [b]. destruct b. reflexivity.
  - inv H. destruct e as [b]. destruct b. reflexivity.
  - inv H. destruct e as [b]. destruct b. reflexivity.
  - unfold SymbolElement.to_dict in H.
    destruct (SymbolElement.get_unicode_info e); [|discriminate]. inv H.
    destruct e as [b]. destruct b. reflexivity.
Qed.

Lemma element_reload_own el w :
  coerced el -> timestamps_parse el ->
  exists d w',
    element_to_dict el = Some d /\ variant_from_dict el d w = Some (el, w').
Proof.
  intros H [Hc Hm].
  destruct (element_reload el
              (PStr (isoformat (ContentElement.created_at (element_base el))))
              (PStr (isoformat (ContentElement.modified_at (element_base el))))
              w H) as (d & w' & Hd & Hr & _).
  exists d, w'. split; [exact Hd|].
  rewrite (restamped_own el d Hd) in Hr. rewrite Hr.
  unfold reloaded, reloaded_timestamps, parse_timestamp.
  rewrite Hc, Hm. simpl. now rewrite with_own_timestamps.
Qed.

Lemma statistics_loop_defined els :
  forall (n : string -> Z) by_type chars words images,
    (forall t, 0 <= n t) ->
    (forall t, dict_get t by_type = counted (n t)) ->
    Forall saveable els ->
    exists r, statistics_loop els (by_type, chars, words, images) = Some r.
Proof.
  induction els as [|el els IH]; intros n by_type chars words images Hn Hb Hall.
  - simpl. eauto.
  - inversion Hall as [|? ? [Hty [Hco _]] Hrest]; subst.
    set (ty := match el with
               | EText _ => "text" | EImage _ => "image"
               | EIcon _ => "icon" | ESymbol _ => "symbol" end).
    destruct (count_type_spec n ty by_type Hn Hb) as [Hc Hb'].
    set (n' := fun t => n t + (if String.eqb ty t then 1 else 0)) in *.
    assert (Hn' : forall t, 0 <= n' t).
    { intros t. unfold n'. specialize (Hn t). destruct (String.eqb ty t); lia. }
    simpl. unfold well_typed in Hty. rewrite Hty. fold ty. simpl. rewrite Hc.
    destruct el as [e|e|e|e]; subst ty; simpl.
    + destruct Hco as (_ & _ & _ & _ & Ht & _). simpl in Ht.
      destruct (TextElement.text e); try contradiction. simpl.
      eapply IH; eauto.
    + eapply IH; eauto.
    + eapply IH; eauto.
    + eapply IH; eauto.
Qed.

Lemma all_str_map_PStr l : all_str (map PStr l) = Some l.
Proof. induction l as [|x l IH]; simpl; [reflexivity|now rewrite IH]. Qed.

(** The element loop of [from_dict] on the saved elements of a slide. *)
Lemma restore_saved els :
  forall acc w,
    NoDup (dict_keys els) ->
    (forall k, In k (dict_keys els) -> ~ In k (dict_keys acc)) ->
    Forall (fun kv => saveable (snd kv)) els ->
    exists ds w',
      elements_to_dict els = Some ds /\
      restore_elements ds acc w = Some ((acc ++ els)%list, w').
Proof.
  induction els as [|[eid el] els IH]; intros acc w Hnd Hfresh Hall.
  - exists [], w. simpl. now rewrite app_nil_r.
  - inversion Hall as [|? ? Hs Hrest]; subst. simpl in Hs.
    destruct Hs as (Hty & Hco & Hts).
    simpl in Hnd. inversion Hnd as [|? ? Hnotin Hnd']; subst.
    destruct (element_reload_own el w Hco Hts) as (d & w1 & Hd & Hr).
    destruct (IH (dict_set eid el acc) w1 Hnd') as (ds & w' & Hds & Hrs).
    { intros k Hk Hin. rewrite dict_set_keys_fresh in Hin
        by (apply Hfresh; now left).
      apply in_app_or in Hin. destruct Hin as [Hin|[Hin|[]]].
      - apply (Hfresh k); [now right|exact Hin].
      - subst. tauto. }
    { exact Hrest. }
    exists ((eid, PDict d) :: ds), w'. simpl. rewrite Hd, Hds. split; [reflexivity|].
    rewrite (saved_type el d Hd). unfold well_typed in Hty. rewrite Hty.
    rewrite dict_set_fresh in Hrs by (apply Hfresh; now left).
    rewrite <- app_assoc in Hrs. simpl in Hrs.
    destruct el as [e|e|e|e]; simpl in Hr |- *.
    + destruct (TextElement.from_dict d w) as [[e' w'']|]; [|discriminate].
      simpl in Hr. inv Hr.
      rewrite dict_set_fresh by (apply Hfresh; now left). exact Hrs.
    + destruct (ImageElement.from_dict d w) as [[e' w'']|]; [|discriminate].
      simpl in Hr. inv Hr.
      rewrite dict_set_fresh by (apply Hfresh; now left). exact Hrs.
    + destruct (IconElement.from_dict d w) as [[e' w'']|]; [|discriminate].
      simpl in Hr. inv Hr.
      rewrite dict_set_fresh by (apply Hfresh; now left). exact Hrs.
    + destruct (SymbolElement.from_dict d w) as [[e' w'']|]; [|discriminate].
      simpl in Hr. inv Hr.
      rewrite dict_set_fresh by (apply Hfresh; now left). exact Hrs.
Qed.

(** X11. [SlideData.from_dict] applied to [to_dict]: for a slide whose elements
    are keyed once each, name their class in [type], hold the coerced types
    and carry time stamps that parse, and whose own two time stamps parse,
    the loaded slide equals the saved one in every attribute but the
    history, of which only the last ten entries are saved and come back. *)
Theorem slide_round_trip s w :
  NoDup (dict_keys (elements s)) ->
  Forall (fun kv => saveable (snd kv)) (elements s) ->
  fromisoformat (isoformat (created_at s)) = Some (created_at s) ->
  fromisoformat (isoformat (last_modified s)) = Some (last_modified s) ->
  exists d w',
    to_dict s = Some d /\
    from_dict d w
    = Some (with_change_history s (last_n 10 (change_history s)), w').
Proof.
  intros Hnd Hall Hc Hm.
  destruct (statistics_loop_defined (dict_values (elements s)) (fun _ => 0) [] 0 0 0)
    as [[[[bt c] wd] im] Hst]; try (intros; reflexivity || lia).
  { unfold dict_values. apply Forall_map. exact Hall. }
  destruct (restore_saved (elements s) []
              (snd (now (snd (now (snd (now (snd (now w))))))))
              Hnd (fun _ _ F => F) Hall) as (ds & w' & Hds & Hrs).
  unfold to_dict, get_slide_statistics. rewrite Hds, Hst.
  eexists _, w'. split; [reflexivity|].
  unfold from_dict, restore_timestamps, init, parse_timestamp.
  cbn -[restore_elements last_n]. rewrite all_str_map_PStr, Hc, Hm.
  cbn -[restore_elements last_n].
  cbn -[last_n] in Hrs. rewrite Hrs. destruct s. reflexivity.
Qed.
(* --------------------------------------------------------------------- *)
(** ** Files *)

Lemma remove_if_exists_other p w w' q :
  remove_if_exists p w = Some w' -> q <> p ->
  dict_get q (files w') = dict_get q (files w).
Proof.
  unfold remove_if_exists, remove_file. intros H Hq.
  destruct (path_exists p w); [|now inv H].
  simpl in H. destruct (writable w p); [|discriminate]. inv H. simpl.
  now apply dict_get_del_other.
Qed.

Lemma remove_image_files_paths e s w q :
  (forall p, py_str (ImageElement.image_path e) = Some p ->
             q <> path_join2 "content" p) ->
  (forall p, ImageElement.get_processed_path e (slide_id s) = Some p -> q <> p) ->
  (forall p, _get_thumbnail_path e s = Some p -> q <> p) ->
  dict_get q (files (_remove_image_files e s w)) = dict_get q (files w).
Proof.
  intros H1 H2 H3. unfold _remove_image_files.
  assert (S1 : forall w0 w1,
             (if py_truthy (ImageElement.image_path e)
              then p <- py_str (ImageElement.image_path e) ;;
                   remove_if_exists (path_join2 "content" p) w0
              else Some w0) = Some w1 ->
             dict_get q (files w1) = dict_get q (files w0)).
  { intros w0 w1 H. destruct (py_truthy _); [|now inv H].
    destruct (py_str _) as [p|]; [|discriminate].
    eapply remove_if_exists_other; [exact H|]. now apply H1. }
  assert (S2 : forall w0 w1,
             (p <- ImageElement.get_processed_path e (slide_id s) ;;
              remove_if_exists p w0) = Some w1 ->
             dict_get q (files w1) = dict_get q (files w0)).
  { intros w0 w1 H. destruct (ImageElement.get_processed_path _ _) as [p|];
      [|discriminate].
    eapply remove_if_exists_other; [exact H|]. now apply H2. }
  assert (S3 : forall w0 w1,
             (p <- _get_thumbnail_path e s ;; remove_if_exists p w0) = Some w1 ->
             dict_get q (files w1) = dict_get q (files w0)).
  { intros w0 w1 H. destruct (_get_thumbnail_path _ _) as [p|]; [|discriminate].
    eapply remove_if_exists_other; [exact H|]. now apply H3. }
  match goal with
  | |- context [match ?a with Some _ => _ | None => w end] =>
      destruct a as [w1|] eqn:E1; [|reflexivity]
  end.
  apply S1 in E1.
  match goal with
  | |- context [match ?a with Some _ => _ | None => w1 end] =>
      destruct a as [w2|] eqn:E2; [|exact E1]
  end.
  apply S2 in E2.
  match goal with
  | |- context [match ?a with Some _ => _ | None => w2 end] =>
      destruct a as [w3|] eqn:E3; [|congruence]
  end.
  apply S3 in E3. congruence.
Qed.

(** X14. [_remove_image_files] removes at most the original under [content/],
    the processed version and the thumbnail of the image element: the file
    at any other path is after the call what it was before. *)
Theorem remove_image_files_touches_three_paths e s w q :
  (forall p, py_str (ImageElement.image_path e) = Some p ->
             q <> path_join2 "content" p) ->
  (forall p, ImageElement.get_processed_path e (slide_id s) = Some p -> q <> p) ->
  (forall p, _get_thumbnail_path e s = Some p -> q <> p) ->
  dict_get q (files (_remove_image_files e s w)) = dict_get q (files w).
Proof. apply remove_image_files_paths. Qed.

(** A save, whether it goes through or not, touches its target only. *)
Lemma try_save_other img p quality w q :
  q <> p ->
  dict_get q (files (snd (try_save img p quality w))) = dict_get q (files w).
Proof.
  intros Hq. unfold try_save, write_file.
  destruct (Image_save img p quality) as [bytes|].
  - destruct (writable w p); [|reflexivity]. simpl.
    now apply dict_get_set_other.
  - cbn [snd]. destruct (writable w p); [|reflexivity].
    destruct (Image_save_leaves _ _ _ _) as [f|]; simpl.
    + now apply dict_get_set_other.
    + now apply dict_get_del_other.
Qed.

(** A save that reports success has written its target. *)
Lemma try_save_written img p quality w :
  fst (try_save img p quality w) = true ->
  exists f, dict_get p (files (snd (try_save img p quality w))) = Some f.
Proof.
  unfold try_save, write_file.
  destruct (Image_save img p quality) as [bytes|]; [|discriminate].
  destruct (writable w p); [|discriminate].
  intros _. exists bytes. simpl. apply dict_get_set_same.
Qed.

(** A thumbnail is written only where no file is. *)
Lemma create_thumbnail_keeps e s w p w' :
  _create_thumbnail e s w = (p, w') ->
  forall q f, dict_get q (files w) = Some f -> dict_get q (files w') = Some f.
Proof.
  unfold _create_thumbnail. intros H q f Hq.
  destruct (_get_thumbnail_path e s) as [tp|]; [|now inv H].
  destruct (path_exists tp w) eqn:Ex; [now inv H|].
  match type of H with
  | match ?a with Some _ => _ | None => _ end = _ =>
      destruct a as [small|]; [|now inv H]
  end.
  pose proof (try_save_other small tp (PInt 85) w q) as Hs.
  destruct (try_save small tp (PInt 85) w) as [saved w1]. inv H.
  cbn [snd] in Hs. rewrite Hs; [exact Hq|].
  intros ->. unfold path_exists, dict_mem in Ex. rewrite Hq in Ex. discriminate.
Qed.

Lemma processed_elements_spec els s :
  forall acc w r w',
    processed_elements els s acc w = Some (r, w') ->
    (forall q f, dict_get q (files w) = Some f -> dict_get q (files w') = Some f) /\
    (NoDup (dict_keys els) ->
     (forall k, In k (dict_keys els) -> ~ In k (dict_keys acc)) ->
     dict_keys r = (dict_keys acc ++ dict_keys els)%list).
Proof.
  induction els as [|[eid el] els IH]; intros acc w r w' H.
  - simpl in H. inv H. split; [auto|]. intros _ _. simpl. now rewrite app_nil_r.
  - simpl in H.
    destruct (element_to_dict el) as [d|]; [|discriminate].
    assert (K : forall v w1,
               processed_elements els s (dict_set eid v acc) w1 = Some (r, w') ->
               (forall q f, dict_get q (files w) = Some f ->
                            dict_get q (files w1) = Some f) ->
               (forall q f, dict_get q (files w) = Some f ->
                            dict_get q (files w') = Some f) /\
               (NoDup (dict_keys ((eid, el) :: els)) ->
                (forall k, In k (dict_keys ((eid, el) :: els)) ->
                           ~ In k (dict_keys acc)) ->
                dict_keys r = (dict_keys acc ++ dict_keys ((eid, el) :: els))%list)).
    { intros v w1 Hp Hf. destruct (IH _ _ _ _ Hp) as [F K]. split.
      - intros q f Hq. apply F. now apply Hf.
      - intros Hnd Hfresh. simpl in Hnd. inversion Hnd as [|? ? Hnotin Hnd']; subst.
        rewrite K; [|exact Hnd'|].
        + rewrite dict_set_keys_fresh by (apply Hfresh; now left).
          now rewrite <- app_assoc.
        + intros k Hk Hin.
          rewrite dict_set_keys_fresh in Hin by (apply Hfresh; now left).
          apply in_app_or in Hin. destruct Hin as [Hin|[Hin|[]]].
          * apply (Hfresh k); [now right|exact Hin].
          * subst. tauto. }
    destruct (py_eq_str (element_type el) "image").
    + destruct el as [e|e|e|e]; try discriminate.
      destruct (ImageElement.get_processed_path e (slide_id s)) as [pp|];
        [|discriminate].
      destruct (_create_thumbnail e s w) as [thumb w1] eqn:Et.
      eapply K; [exact H|]. eapply create_thumbnail_keeps; exact Et.
    + destruct (py_eq_str (element_type el) "text").
      * destruct el as [e|e|e|e]; try discriminate.
        destruct (TextElement.get_formatted_text e) as [ft|]; [|discriminate].
        eapply K; [exact H|auto].
      * eapply K; [exact H|auto].
Qed.

(** X12. [create_processed_version] reports the version and the order of the
    slide and one record per key of [elements], in the order of the keys;
    whatever thumbnails it writes, no file that existed is removed or
    replaced. *)
Theorem create_processed_version_keeps_files s w doc w' :
  create_processed_version s w = Some (doc, w') ->
  (forall q f, dict_get q (files w) = Some f -> dict_get q (files w') = Some f) /\
  py_getitem doc "version" = Some (PInt (version s)) /\
  py_getitem doc "element_order" = Some (PList (map PStr (element_order s))) /\
  exists els,
    py_getitem doc "elements" = Some (PDict els) /\
    (NoDup (dict_keys (elements s)) -> dict_keys els = dict_keys (elements s)).
Proof.
  unfold create_processed_version. intros H.
  destruct (config s) as [| | | | | | |cfg]; try discriminate.
  cbn -[processed_elements] in H.
  match type of H with
  | context [processed_elements ?a ?b ?c ?d] =>
      destruct (processed_elements a b c d) as [[els w1]|] eqn:E; [|discriminate]
  end.
  inv H. apply processed_elements_spec in E. destruct E as [F K].
  split; [exact F|]. split; [reflexivity|]. split; [reflexivity|].
  exists els. split; [reflexivity|]. intros Hnd. now apply K.
Qed.

(** X15. [apply_filters] on an image whose [image_path] names no file returns
    [False] and writes nothing, and so it does whenever it fails before it
    comes to save: the source does not open, a filter raises, or the element
    has no processed path; when it returns [True] there is a file at the
    processed path; and in every case the file at any path other than the
    processed path is what it was. *)
Theorem apply_filters_writes_processed_only e slide_id w :
  (forall p, py_str (ImageElement.image_path e) = Some p ->
             path_exists p w = false ->
             ImageElement.apply_filters e slide_id w = (false, w)) /\
  ((forall p src img out pp,
      py_str (ImageElement.image_path e) = Some p ->
      dict_get p (files w) = Some src ->
      Image_open src = Some img ->
      ImageElement.run_filters e img = Some out ->
      ImageElement.get_processed_path e slide_id = Some pp -> False) ->
   ImageElement.apply_filters e slide_id w = (false, w)) /\
  (fst (ImageElement.apply_filters e slide_id w) = true ->
   exists p f,
     ImageElement.get_processed_path e slide_id = Some p /\
     dict_get p (files (snd (ImageElement.apply_filters e slide_id w))) = Some f) /\
  (forall q,
     (forall p, ImageElement.get_processed_path e slide_id = Some p -> q <> p) ->
     dict_get q (files (snd (ImageElement.apply_filters e slide_id w)))
     = dict_get q (files w)).
Proof.
  unfold ImageElement.apply_filters, ImageElement.processed_output.
  split; [|split; [|split]].
  - intros p Hp Hex. rewrite Hp. unfold path_exists, dict_mem in Hex.
    cbn. destruct (dict_get p (files w)); [discriminate|reflexivity].
  - intros Hearly.
    destruct (py_str _) as [p|]; [|reflexivity]. cbn.
    destruct (dict_get p (files w)) as [src|] eqn:E2; [|reflexivity]. cbn.
    destruct (Image_open src) as [img|] eqn:E3; [|reflexivity]. cbn.
    destruct (ImageElement.run_filters e img) as [out|] eqn:E4; [|reflexivity]. cbn.
    destruct (ImageElement.get_processed_path e slide_id) as [pp|]; [|reflexivity].
    destruct (Hearly p src img out pp eq_refl E2 E3 E4 eq_refl).
  - destruct (py_str _) as [p|]; [|discriminate]. cbn.
    destruct (dict_get p (files w)) as [src|]; [|discriminate]. cbn.
    destruct (Image_open src) as [img|]; [|discriminate]. cbn.
    destruct (ImageElement.run_filters e img) as [out|]; [|discriminate]. cbn.
    destruct (ImageElement.get_processed_path e slide_id) as [pp|]; [|discriminate].
    cbn. intros Hok. destruct (try_save_written _ _ _ _ Hok) as [f Hf].
    exists pp, f. split; [reflexivity|exact Hf].
  - intros q Hq.
    destruct (py_str _) as [p|]; [|reflexivity]. cbn.
    destruct (dict_get p (files w)) as [src|]; [|reflexivity]. cbn.
    destruct (Image_open src) as [img|]; [|reflexivity]. cbn.
    destruct (ImageElement.run_filters e img) as [out|]; [|reflexivity]. cbn.
    destruct (ImageElement.get_processed_path e slide_id) as [pp|]; [|reflexivity].
    cbn. apply try_save_other. now apply Hq.
Qed.

(* --------------------------------------------------------------------- *)
(** ** Reordering on a slide that is out of sync *)

Lemma keyed_none {A} (key : A -> option Z) (x : A) (l : list A) :
  In x l -> key x = None -> keyed key l = None.
Proof.
  induction l as [|y l IH]; simpl; [tauto|].
  intros [->|Hin] Hk.
  - now rewrite Hk.
  - destruct (key y); [|reflexivity]. now rewrite IH.
Qed.

(** X8. [reorder_element] on a slide whose [element_order] lists an id that
    [elements] lacks (a loaded slide can be so): the sort key
    [self.elements[eid]] raises [KeyError], for any known element and any
    z-index asked for. *)
Theorem reorder_element_raises_on_missing_key eid z ghost old s w :
  dict_get eid (elements s) = Some old ->
  In ghost (element_order s) ->
  dict_get ghost (elements s) = None ->
  reorder_element eid z s w = None.
Proof.
  intros Hg Hin Hn. unfold reorder_element. rewrite Hg.
  cbn -[sort_by_key z_key dict_set].
  unfold sort_by_key.
  rewrite (keyed_none _ ghost); [reflexivity|exact Hin|].
  unfold z_key. rewrite dict_get_set_other; [now rewrite Hn|].
  intros ->. congruence.
Qed.

(* --------------------------------------------------------------------- *)
(** ** Reordering to the z-index an element has *)

Lemma sort_keyed_sorted_id {A} (l : list (Z * A)) :
  StronglySorted key_le l -> sort_keyed l = l.
Proof.
  induction 1 as [|[k x] l Hs IH Hk]; simpl; [reflexivity|].
  rewrite IH. destruct l as [|[k' y] l']; simpl; [reflexivity|].
  inversion Hk as [|? ? Hle _]; subst. unfold key_le in Hle. simpl in Hle.
  apply Z.leb_le in Hle. now rewrite Hle.
Qed.

Lemma sort_by_key_sorted_id (key : string -> option Z) (ids : list string) :
  Forall (fun i => key i <> None) ids ->
  StronglySorted
    (fun a b => match key a with Some z => z | None => 0 end
                <= match key b with Some z => z | None => 0 end) ids ->
  sort_by_key key ids = Some ids.
Proof.
  intros Hall Hs. unfold sort_by_key.
  destruct (keyed_total key ids Hall) as [kl Hkl]. rewrite Hkl.
  apply keyed_spec in Hkl. destruct Hkl as [Hm Hk].
  rewrite sort_keyed_sorted_id; [now rewrite Hm|].
  subst ids. clear Hall. induction kl as [|a kl IH]; [constructor|].
  simpl in Hs. inversion Hs as [|? ? Hs' Ha]; subst.
  inversion Hk as [|? ? Hka Hk']; subst.
  constructor; [now apply IH|].
  rewrite Forall_map in Ha. rewrite Forall_forall in *.
  intros b Hb. specialize (Ha b Hb). rewrite Hka, (Hk' b Hb) in Ha. exact Ha.
Qed.

Lemma dict_set_same_value {V} k (v : V) d :
  dict_get k d = Some v -> dict_set k v d = d.
Proof.
  induction d as [|[k' v'] d IH]; simpl; [discriminate|].
  destruct (String.eqb k k'); intros H; [now inv H|now rewrite IH].
Qed.

Lemma set_same_z_index old z :
  element_z_index old = PInt z ->
  element_with_base old (ContentElement.set_z_index (element_base old) (PInt z)) = old.
Proof.
  unfold element_z_index.
  destruct old as [e|e|e|e]; destruct e as [b]; destruct b; simpl; intros ->;
    reflexivity.
Qed.

(** X7. [reorder_element] with the z-index that the element already has, on a
    slide whose [element_order] is in ascending z-order: the call returns
    [True] and counts as a change (one more version), and [elements] and
    [element_order] are what they were.  So a second [reorder_element] with
    the same arguments moves nothing. *)
Theorem reorder_to_same_z_moves_nothing eid z old s w :
  dict_get eid (elements s) = Some old ->
  element_z_index old = PInt z ->
  Forall (fun i => z_key (elements s) i <> None) (element_order s) ->
  StronglySorted (fun a b => z_of s a <= z_of s b) (element_order s) ->
  exists s' w',
    reorder_element eid (PInt z) s w = Some (PBool true, s', w') /\
    elements s' = elements s /\
    element_order s' = element_order s /\
    version s' = version s + 1.
Proof.
  intros Hg Hz Hall Hs. unfold reorder_element. rewrite Hg.
  rewrite (set_same_z_index old z Hz), (dict_set_same_value eid old _ Hg).
  cbn -[sort_by_key _add_to_history _update_modified].
  rewrite (sort_by_key_sorted_id (z_key (elements s)) (element_order s) Hall Hs).
  rewrite add_to_history_eq. unfold _update_modified. cbn -[last_n].
  eexists _, _. split; [reflexivity|]. cbn -[last_n]. auto.
Qed.

(* --------------------------------------------------------------------- *)
(** ** The copy of an image *)

(** X13. [_copy_image_to_slide_folder] returns a path only after it has written
    one file: the copy stands under
    [content/slide_<id>/images/original/<uuid>_<basename>] with the content
    of the source, which exists and has a supported extension; the path
    returned is the one of the copy relative to [content]; no other file is
    touched.  When it returns [None] the files are what they were. *)
Theorem copy_image_writes_one_file image_path s w :
  match _copy_image_to_slide_folder image_path s w with
  | (Some relative_path, w') =>
      relative_path = relpath_content (copy_destination image_path s w) /\
      str_in (lower (snd (splitext image_path))) SUPPORTED_IMAGE_FORMATS = true /\
      (exists src, dict_get image_path (files w) = Some src /\
                   dict_get (copy_destination image_path s w) (files w') = Some src) /\
      (forall q, q <> copy_destination image_path s w ->
                 dict_get q (files w') = dict_get q (files w))
  | (None, w') => files w' = files w
  end.
Proof.
  set (dest := copy_destination image_path s w).
  unfold _copy_image_to_slide_folder.
  destruct (str_in _ SUPPORTED_IMAGE_FORMATS) eqn:Ext; cbn [negb]; [|reflexivity].
  cbn [uuid4]. change (path_join2 _ _) with dest.
  destruct (dict_get image_path _) as [src|] eqn:Es; [|reflexivity].
  unfold write_file. cbn [writable files].
  destruct (writable w dest); [|reflexivity].
  cbn [files with_files]. cbn [files] in Es.
  split; [reflexivity|]. split; [reflexivity|].
  split; [exists src; split; [reflexivity|apply dict_get_set_same]|].
  intros q Hq. now apply dict_get_set_other.
Qed.

(* --------------------------------------------------------------------- *)
(** ** The versions that the history records *)

(** A successful mutation: one more version, and one more history entry
    that records the version before the call. *)
Definition stamped (s s' : t) : Prop :=
  version s' = version s + 1 /\
  exists entry,
    change_history s' = last_n 100 (change_history s ++ [entry]) /\
    py_getitem entry "version" = Some (PInt (version s)).

Lemma record_stamps action eid data s w :
  stamped s (fst (_update_modified (fst (_add_to_history action eid data s w))
                    (snd (_add_to_history action eid data s w)))).
Proof.
  rewrite add_to_history_eq. unfold _update_modified, stamped. cbn -[last_n].
  split; [reflexivity|]. eexists. split; reflexivity.
Qed.

Lemma stamped_same_marks s0 s s' :
  version s0 = version s -> change_history s0 = change_history s ->
  stamped s0 s' -> stamped s s'.
Proof. unfold stamped. intros -> ->. auto. Qed.

Lemma register_stamps el data s w eid s' w' :
  register el data s w = Some (eid, s', w') -> stamped s s'.
Proof.
  unfold register. intros H.
  destruct (py_str (element_id el)) as [k|]; [|discriminate].
  match type of H with
  | context [_add_to_history ?a ?i ?d ?s0 ?w0] =>
      pose proof (record_stamps a i d s0 w0) as R;
      destruct (_add_to_history a i d s0 w0) as [s1 w1]
  end.
  cbn [fst snd] in R. destruct (_update_modified s1 w1) as [s2 w2].
  inv H. eapply stamped_same_marks; [| |exact R]; reflexivity.
Qed.

(** Every call that returns leaves version and history alone or stamps
    the slide. *)
Lemma run_call_stamps c s w a s' w' :
  run_call c s w = Some (a, s', w') ->
  (version s' = version s /\ change_history s' = change_history s) \/ stamped s s'.
Proof.
  destruct c; simpl; unfold as_value; intros H.
  - destruct (add_text_element _ _ _ _ _ _ _ _) as [[[v s1] w1]|] eqn:E; [|discriminate].
    inv H. unfold add_text_element in E. break_steps. right.
    eapply register_stamps; eassumption.
  - destruct (add_image_element _ _ _ _ _ _ _ _) as [[[v s1] w1]|] eqn:E; [|discriminate].
    inv H. unfold add_image_element in E. break_steps; auto. right.
    eapply register_stamps; eassumption.
  - destruct (add_icon_element _ _ _ _ _ _ _) as [[[v s1] w1]|] eqn:E; [|discriminate].
    inv H. unfold add_icon_element in E. break_steps. right.
    eapply register_stamps; eassumption.
  - destruct (add_symbol_element _ _ _ _ _ _ _) as [[[v s1] w1]|] eqn:E; [|discriminate].
    inv H. unfold add_symbol_element in E. break_steps. right.
    eapply register_stamps; eassumption.
  - destruct (remove_element _ _ _) as [[[v s1] w1]|] eqn:E; [|discriminate].
    inv H. unfold remove_element in E.
    destruct (dict_get _ (elements s)) as [el|]; [|inv E; auto].
    destruct (element_to_dict el) as [d|]; [|discriminate].
    match type of E with
    | context [_add_to_history ?a ?i ?d ?s0 ?w0] =>
        pose proof (record_stamps a i d s0 w0) as R;
        destruct (_add_to_history a i d s0 w0) as [s1 w1]
    end.
    cbn [fst snd] in R. right.
    match type of E with context [if ?b then _ else _] => destruct b end;
      unfold _update_modified in E, R; inv E;
      unfold stamped in *; cbn -[last_n] in *; exact R.
  - destruct (update_element _ _ _ _) as [[[v s1] w1]|] eqn:E; [|discriminate].
    inv H. unfold update_element in E.
    destruct (dict_get _ (elements s)) as [el|]; [|inv E; auto].
    destruct (element_to_dict el) as [d|]; [|discriminate].
    destruct (apply_updates _ el) as [el'|]; [|discriminate].
    destruct (now w) as [n w0].
    match type of E with match ?x with _ => _ end = _ =>
      destruct x as [fw|]; [|discriminate] end.
    match type of E with
    | context [_add_to_history ?a ?i ?d ?s0 ?w0] =>
        pose proof (record_stamps a i d s0 w0) as R;
        destruct (_add_to_history a i d s0 w0) as [s1 w1]
    end.
    cbn [fst snd] in R. destruct (_update_modified s1 w1) as [s2 w2].
    inv E. right. exact R.
  - destruct (reorder_element _ _ _ _) as [[[v s1] w1]|] eqn:E; [|discriminate].
    inv H. unfold reorder_element in E.
    destruct (dict_get _ (elements s)) as [el|]; [|inv E; auto].
    match type of E with match ?x with _ => _ end = _ =>
      destruct x as [order|]; [|discriminate] end.
    match type of E with
    | context [_add_to_history ?a ?i ?d ?s0 ?w0] =>
        pose proof (record_stamps a i d s0 w0) as R;
        destruct (_add_to_history a i d s0 w0) as [s1 w1]
    end.
    cbn [fst snd] in R. destruct (_update_modified s1 w1) as [s2 w2].
    inv E. right. exact R.
  - break_steps. auto.
  - break_steps. auto.
  - inv H. auto.
  - break_steps. auto.
Qed.

(** The versions [1, ..., n]. *)
Definition versions_to (n : Z) : list Z := map Z.of_nat (seq 1 (Z.to_nat n)).

(** The [version] that each entry of a history records. *)
Definition recorded_versions (h : list pyval) : list (option pyval) :=
  map (fun entry => py_getitem entry "version") h.

(** The history lists the last hundred of the versions the slide has left
    behind, in order. *)
Definition history_in_step (s : t) : Prop :=
  1 <= version s /\
  recorded_versions (change_history s)
  = last_n 100 (map (fun v => Some (PInt v)) (versions_to (version s - 1))).

Lemma map_last_n {A B} (f : A -> B) n (l : list A) :
  map f (last_n n l) = last_n n (map f l).
Proof. unfold last_n. now rewrite length_map, skipn_map. Qed.

Lemma versions_to_succ n : 0 <= n -> versions_to (n + 1) = (versions_to n ++ [n + 1])%list.
Proof.
  intros H. unfold versions_to.
  replace (Z.to_nat (n + 1)) with (Z.to_nat n + 1)%nat by lia.
  rewrite seq_app, map_app. simpl. do 2 f_equal. lia.
Qed.

Lemma run_call_in_step c s w a s' w' :
  run_call c s w = Some (a, s', w') -> history_in_step s -> history_in_step s'.
Proof.
  intros H [Hv Hh]. apply run_call_stamps in H.
  destruct H as [[Ev Eh]|[Ev (entry & Eh & Ee)]].
  - unfold history_in_step. now rewrite Ev, Eh.
  - unfold history_in_step. rewrite Ev, Eh. split; [lia|].
    unfold recorded_versions in *. rewrite map_last_n, map_app, Hh. simpl.
    rewrite Ee, last_n_app_l.
    replace (version s + 1 - 1) with (version s - 1 + 1) by lia.
    rewrite versions_to_succ by lia. rewrite map_app. simpl.
    replace (version s - 1 + 1) with (version s) by lia. reflexivity.
Qed.

(** X9. From a new slide, after any sequence of calls that return, the entries
    of [change_history] record consecutive versions: they are the last
    hundred of [1, ..., version - 1], oldest first.  In particular the last
    entry records the version before the current one. *)
Theorem history_records_consecutive_versions slide_id title background_color w0 cs :
  forall answers s' w',
    run_calls cs (fst (init slide_id title background_color w0))
                 (snd (init slide_id title background_color w0))
    = Some (answers, s', w') ->
    recorded_versions (change_history s')
    = last_n 100 (map (fun v => Some (PInt v)) (versions_to (version s' - 1))).
Proof.
  assert (G : forall cs s w answers s' w',
             run_calls cs s w = Some (answers, s', w') ->
             history_in_step s -> history_in_step s').
  { clear cs. induction cs as [|c cs IH]; simpl; intros s w answers s' w' H Hs.
    - now inv H.
    - destruct (run_call c s w) as [[[a s1] w1]|] eqn:E1; [|discriminate].
      destruct (run_calls cs s1 w1) as [[[answers1 s2] w2]|] eqn:E2; [|discriminate].
      inv H. eapply IH; [exact E2|]. eapply run_call_in_step; eassumption. }
  intros answers s' w' H. eapply G in H; [exact (proj2 H)|].
  unfold init, history_in_step. simpl. split; [lia|reflexivity].
Qed.
End MoreSlideFacts.

(* ===================================================================== *)
(** * The content manager *)
(* ===================================================================== *)

(** [Dict[int, SlideData]]: a dictionary with [int] keys, in insertion
    order. *)
Section IntDict.
Context {V : Type}.

Fixpoint idict_get (k : Z) (d : list (Z * V)) : option V :=
  match d with
  | [] => None
  | (k', v) :: d' => if k =? k' then Some v else idict_get k d'
  end.

Definition idict_mem (k : Z) (d : list (Z * V)) : bool :=
  match idict_get k d with Some _ => true | None => false end.

Fixpoint idict_set (k : Z) (v : V) (d : list (Z * V)) : list (Z * V) :=
  match d with
  | [] => [(k, v)]
  | (k', v') :: d' =>
      if k =? k' then (k', v) :: d' else (k', v') :: idict_set k v d'
  end.

Fixpoint idict_del (k : Z) (d : list (Z * V)) : list (Z * V) :=
  match d with
  | [] => []
  | (k', v') :: d' => if k =? k' then d' else (k', v') :: idict_del k d'
  end.

Definition idict_keys (d : list (Z * V)) : list Z := map fst d.
Definition idict_values (d : list (Z * V)) : list V := map snd d.

(** [max(d.keys(), default=0)] *)
Definition max_key (d : list (Z * V)) : Z :=
  match idict_keys d with
  | [] => 0
  | k :: ks => fold_left Z.max ks k
  end.
End IntDict.

(** [a + b] on two numbers. *)
Definition py_add (a b : pyval) : option pyval :=
  x <- as_num a ;;
  y <- as_num b ;;
  r <- num_add x y ;;
  Some (match r with NInt z => PInt z | NFloat f => PFloat f end).

Module ContentManager.
Section WithEnv.
Context {DT : DatetimeLib} {IM : PIL}.

(** An observer is a callable, compared by identity; here it is its name.
    What an observer does when it is called is its own matter: it is taken to
    leave the manager and the slides alone, and an exception it raises is
    caught by [notify_observers]. *)
Definition callback : Type := string.

(** One call [callback(slide_id, slide_data, action)]. *)
Record notification : Type := notified {
  observer : callback;
  about : Z;
  slide_data : option SlideData.t;
  action : string
}.

Record t : Type := mk {
  slides : list (Z * SlideData.t);
  content_observers : list callback;
  media_base_path : string;
  current_slide_id : Z;
  presentation_metadata : list (string * pyval)
}.

Definition with_slides (m : t) (sl : list (Z * SlideData.t)) : t :=
  mk sl (content_observers m) (media_base_path m) (current_slide_id m)
     (presentation_metadata m).

Definition with_content_observers (m : t) (obs : list callback) : t :=
  mk (slides m) obs (media_base_path m) (current_slide_id m)
     (presentation_metadata m).

(** [self.presentation_metadata['total_slides'] = len(self.slides)] *)
Definition count_slides (m : t) : t :=
  mk (slides m) (content_observers m) (media_base_path m) (current_slide_id m)
     (dict_set "total_slides" (PInt (Z.of_nat (List.length (slides m))))
        (presentation_metadata m)).

(** [_ensure_directory_structure]: [os.makedirs(d, exist_ok=True)] for six
    directories.  The world keeps regular files only, so a directory that
    can be made leaves it as it is; the call raises where a path cannot be
    created or is taken by a regular file. *)
Definition directories : list string :=
  ["content"; "content/templates"; "data"; "data/backups"; "data/exports"; "logs"].

Definition _ensure_directory_structure (w : World) : option World :=
  if forallb (fun d => writable w d && negb (path_exists d w)) directories
  then Some w else None.

(** The literal of [load_default_content], one triple per slide: [id],
    [title], [content].  The strings are the bytes of the source file
    (UTF-8), so a letter or symbol beyond ASCII takes several characters
    here; nothing below looks inside them. *)
Definition default_slides_data : list (Z * string * list (list (string * pyval))) :=
  [(1, "BumbleB - Das automatisierte Shuttle",
    [[("type", PStr "text"); ("text", PStr "BumbleB - Das automatisierte Shuttle");
      ("x", PInt 100); ("y", PInt 80); ("font_size", PInt 36);
      ("font_weight", PStr "bold")];
     [("type", PStr "text");
      ("text", PStr "Schonmal ein automatisiert Shuttle gesehen, das aussieht wie eine Hummel?");
      ("x", PInt 100); ("y", PInt 200); ("font_size", PInt 18)];
     [("type", PStr "symbol"); ("symbol", PStr "🐝"); ("x", PInt 800); ("y", PInt 80);
      ("size", PInt 64)];
     [("type", PStr "symbol"); ("symbol", PStr "🚌"); ("x", PInt 800); ("y", PInt 180);
      ("size", PInt 48)]]);
   (2, "BumbleB - Wie die Hummel fährt",
    [[("type", PStr "text"); ("text", PStr "BumbleB - Wie die Hummel fährt");
      ("x", PInt 100); ("y", PInt 80); ("font_size", PInt 36);
      ("font_weight", PStr "bold")];
     [("type", PStr "text"); ("text", PStr "Innovative Technologie für autonomes Fahren");
      ("x", PInt 100); ("y", PInt 200); ("font_size", PInt 20)];
     [("type", PStr "icon"); ("icon_code", PStr "⚡"); ("x", PInt 800); ("y", PInt 100);
      ("size", PInt 48)];
     [("type", PStr "icon"); ("icon_code", PStr "🔧"); ("x", PInt 800); ("y", PInt 180);
      ("size", PInt 40)]]);
   (3, "Einsatzgebiete und Vorteile",
    [[("type", PStr "text"); ("text", PStr "Einsatzgebiete und Vorteile");
      ("x", PInt 100); ("y", PInt 80); ("font_size", PInt 36);
      ("font_weight", PStr "bold")];
     [("type", PStr "text");
      ("text", PStr ("• Urbane Gebiete" ++ newline ++ "• Nachhaltiger Transport"
                       ++ newline ++ "• Vielseitige Einsatzmöglichkeiten"));
      ("x", PInt 100); ("y", PInt 200); ("font_size", PInt 18);
      ("line_height", PFloat 1.5)];
     [("type", PStr "symbol"); ("symbol", PStr "🏙️"); ("x", PInt 600); ("y", PInt 180);
      ("size", PInt 48)];
     [("type", PStr "symbol"); ("symbol", PStr "♻️"); ("x", PInt 700); ("y", PInt 180);
      ("size", PInt 48)];
     [("type", PStr "symbol"); ("symbol", PStr "🚀"); ("x", PInt 800); ("y", PInt 180);
      ("size", PInt 48)]]);
   (4, "Sicherheitssysteme",
    [[("type", PStr "text"); ("text", PStr "Sicherheitssysteme");
      ("x", PInt 100); ("y", PInt 80); ("font_size", PInt 36);
      ("font_weight", PStr "bold")];
     [("type", PStr "text"); ("text", PStr "Maximale Sicherheit für alle Passagiere");
      ("x", PInt 100); ("y", PInt 200); ("font_size", PInt 20)];
     [("type", PStr "symbol"); ("symbol", PStr "🛡️"); ("x", PInt 600); ("y", PInt 150);
      ("size", PInt 64)];
     [("type", PStr "icon"); ("icon_code", PStr "✓"); ("x", PInt 700); ("y", PInt 180);
      ("size", PInt 32)];
     [("type", PStr "symbol"); ("symbol", PStr "📡"); ("x", PInt 800); ("y", PInt 150);
      ("size", PInt 48)]]);
   (5, "Nachhaltigkeit & Umwelt",
    [[("type", PStr "text"); ("text", PStr "Nachhaltigkeit & Umwelt");
      ("x", PInt 100); ("y", PInt 80); ("font_size", PInt 36);
      ("font_weight", PStr "bold")];
     [("type", PStr "text");
      ("text", PStr "Umweltfreundlich und effizient für eine grüne Zukunft");
      ("x", PInt 100); ("y", PInt 200); ("font_size", PInt 18)];
     [("type", PStr "symbol"); ("symbol", PStr "🌱"); ("x", PInt 600); ("y", PInt 150);
      ("size", PInt 56)];
     [("type", PStr "symbol"); ("symbol", PStr "🌍"); ("x", PInt 700); ("y", PInt 150);
      ("size", PInt 56)];
     [("type", PStr "symbol"); ("symbol", PStr "💚"); ("x", PInt 800); ("y", PInt 150);
      ("size", PInt 48)]])].

(** The inner loop of [load_default_content]: one add per content item, by
    its [type]; an item of another type is passed over. *)
Fixpoint add_content (items : list (list (string * pyval))) (slide : SlideData.t)
  (w : World) : option (SlideData.t * World) :=
  match items with
  | [] => Some (slide, w)
  | content_item :: rest =>
      ty <- dict_get "type" content_item ;;
      if py_eq_str ty "text"
      then text <- dict_get "text" content_item ;;
           text <- py_str text ;;
           x <- dict_get "x" content_item ;;
           y <- dict_get "y" content_item ;;
           r <- SlideData.add_text_element text x y (PInt 200) (PInt 50)
                  [("font_size", get_default "font_size" (PInt 16) content_item);
                   ("font_weight",
                    get_default "font_weight" (PStr "normal") content_item);
                   ("line_height",
                    get_default "line_height" (PFloat 1.2) content_item)]
                  slide w ;;
           let '(_, slide, w) := r in
           add_content rest slide w
      else if py_eq_str ty "symbol"
      then symbol <- dict_get "symbol" content_item ;;
           symbol <- py_str symbol ;;
           x <- dict_get "x" content_item ;;
           y <- dict_get "y" content_item ;;
           size <- dict_get "size" content_item ;;
           r <- SlideData.add_symbol_element symbol x y size [] slide w ;;
           let '(_, slide, w) := r in
           add_content rest slide w
      else if py_eq_str ty "icon"
      then icon_code <- dict_get "icon_code" content_item ;;
           icon_code <- py_str icon_code ;;
           x <- dict_get "x" content_item ;;
           y <- dict_get "y" content_item ;;
           size <- dict_get "size" content_item ;;
           r <- SlideData.add_icon_element icon_code x y size [] slide w ;;
           let '(_, slide, w) := r in
           add_content rest slide w
      else add_content rest slide w
  end.

(** The outer loop: a slide is built for every id that [slides] lacks. *)
Fixpoint load_slides (data : list (Z * string * list (list (string * pyval))))
  (sl : list (Z * SlideData.t)) (w : World)
  : option (list (Z * SlideData.t) * World) :=
  match data with
  | [] => Some (sl, w)
  | (id_, title, content) :: rest =>
      if negb (idict_mem id_ sl)
      then let '(slide, w) := SlideData.init id_ title (PStr "#ffffff") w in
           r <- add_content content slide w ;;
           let '(slide, w) := r in
           load_slides rest (idict_set id_ slide sl) w
      else load_slides rest sl w
  end.

(** [load_default_content] *)
Definition load_default_content (m : t) (w : World) : option (t * World) :=
  r <- load_slides default_slides_data (slides m) w ;;
  let '(sl, w) := r in
  Some (count_slides (with_slides m sl), w).

(** [ContentManager.__init__] *)
Definition init (w : World) : option (t * World) :=
  let '(n, w) := now w in
  let m :=
    mk [] [] "content" 1
       [("title", PStr "BumbleB Dynamic Presentation");
        ("author", PStr "Bertrandt");
        ("version", PStr "4.0.0");
        ("created_at", PStr (isoformat n));
        ("last_saved", PNone);
        ("total_slides", PInt 0);
        ("template", PStr "bertrandt_dark")] in
  w <- _ensure_directory_structure w ;;
  load_default_content m w.

(** [get_slide] *)
Definition get_slide (slide_id : Z) (m : t) : option SlideData.t :=
  idict_get slide_id (slides m).

(** [notify_observers]: the calls it makes, in the order of the observers. *)
Definition notify_observers (m : t) (slide_id : Z) (slide_data : option SlideData.t)
  (action : string) : list notification :=
  map (fun cb => notified cb slide_id slide_data action) (content_observers m).

(** [create_slide]; [slide_id] is [None] or an [int]. *)
Definition create_slide (slide_id : option Z) (title : string) (m : t) (w : World)
  : Z * t * World * list notification :=
  let slide_id :=
    match slide_id with
    | None => max_key (slides m) + 1
    | Some i => i
    end in
  if idict_mem slide_id (slides m) then (slide_id, m, w, [])
  else
    let '(slide, w) := SlideData.init slide_id title (PStr "#ffffff") w in
    let m := count_slides (with_slides m (idict_set slide_id slide (slides m))) in
    (slide_id, m, w, notify_observers m slide_id (Some slide) "create").

(** The loop of [delete_slide] over the elements of the slide.  Inside
    [_remove_image_files] an element without [image_path] raises and the
    exception is caught there. *)
Definition remove_slide_files (slide : SlideData.t) (w : World) : World :=
  fold_left
    (fun w el =>
       if py_eq_str (element_type el) "image"
       then match el with
            | EImage e => SlideData._remove_image_files e slide w
            | _ => w
            end
       else w)
    (dict_values (SlideData.elements slide)) w.

(** [delete_slide] *)
Definition delete_slide (slide_id : Z) (m : t) (w : World)
  : bool * t * World * list notification :=
  match idict_get slide_id (slides m) with
  | None => (false, m, w, [])
  | Some slide =>
      let w := remove_slide_files slide w in
      let m := count_slides (with_slides m (idict_del slide_id (slides m))) in
      (true, m, w, notify_observers m slide_id None "delete")
  end.

(** [add_text_to_slide]: the slide is an object shared with [slides], so
    what the add does to it shows under its key.  The call
    [slide.add_text_element(text, x, y, **options)] binds the options
    [width] and [height] to the parameters of those names. *)
Definition add_text_to_slide (slide_id : Z) (text : string) (x y : pyval)
  (options : list (string * pyval)) (m : t) (w : World)
  : option (pyval * t * World * list notification) :=
  match get_slide slide_id m with
  | None => Some (PNone, m, w, [])
  | Some slide =>
      r <- SlideData.add_text_element text x y
             (get_default "width" (PInt 200) options)
             (get_default "height" (PInt 50) options)
             (kw_without ["width"; "height"] options) slide w ;;
      let '(element_id, slide, w) := r in
      let m := with_slides m (idict_set slide_id slide (slides m)) in
      Some (element_id, m, w, notify_observers m slide_id (Some slide) "update")
  end.

(** [add_image_to_slide]: the observers hear of it only when an element
    was added. *)
Definition add_image_to_slide (slide_id : Z) (image_path : string) (x y : pyval)
  (options : list (string * pyval)) (m : t) (w : World)
  : option (pyval * t * World * list notification) :=
  match get_slide slide_id m with
  | None => Some (PNone, m, w, [])
  | Some slide =>
      r <- SlideData.add_image_element image_path x y
             (get_default "width" (PInt 100) options)
             (get_default "height" (PInt 100) options)
             (kw_without ["width"; "height"] options) slide w ;;
      let '(element_id, slide, w) := r in
      let m := with_slides m (idict_set slide_id slide (slides m)) in
      Some (element_id, m, w,
            if py_truthy element_id
            then notify_observers m slide_id (Some slide) "update" else [])
  end.

(** [add_icon_to_slide], [add_symbol_to_slide]; the option [size] is the
    parameter of that name. *)
Definition add_icon_to_slide (slide_id : Z) (icon_code : string) (x y : pyval)
  (options : list (string * pyval)) (m : t) (w : World)
  : option (pyval * t * World * list notification) :=
  match get_slide slide_id m with
  | None => Some (PNone, m, w, [])
  | Some slide =>
      r <- SlideData.add_icon_element icon_code x y
             (get_default "size" (PInt 24) options)
             (kw_without ["size"] options) slide w ;;
      let '(element_id, slide, w) := r in
      let m := with_slides m (idict_set slide_id slide (slides m)) in
      Some (element_id, m, w, notify_observers m slide_id (Some slide) "update")
  end.

Definition add_symbol_to_slide (slide_id : Z) (symbol : string) (x y : pyval)
  (options : list (string * pyval)) (m : t) (w : World)
  : option (pyval * t * World * list notification) :=
  match get_slide slide_id m with
  | None => Some (PNone, m, w, [])
  | Some slide =>
      r <- SlideData.add_symbol_element symbol x y
             (get_default "size" (PInt 24) options)
             (kw_without ["size"] options) slide w ;;
      let '(element_id, slide, w) := r in
      let m := with_slides m (idict_set slide_id slide (slides m)) in
      Some (element_id, m, w, notify_observers m slide_id (Some slide) "update")
  end.

(** [add_observer], [remove_observer] *)
Definition add_observer (cb : callback) (m : t) : t :=
  if negb (str_in cb (content_observers m))
  then with_content_observers m (content_observers m ++ [cb])
  else m.

Definition remove_observer (cb : callback) (m : t) : t :=
  if str_in cb (content_observers m)
  then with_content_observers m (list_remove cb (content_observers m))
  else m.

(** [elements_by_type[t] = elements_by_type.get(t, 0) + count] over the
    items of one slide's [by_type]. *)
Fixpoint merge_by_type (items acc : list (string * pyval))
  : option (list (string * pyval)) :=
  match items with
  | [] => Some acc
  | (element_type_, count) :: rest =>
      n <- py_add (get_default element_type_ (PInt 0) acc) count ;;
      merge_by_type rest (dict_set element_type_ n acc)
  end.

(** The loop of [get_presentation_statistics] over [self.slides.values()],
    carrying [total_elements], [elements_by_type], [total_text_chars] and
    [total_images]. *)
Fixpoint presentation_loop (sl : list SlideData.t)
  (acc : pyval * list (string * pyval) * pyval * pyval)
  : option (pyval * list (string * pyval) * pyval * pyval) :=
  match sl with
  | [] => Some acc
  | slide :: rest =>
      let '(total_elements, elements_by_type, total_text_chars, total_images) := acc in
      slide_stats <- SlideData.get_slide_statistics slide ;;
      n <- py_getitem slide_stats "total_elements" ;;
      total_elements <- py_add total_elements n ;;
      c <- py_getitem slide_stats "total_characters" ;;
      total_text_chars <- py_add total_text_chars c ;;
      i <- py_getitem slide_stats "image_count" ;;
      total_images <- py_add total_images i ;;
      by_type <- py_getitem slide_stats "by_type" ;;
      match by_type with
      | PDict items =>
          elements_by_type <- merge_by_type items elements_by_type ;;
          presentation_loop rest
            (total_elements, elements_by_type, total_text_chars, total_images)
      | _ => None
      end
  end.

(** [get_presentation_statistics] *)
Definition get_presentation_statistics (m : t) : option pyval :=
  r <- presentation_loop (idict_values (slides m)) (PInt 0, [], PInt 0, PInt 0) ;;
  let '(total_elements, elements_by_type, total_text_chars, total_images) := r in
  Some (PDict [("total_slides", PInt (Z.of_nat (List.length (slides m))));
               ("total_elements", total_elements);
               ("elements_by_type", PDict elements_by_type);
               ("total_text_characters", total_text_chars);
               ("total_images", total_images);
               ("presentation_info", PDict (presentation_metadata m))]).
End WithEnv.
End ContentManager.

(* ===================================================================== *)
(** * Properties of the content manager *)
(* ===================================================================== *)

Section IntDictFacts.
Context {V : Type}.
Implicit Types (d : list (Z * V)) (k : Z).

Lemma idict_get_In_keys k d v : idict_get k d = Some v -> In k (idict_keys d).
Proof.
  induction d as [|[k' v'] d IH]; simpl; [discriminate|].
  destruct (k =? k') eqn:E; intros H.
  - apply Z.eqb_eq in E. now left.
  - right. now apply IH.
Qed.

Lemma idict_get_None_keys k d : idict_get k d = None <-> ~ In k (idict_keys d).
Proof.
  induction d as [|[k' v'] d IH]; simpl; [tauto|].
  destruct (k =? k') eqn:E.
  - apply Z.eqb_eq in E. subst. split; [discriminate|tauto].
  - apply Z.eqb_neq in E. rewrite IH. split; [intros H [H1|H1]; congruence|tauto].
Qed.

Lemma idict_get_set_same k v d : idict_get k (idict_set k v d) = Some v.
Proof.
  induction d as [|[k' v'] d IH]; simpl.
  - now rewrite Z.eqb_refl.
  - destruct (k =? k') eqn:E; simpl; rewrite E; [reflexivity|exact IH].
Qed.

Lemma idict_get_set_other k k' v d :
  k <> k' -> idict_get k (idict_set k' v d) = idict_get k d.
Proof.
  intros N. induction d as [|[k0 v0] d IH]; simpl.
  - destruct (k =? k') eqn:E; [apply Z.eqb_eq in E; tauto|reflexivity].
  - destruct (k' =? k0) eqn:E; simpl.
    + apply Z.eqb_eq in E. subst.
      destruct (k =? k0) eqn:E'; [apply Z.eqb_eq in E'; tauto|reflexivity].
    + destruct (k =? k0); [reflexivity|exact IH].
Qed.

Lemma idict_set_fresh k v d :
  idict_get k d = None -> idict_set k v d = (d ++ [(k, v)])%list.
Proof.
  induction d as [|[k' v'] d IH]; simpl; [reflexivity|].
  destruct (k =? k'); [discriminate|]. intros H. now rewrite IH.
Qed.

Lemma idict_set_keys_present k v d :
  In k (idict_keys d) -> idict_keys (idict_set k v d) = idict_keys d.
Proof.
  induction d as [|[k' v'] d IH]; simpl; [tauto|].
  destruct (k =? k') eqn:E; simpl; [reflexivity|].
  apply Z.eqb_neq in E. intros [H|H]; [congruence|]. now rewrite IH.
Qed.

Lemma idict_get_del_other k k' d :
  k <> k' -> idict_get k (idict_del k' d) = idict_get k d.
Proof.
  intros N. induction d as [|[k0 v0] d IH]; simpl; [reflexivity|].
  destruct (k' =? k0) eqn:E; simpl.
  - apply Z.eqb_eq in E. subst.
    destruct (k =? k0) eqn:E'; [apply Z.eqb_eq in E'; tauto|reflexivity].
  - now rewrite IH.
Qed.

Lemma idict_get_del_same k d :
  NoDup (idict_keys d) -> idict_get k (idict_del k d) = None.
Proof.
  induction d as [|[k0 v0] d IH]; simpl; [reflexivity|].
  intros H. inversion H as [|? ? Hn Hd]; subst.
  destruct (k =? k0) eqn:E; simpl.
  - apply Z.eqb_eq in E. subst. now apply idict_get_None_keys.
  - rewrite E. now apply IH.
Qed.

Lemma idict_del_length k d v :
  idict_get k d = Some v -> S (List.length (idict_del k d)) = List.length d.
Proof.
  induction d as [|[k0 v0] d IH]; simpl; [discriminate|].
  destruct (k =? k0); simpl; [reflexivity|]. intros H. now rewrite IH.
Qed.

Lemma fold_max_le (ks : list Z) : forall a, a <= fold_left Z.max ks a.
Proof.
  induction ks as [|k ks IH]; simpl; intros a; [lia|].
  specialize (IH (Z.max a k)). lia.
Qed.

Lemma fold_max_ge (ks : list Z) : forall a k, In k ks -> k <= fold_left Z.max ks a.
Proof.
  induction ks as [|k0 ks IH]; simpl; intros a k; [tauto|].
  intros [->|H]; [|now apply IH].
  pose proof (fold_max_le ks (Z.max a k)). lia.
Qed.

Lemma max_key_ge d k : In k (idict_keys d) -> k <= max_key d.
Proof.
  unfold max_key. destruct (idict_keys d) as [|k0 ks]; simpl; [tauto|].
  intros [->|H]; [apply fold_max_le|now apply fold_max_ge].
Qed.

(** The next key after the largest is not taken. *)
Lemma max_key_fresh d : idict_get (max_key d + 1) d = None.
Proof.
  apply idict_get_None_keys. intros H. apply max_key_ge in H. lia.
Qed.
End IntDictFacts.

Section ManagerFacts.
Context {DT : DatetimeLib} {IM : PIL}.
Import ContentManager.

(* --------------------------------------------------------------------- *)
(** ** Construction *)

(** A slide entry of the literal whose content starts with a text. *)
Definition starts_with_text (entry : Z * string * list (list (string * pyval)))
  : bool :=
  match snd entry with
  | content_item :: _ =>
      match dict_get "type" content_item with
      | Some ty => py_eq_str ty "text"
      | None => false
      end
  | [] => false
  end.

(** Every text of the default content is added with [font_weight] and
    [line_height], which no constructor takes. *)
Lemma add_content_text_raises content_item rest slide w ty :
  dict_get "type" content_item = Some ty -> py_eq_str ty "text" = true ->
  add_content (content_item :: rest) slide w = None.
Proof.
  intros Hty Ht. cbn [add_content]. rewrite Hty, Ht.
  destruct (dict_get "text" content_item) as [text|]; [|reflexivity].
  destruct (py_str text) as [str|]; [|reflexivity].
  destruct (dict_get "x" content_item) as [x|]; [|reflexivity].
  destruct (dict_get "y" content_item) as [y|]; [|reflexivity].
  rewrite (add_text_element_rejects "font_weight"); [reflexivity| | | |];
    [simpl; tauto|discriminate..].
Qed.

Lemma load_slides_spec data :
  forallb starts_with_text data = true ->
  forall sl w,
    load_slides data sl w
    = if forallb (fun entry => idict_mem (fst (fst entry)) sl) data
      then Some (sl, w) else None.
Proof.
  induction data as [|[[id_ title] content] data IH]; intros H sl w;
    [reflexivity|].
  cbn [forallb] in H. apply andb_true_iff in H. destruct H as [Hs Hrest].
  cbn [load_slides forallb fst].
  destruct (idict_mem id_ sl); cbn [negb andb]; [now apply IH|].
  destruct (SlideData.init id_ title (PStr "#ffffff") w) as [slide w1].
  unfold starts_with_text in Hs. cbn [snd] in Hs.
  destruct content as [|content_item rest]; [discriminate|].
  destruct (dict_get "type" content_item) as [ty|] eqn:Ety; [|discriminate].
  now rewrite (add_content_text_raises content_item rest slide w1 ty Ety Hs).
Qed.

(** X16. [load_default_content] raises [TypeError] as soon as one of the five
    default ids is not a key of [slides]: the first content of every default
    slide is a text, and every text is added with [font_weight] and
    [line_height].  With all five ids present it only sets [total_slides].
    [ContentManager()] starts without slides, so it raises in every world;
    the module-level [content_manager = ContentManager()] is such a call. *)
Theorem content_manager_construction_raises :
  (forall w, init w = None) /\
  (forall m w,
     load_default_content m w
     = if forallb (fun i => idict_mem i (slides m)) [1; 2; 3; 4; 5]
       then Some (count_slides m, w) else None).
Proof.
  assert (L : forall m w,
             load_default_content m w
             = if forallb (fun i => idict_mem i (slides m)) [1; 2; 3; 4; 5]
               then Some (count_slides m, w) else None).
  { intros m w. unfold load_default_content.
    rewrite load_slides_spec by reflexivity.
    change (forallb (fun entry => idict_mem (fst (fst entry)) (slides m))
              default_slides_data)
      with (forallb (fun i => idict_mem i (slides m)) [1; 2; 3; 4; 5]).
    destruct (forallb _ _); [|reflexivity]. destruct m. reflexivity. }
  split; [|exact L].
  intros w. unfold init. cbn -[load_default_content _ensure_directory_structure].
  destruct (_ensure_directory_structure _) as [w1|]; [|reflexivity].
  rewrite L. reflexivity.
Qed.
(* --------------------------------------------------------------------- *)
(** ** Slides of the manager *)

(** [presentation_metadata['total_slides']] is [len(slides)]. *)
Definition total_slides_counted (m : t) : Prop :=
  dict_get "total_slides" (presentation_metadata m)
  = Some (PInt (Z.of_nat (List.length (slides m)))).

(** X17. [create_slide()] without an id: the new id is one more than the largest
    key (1 for a manager without slides) and was not taken; the slide under
    it is a new [SlideData] with the title; the other slides are what they
    were; [total_slides] counts the slides; and every observer is told
    [create] once, in the order of registration, with the new slide.
    [create_slide] with an id that is taken: the id comes back, the slide
    under it is kept with its title and its elements, nothing changes and
    nobody is told. *)
Theorem create_slide_adds_only_new_ids title m w :
  (exists slide m' w',
     create_slide None title m w
     = (max_key (slides m) + 1, m', w',
        map (fun cb => notified cb (max_key (slides m) + 1) (Some slide) "create")
            (content_observers m)) /\
     idict_get (max_key (slides m) + 1) (slides m) = None /\
     (slide, w') = SlideData.init (max_key (slides m) + 1) title (PStr "#ffffff") w /\
     slides m' = (slides m ++ [(max_key (slides m) + 1, slide)])%list /\
     content_observers m' = content_observers m /\
     total_slides_counted m') /\
  (forall slide_id slide,
     idict_get slide_id (slides m) = Some slide ->
     create_slide (Some slide_id) title m w = (slide_id, m, w, [])).
Proof.
  split.
  - unfold create_slide, idict_mem. rewrite max_key_fresh.
    destruct (SlideData.init _ title _ w) as [slide w'] eqn:Ei.
    eexists slide, _, w'. split; [reflexivity|].
    split; [reflexivity|]. split; [reflexivity|].
    unfold total_slides_counted. simpl.
    rewrite idict_set_fresh by apply max_key_fresh.
    split; [reflexivity|]. split; [reflexivity|]. apply dict_get_set_same.
  - intros slide_id slide H. unfold create_slide, idict_mem. now rewrite H.
Qed.

Lemma remove_slide_files_loop slide q :
  forall els w,
    (forall e, In (EImage e) els ->
       (forall p, py_str (ImageElement.image_path e) = Some p ->
                  q <> path_join2 "content" p) /\
       (forall p, ImageElement.get_processed_path e (SlideData.slide_id slide) = Some p ->
                  q <> p) /\
       (forall p, SlideData._get_thumbnail_path e slide = Some p -> q <> p)) ->
    dict_get q
      (files
         (fold_left
            (fun w el =>
               if py_eq_str (element_type el) "image"
               then match el with
                    | EImage e => SlideData._remove_image_files e slide w
                    | _ => w
                    end
               else w) els w))
    = dict_get q (files w).
Proof.
  induction els as [|el els IH]; intros w H; [reflexivity|].
  cbn [fold_left]. rewrite IH by (intros e He; apply H; now right).
  destruct (py_eq_str (element_type el) "image"); [|reflexivity].
  destruct el as [e|e|e|e]; try reflexivity.
  destruct (H e (or_introl eq_refl)) as (H1 & H2 & H3).
  now apply remove_image_files_paths.
Qed.

(** X18. [delete_slide]: an id that is not a key gives [False] and changes
    nothing.  For a key, the slide is gone and the other slides are what
    they were, [total_slides] counts the slides that are left, every
    observer is told [delete] once with no slide, and the only files that
    can have changed are the original, the processed version and the
    thumbnail of the image elements of the slide. *)
Theorem delete_slide_removes_one_slide slide_id m w :
  NoDup (idict_keys (slides m)) ->
  match idict_get slide_id (slides m) with
  | None => delete_slide slide_id m w = (false, m, w, [])
  | Some slide =>
      exists m' w',
        delete_slide slide_id m w
        = (true, m', w',
           map (fun cb => notified cb slide_id None "delete") (content_observers m)) /\
        idict_get slide_id (slides m') = None /\
        (forall k, k <> slide_id -> idict_get k (slides m') = idict_get k (slides m)) /\
        S (List.length (slides m')) = List.length (slides m) /\
        total_slides_counted m' /\
        (forall q,
           (forall e, In (EImage e) (dict_values (SlideData.elements slide)) ->
              (forall p, py_str (ImageElement.image_path e) = Some p ->
                         q <> path_join2 "content" p) /\
              (forall p, ImageElement.get_processed_path e (SlideData.slide_id slide)
                         = Some p -> q <> p) /\
              (forall p, SlideData._get_thumbnail_path e slide = Some p -> q <> p)) ->
           dict_get q (files w') = dict_get q (files w))
  end.
Proof.
  intros Hnd. unfold delete_slide.
  destruct (idict_get slide_id (slides m)) as [slide|] eqn:Eg; [|reflexivity].
  eexists _, _. split; [reflexivity|]. cbn [slides with_slides count_slides].
  split; [now apply idict_get_del_same|].
  split; [intros k Hk; now apply idict_get_del_other|].
  split; [eapply idict_del_length; exact Eg|].
  split; [unfold total_slides_counted; simpl; apply dict_get_set_same|].
  intros q Hq. unfold remove_slide_files. now apply remove_slide_files_loop.
Qed.

(* --------------------------------------------------------------------- *)
(** ** Adding through the manager *)

(** X19. [add_text_to_slide] for an id that is not a key returns [None], changes
    nothing and tells nobody.  For a key it is [add_text_element] on that
    slide (with [width] and [height] taken from the options): the id it
    returns comes back, the slide it leaves stands under the same key, no
    key is added, the other slides are what they were, the metadata are
    untouched, and every observer is told [update] once. *)
Theorem add_text_to_slide_reaches_one_slide slide_id text x y options m w :
  match idict_get slide_id (slides m) with
  | None => add_text_to_slide slide_id text x y options m w = Some (PNone, m, w, [])
  | Some slide =>
      forall element_id slide' w',
        SlideData.add_text_element text x y
          (get_default "width" (PInt 200) options)
          (get_default "height" (PInt 50) options)
          (kw_without ["width"; "height"] options) slide w
        = Some (element_id, slide', w') ->
        exists m',
          add_text_to_slide slide_id text x y options m w
          = Some (element_id, m', w',
                  map (fun cb => notified cb slide_id (Some slide') "update")
                      (content_observers m)) /\
          idict_get slide_id (slides m') = Some slide' /\
          idict_keys (slides m') = idict_keys (slides m) /\
          (forall k, k <> slide_id -> idict_get k (slides m') = idict_get k (slides m)) /\
          presentation_metadata m' = presentation_metadata m /\
          content_observers m' = content_observers m
  end.
Proof.
  unfold add_text_to_slide, get_slide.
  destruct (idict_get slide_id (slides m)) as [slide|] eqn:Eg; [|reflexivity].
  intros element_id slide' w' H. rewrite H.
  eexists. split; [reflexivity|]. cbn [slides with_slides].
  split; [apply idict_get_set_same|].
  split; [apply idict_set_keys_present; eapply idict_get_In_keys; exact Eg|].
  split; [intros k Hk; now apply idict_get_set_other|].
  split; reflexivity.
Qed.

(* --------------------------------------------------------------------- *)
(** ** Observers *)

Lemma list_remove_not_in x l y : ~ In y l -> ~ In y (list_remove x l).
Proof.
  induction l as [|z l IH]; simpl; [tauto|].
  destruct (String.eqb x z); simpl; tauto.
Qed.

Lemma list_remove_nodup x l : NoDup l -> NoDup (list_remove x l).
Proof.
  induction 1 as [|z l Hz Hl IH]; simpl; [constructor|].
  destruct (String.eqb x z); [exact Hl|].
  constructor; [now apply list_remove_not_in|exact IH].
Qed.

Lemma list_remove_gone x l : NoDup l -> ~ In x (list_remove x l).
Proof.
  induction 1 as [|z l Hz Hl IH]; simpl; [tauto|].
  destruct (String.eqb x z) eqn:E.
  - apply String.eqb_eq in E. now subst.
  - apply String.eqb_neq in E. simpl. intros [H|H]; [congruence|tauto].
Qed.

(** X20. The list of observers never holds a callback twice: [add_observer]
    appends a callback that is new and does nothing for one that is
    registered, so adding twice is adding once; [remove_observer] takes a
    registered callback out; and removing a callback right after it was
    added as new gives back the manager. *)
Theorem observers_are_registered_once cb m :
  NoDup (content_observers m) ->
  NoDup (content_observers (add_observer cb m)) /\
  In cb (content_observers (add_observer cb m)) /\
  add_observer cb (add_observer cb m) = add_observer cb m /\
  NoDup (content_observers (remove_observer cb m)) /\
  ~ In cb (content_observers (remove_observer cb m)) /\
  (~ In cb (content_observers m) -> remove_observer cb (add_observer cb m) = m).
Proof.
  intros Hnd.
  assert (Hin : In cb (content_observers (add_observer cb m))).
  { unfold add_observer. destruct (str_in cb (content_observers m)) eqn:E; simpl.
    - now apply str_in_In.
    - apply in_or_app. right. now left. }
  split; [|split; [exact Hin|split; [|split; [|split]]]].
  - unfold add_observer. destruct (str_in cb (content_observers m)) eqn:E; simpl;
      [exact Hnd|].
    apply NoDup_app; [exact Hnd|repeat constructor; simpl; tauto|].
    intros a Ha [<-|[]]. apply str_in_In in Ha. congruence.
  - apply str_in_In in Hin. unfold add_observer at 1. now rewrite Hin.
  - unfold remove_observer. destruct (str_in cb (content_observers m)); simpl;
      [now apply list_remove_nodup|exact Hnd].
  - unfold remove_observer. destruct (str_in cb (content_observers m)) eqn:E; simpl.
    + now apply list_remove_gone.
    + intros H. apply str_in_In in H. congruence.
  - intros Hn. unfold add_observer.
    destruct (str_in cb (content_observers m)) eqn:E;
      [apply str_in_In in E; tauto|].
    simpl. unfold remove_observer. simpl. rewrite str_in_app_r.
    unfold with_content_observers. simpl.
    rewrite list_remove_app_fresh by exact Hn. destruct m. reflexivity.
Qed.
(* --------------------------------------------------------------------- *)
(** ** Statistics of the presentation *)

(** A number of the slide, added up over the slides. *)
Definition sum_over (f : SlideData.t -> Z) (sl : list SlideData.t) : Z :=
  fold_right (fun s acc => f s + acc) 0 sl.

Lemma dict_set_keys_nodup {V} k (v : V) d :
  NoDup (dict_keys d) -> NoDup (dict_keys (dict_set k v d)).
Proof.
  intros H. destruct (in_dec string_dec k (dict_keys d)) as [Hin|Hin].
  - now rewrite dict_set_keys_present.
  - rewrite dict_set_keys_fresh by exact Hin.
    apply NoDup_app; [exact H|repeat constructor; simpl; tauto|].
    intros a Ha [<-|[]]. tauto.
Qed.

Lemma statistics_loop_nodup els :
  forall by_type chars words images r,
    NoDup (dict_keys by_type) ->
    SlideData.statistics_loop els (by_type, chars, words, images) = Some r ->
    NoDup (dict_keys (fst (fst (fst r)))).
Proof.
  induction els as [|el els IH]; intros by_type chars words images r Hnd H.
  - simpl in H. inv H. exact Hnd.
  - simpl in H.
    destruct (py_str (element_type el)) as [ty|]; [|discriminate].
    unfold SlideData.count_type in H.
    destruct (py_int (get_default ty (PInt 0) by_type)) as [n|]; [|discriminate].
    assert (Hnd' : NoDup (dict_keys (dict_set ty (PInt (n + 1)) by_type)))
      by now apply dict_set_keys_nodup.
    destruct (String.eqb ty "text").
    + destruct (element_text el) as [txt|]; [|discriminate].
      destruct (py_str txt) as [str|]; [|discriminate].
      eapply IH; eassumption.
    + destruct (String.eqb ty "image"); eapply IH; eassumption.
Qed.

(** What [get_slide_statistics] returns, attribute by attribute. *)
Lemma slide_statistics_shape s stats :
  SlideData.get_slide_statistics s = Some stats ->
  exists by_type words,
    stats
    = PDict [("total_elements", PInt (Z.of_nat (List.length (SlideData.elements s))));
             ("by_type", PDict by_type);
             ("total_characters",
              PInt (total_characters (dict_values (SlideData.elements s))));
             ("total_words", PInt words);
             ("image_count",
              PInt (count_of_type "image" (dict_values (SlideData.elements s))));
             ("file_sizes", PDict [])] /\
    NoDup (dict_keys by_type) /\
    forall t, dict_get t by_type
              = counted (count_of_type t (dict_values (SlideData.elements s))).
Proof.
  unfold SlideData.get_slide_statistics. intros H.
  destruct (SlideData.statistics_loop _ _) as [[[[bt c] wd] im]|] eqn:E;
    [|discriminate].
  inv H.
  pose proof (statistics_loop_counts _ (fun _ => 0) [] 0 0 0 _
                (fun _ => Z.le_refl 0) (fun _ => eq_refl) E) as (H1 & H2 & H3).
  pose proof (statistics_loop_nodup _ [] 0 0 0 _ (NoDup_nil _) E) as Hnd.
  cbn beta in H1. rewrite Z.add_0_l in H2, H3. subst c im.
  exists bt, wd. split; [reflexivity|]. split; [exact Hnd|].
  intros t. now rewrite H1, Z.add_0_l.
Qed.

Lemma merge_by_type_spec items :
  forall (c n : string -> Z) acc,
    NoDup (dict_keys items) ->
    (forall t, 0 <= c t) -> (forall t, dict_get t items = counted (c t)) ->
    (forall t, 0 <= n t) -> (forall t, dict_get t acc = counted (n t)) ->
    exists acc',
      merge_by_type items acc = Some acc' /\
      forall t, dict_get t acc' = counted (n t + c t).
Proof.
  induction items as [|[ty v] rest IH]; intros c n acc Hnd Hc Hi Hn Ha.
  - exists acc. split; [reflexivity|]. intros t. rewrite Ha.
    specialize (Hi t). simpl in Hi. unfold counted in Hi.
    destruct (c t =? 0) eqn:E; [|discriminate]. apply Z.eqb_eq in E.
    rewrite E. f_equal. lia.
  - simpl in Hnd. inversion Hnd as [|? ? Hnotin Hnd']; subst.
    assert (Hv : v = PInt (c ty) /\ c ty <> 0).
    { specialize (Hi ty). simpl in Hi. rewrite String.eqb_refl in Hi.
      unfold counted in Hi. destruct (c ty =? 0) eqn:E; [discriminate|].
      apply Z.eqb_neq in E. split; congruence. }
    destruct Hv as [-> Hpos].
    assert (Hadd : py_add (get_default ty (PInt 0) acc) (PInt (c ty))
                   = Some (PInt (n ty + c ty))).
    { unfold get_default. rewrite Ha. unfold counted.
      destruct (n ty =? 0) eqn:E; [|reflexivity].
      apply Z.eqb_eq in E. now rewrite E. }
    cbn [merge_by_type]. rewrite Hadd.
    destruct (IH (fun t => if String.eqb t ty then 0 else c t)
                 (fun t => if String.eqb t ty then n ty + c ty else n t)
                 (dict_set ty (PInt (n ty + c ty)) acc) Hnd')
      as (acc' & Hm & Hacc').
    + intros t. destruct (String.eqb t ty); [lia|apply Hc].
    + intros t. destruct (String.eqb t ty) eqn:E.
      * apply String.eqb_eq in E. subst t.
        destruct (dict_get ty rest) eqn:Eg; [|reflexivity].
        apply dict_get_In_keys in Eg. tauto.
      * specialize (Hi t). simpl in Hi. now rewrite E in Hi.
    + intros t. pose proof (Hn t). pose proof (Hn ty). pose proof (Hc ty).
      destruct (String.eqb t ty); lia.
    + intros t. destruct (String.eqb t ty) eqn:E.
      * apply String.eqb_eq in E. subst t. rewrite dict_get_set_same.
        unfold counted. pose proof (Hn ty). pose proof (Hc ty).
        destruct (n ty + c ty =? 0) eqn:E0; [apply Z.eqb_eq in E0; lia|reflexivity].
      * apply String.eqb_neq in E. rewrite dict_get_set_other by exact E. apply Ha.
    + exists acc'. split; [exact Hm|]. intros t. rewrite Hacc'.
      destruct (String.eqb t ty) eqn:E; [|reflexivity].
      apply String.eqb_eq in E. subst t. f_equal. lia.
Qed.

Lemma presentation_loop_sums sl :
  forall (n : string -> Z) te acc tc ti r,
    (forall t, 0 <= n t) -> (forall t, dict_get t acc = counted (n t)) ->
    presentation_loop sl (PInt te, acc, PInt tc, PInt ti) = Some r ->
    exists acc',
      r = (PInt (te + sum_over (fun s => Z.of_nat (List.length (SlideData.elements s))) sl),
           acc',
           PInt (tc + sum_over
                        (fun s => total_characters (dict_values (SlideData.elements s)))
                        sl),
           PInt (ti + sum_over
                        (fun s => count_of_type "image"
                                    (dict_values (SlideData.elements s))) sl)) /\
      forall t,
        dict_get t acc'
        = counted (n t + sum_over
                           (fun s => count_of_type t (dict_values (SlideData.elements s)))
                           sl).
Proof.
  induction sl as [|s sl IH]; intros n te acc tc ti r Hn Ha H.
  - simpl in H. inv H. exists acc. simpl. rewrite !Z.add_0_r. split; [reflexivity|].
    intros t. now rewrite Z.add_0_r.
  - cbn [presentation_loop] in H.
    destruct (SlideData.get_slide_statistics s) as [stats|] eqn:Es; [|discriminate].
    destruct (slide_statistics_shape s stats Es) as (bt & wd & -> & Hnd & Hbt).
    cbn -[merge_by_type presentation_loop] in H.
    destruct (merge_by_type_spec bt
                (fun t => count_of_type t (dict_values (SlideData.elements s)))
                n acc Hnd (fun t => count_of_type_nonneg t _) Hbt Hn Ha)
      as (acc1 & Hm & Hacc1).
    rewrite Hm in H.
    destruct (fun A B =>
                IH (fun t => n t + count_of_type t (dict_values (SlideData.elements s)))
                   _ acc1 _ _ r A B H) as (acc' & Hr & Hacc'); [| |].
    + intros t. specialize (Hn t).
      pose proof (count_of_type_nonneg t (dict_values (SlideData.elements s))). lia.
    + exact Hacc1.
    + exists acc'. split.
      * rewrite Hr. unfold sum_over. cbn [fold_right].
        repeat match goal with |- (_, _) = (_, _) => f_equal end; f_equal; lia.
      * intros t. rewrite Hacc'. unfold sum_over. cbn [fold_right]. f_equal. lia.
Qed.

(** X21. The statistics of the presentation are the statistics of its slides
    added up: [total_slides] is the number of slides, [total_elements] the
    number of elements of all slides, [total_text_characters] the length of
    all texts, [total_images] the number of image elements, and
    [elements_by_type] holds for every type the number of elements of that
    type on all slides, with no key for a type without elements. *)
Theorem get_presentation_statistics_sums m stats :
  get_presentation_statistics m = Some stats ->
  py_getitem stats "total_slides" = Some (PInt (Z.of_nat (List.length (slides m)))) /\
  py_getitem stats "total_elements"
  = Some (PInt (sum_over (fun s => Z.of_nat (List.length (SlideData.elements s)))
                  (idict_values (slides m)))) /\
  py_getitem stats "total_text_characters"
  = Some (PInt (sum_over
                  (fun s => total_characters (dict_values (SlideData.elements s)))
                  (idict_values (slides m)))) /\
  py_getitem stats "total_images"
  = Some (PInt (sum_over
                  (fun s => count_of_type "image" (dict_values (SlideData.elements s)))
                  (idict_values (slides m)))) /\
  exists by_type,
    py_getitem stats "elements_by_type" = Some (PDict by_type) /\
    forall t,
      dict_get t by_type
      = counted (sum_over
                   (fun s => count_of_type t (dict_values (SlideData.elements s)))
                   (idict_values (slides m))).
Proof.
  unfold get_presentation_statistics. intros H.
  destruct (presentation_loop _ _) as [r|] eqn:E; [|discriminate].
  destruct (presentation_loop_sums _ (fun _ => 0) 0 [] 0 0 r
              (fun _ => Z.le_refl 0) (fun _ => eq_refl) E) as (acc' & -> & Hacc).
  inv H. cbn. repeat (split; [reflexivity|]).
  exists acc'. split; [reflexivity|]. intros t. now rewrite Hacc.
Qed.
End ManagerFacts.

(* ===================================================================== *)
(** * Worked runs *)
(* ===================================================================== *)

#[global] Existing Instance IsoText.lib.
#[global] Existing Instance Raster.lib.

(** The slide and the world after a sequence of calls on the demo slide. *)
Definition after (cs : list call) : SlideData.t * World :=
  match run_calls cs Demo.slide Demo.world1 with
  | Some (_, s, w) => (s, w)
  | None => (Demo.slide, Demo.world1)
  end.

Definition add_text (text : string) (options : list (string * pyval)) : call :=
  AddText text (PInt 0) (PInt 0) (PInt 200) (PInt 50) options.

(** The scenario of the specification: two texts, read back. *)
Example hello_world :
  SlideData.get_all_text_content (fst (after [add_text "Hello" []; add_text "World" []]))
  = Some ("Hello" ++ newline ++ "World").
Proof. vm_compute. reflexivity. Qed.

(* --------------------------------------------------------------------- *)
(** ** C1 *)

(** The text element that [add_text_element("Hello")] builds first on the
    demo slide. *)
Definition hello_text : TextElement.t :=
  TextElement.mk
    (ContentElement.mk (PStr "id-0") (PStr "text")
       (PFloat 0) (PFloat 0) (PFloat 200) (PFloat 50) (PInt 0) (PBool true) (PBool false)
       "2024-01-01T00:00:02" "2024-01-01T00:00:03"
       ElementStyle.default default_animation)
    (PStr "Hello") (PStr "Arial") (PInt 16) (PStr "normal") (PStr "normal") (PStr "left")
    (PStr "none") (PFloat 1.2) (PInt 0) (PInt 0) PNone (PStr "none") (PStr "top")
    (PStr "normal") (PBool true) (PStr "ellipsis").

Example hello_text_is_added :
  dict_get "id-0" (SlideData.elements (fst (after [add_text "Hello" []])))
  = Some (EText hello_text).
Proof. reflexivity. Qed.

(** The same element after [update_element(id, font_size=16.5)]. *)
Definition resized_text : TextElement.t :=
  TextElement.mk
    (ContentElement.mk (PStr "id-0") (PStr "text")
       (PFloat 0) (PFloat 0) (PFloat 200) (PFloat 50) (PInt 0) (PBool true) (PBool false)
       "2024-01-01T00:00:02" "2024-01-01T00:00:06"
       ElementStyle.default default_animation)
    (PStr "Hello") (PStr "Arial") (PFloat 16.5) (PStr "normal") (PStr "normal")
    (PStr "left") (PStr "none") (PFloat 1.2) (PInt 0) (PInt 0) PNone (PStr "none")
    (PStr "top") (PStr "normal") (PBool true) (PStr "ellipsis").

Example resized_text_is_reached :
  dict_get "id-0"
    (SlideData.elements
       (fst (after [add_text "Hello" [];
                    UpdateElement "id-0" [("font_size", PFloat 16.5)]])))
  = Some (EText resized_text).
Proof. reflexivity. Qed.

(** What restoring its saved form gives. *)
Definition restored_text : TextElement.t :=
  TextElement.mk (TextElement.base resized_text)
    (PStr "Hello") (PStr "Arial") (PInt 16) (PStr "normal") (PStr "normal")
    (PStr "left") (PStr "none") (PFloat 1.2) (PInt 0) (PInt 0) PNone (PStr "none")
    (PStr "top") (PStr "normal") (PBool true) (PStr "ellipsis").

(** C1 fails as stated: an element can hold a font size that is not an
    integer, and restoring its saved form truncates it. *)
Lemma font_size_lost_on_round_trip :
  TextElement.font_size resized_text = PFloat 16.5 /\
  option_map fst (TextElement.from_dict (TextElement.to_dict resized_text) Demo.world1)
  = Some restored_text /\
  TextElement.font_size restored_text = PInt 16.
Proof. split; [reflexivity|]. split; reflexivity. Qed.

Lemma element_round_trip_witness :
  coerced (EText hello_text) /\
  timestamps_parse (EText hello_text) /\
  exists d w',
    element_to_dict (EText hello_text) = Some d /\
    variant_from_dict (EText hello_text) d Demo.world1 = Some (EText hello_text, w').
Proof.
  assert (Hc : coerced (EText hello_text)) by (lazy; tauto).
  assert (Ht : timestamps_parse (EText hello_text)) by (split; reflexivity).
  split; [exact Hc|]. split; [exact Ht|].
  exact (proj1 (element_round_trip (EText hello_text) Demo.world1 Hc) Ht).
Defined.

(* --------------------------------------------------------------------- *)
(** ** Runs that return *)

Definition returns {A} (o : option A) : bool :=
  match o with
  | Some _ => true
  | None => false
  end.

Lemma returned {A} (o : option A) : returns o = true -> exists a, o = Some a.
Proof. destruct o as [a|]; [eauto|discriminate]. Qed.

(** Two texts, a reordering, an image that is refused, a query, a removal
    of an unknown id and a removal of a known one. *)
Definition mixed_calls : list call :=
  [add_text "Hello" [];
   add_text "World" [];
   ReorderElement "id-0" (PInt 5);
   AddImage "scan.tiff" (PInt 0) (PInt 0) (PInt 100) (PInt 100) [];
   GetAllTextContent;
   RemoveElement "nobody";
   UpdateElement "id-1" [("text", PStr "World!"); ("unknown", PInt 1)];
   RemoveElement "id-0"].

Example mixed_calls_version :
  SlideData.version Demo.slide = 1 /\ SlideData.version (fst (after mixed_calls)) = 6.
Proof. vm_compute. split; reflexivity. Qed.

(** An image whose file exists and can be copied, and one with an extension
    that is not supported. *)
Definition add_photo : call :=
  AddImage "photo.png" (PInt 0) (PInt 0) (PInt 100) (PInt 100) [].
Definition add_scan : call :=
  AddImage "scan.tiff" (PInt 0) (PInt 0) (PInt 100) (PInt 100) [].

Example guards_of_the_two_images :
  changes_slide add_photo Demo.slide Demo.world1 = true /\
  changes_slide add_scan Demo.slide Demo.world1 = false.
Proof. split; reflexivity. Qed.


(* --------------------------------------------------------------------- *)
(** ** C3 *)

(** Two adds that pass the same [element_id]. *)
Definition twin_calls : list call :=
  [add_text "a" [("element_id", PStr "twin")];
   add_text "b" [("element_id", PStr "twin")]].

(** C3 fails as stated: after two adds under one id, [element_order] lists
    the id twice and [elements] holds it once. *)
Lemma element_order_out_of_sync :
  SlideData.element_order (fst (after twin_calls)) = ["twin"; "twin"] /\
  dict_keys (SlideData.elements (fst (after twin_calls))) = ["twin"].
Proof. vm_compute. split; reflexivity. Qed.

(** [fresh_ids] as a test. *)
Fixpoint fresh_ids_b (cs : list call) (s : SlideData.t) (w : World) : bool :=
  match cs with
  | [] => true
  | c :: rest =>
      match run_call c s w with
      | Some (a, s', w') =>
          (if is_add c
           then match a with
                | Value (PStr eid) => negb (str_in eid (dict_keys (SlideData.elements s)))
                | _ => true
                end
           else true)
          && fresh_ids_b rest s' w'
      | None => true
      end
  end.

Lemma fresh_ids_b_fresh_ids cs : forall s w, fresh_ids_b cs s w = true -> fresh_ids cs s w.
Proof.
  induction cs as [|c cs IH]; simpl; intros s w H; [exact I|].
  destruct (run_call c s w) as [[[a s'] w']|]; [|exact I].
  apply andb_true_iff in H. destruct H as [H1 H2]. split; [|now apply IH].
  intros eid Hadd Ha Hin. rewrite Hadd in H1. subst a.
  apply negb_true_iff in H1. apply str_in_In in Hin. congruence.
Qed.

Lemma element_order_in_sync_witness :
  exists answers s' w',
    run_calls mixed_calls Demo.slide Demo.world1 = Some (answers, s', w') /\
    fresh_ids mixed_calls Demo.slide Demo.world1 /\
    NoDup (SlideData.element_order s') /\
    Permutation (SlideData.element_order s') (dict_keys (SlideData.elements s')).
Proof.
  destruct (returned (run_calls mixed_calls Demo.slide Demo.world1))
    as [[[answers s'] w'] E]; [vm_compute; reflexivity|].
  assert (F : fresh_ids mixed_calls Demo.slide Demo.world1)
    by (apply fresh_ids_b_fresh_ids; vm_compute; reflexivity).
  exists answers, s', w'. split; [exact E|]. split; [exact F|].
  exact (element_order_in_sync_with_fresh_ids 1 "Demo" (PStr "#ffffff") Demo.world
           mixed_calls answers s' w' E F).
Defined.

(* --------------------------------------------------------------------- *)
(** ** C4 *)

Example tiff_is_not_supported :
  supported_extension "scan.tiff" = false /\ supported_extension "SCAN.TIFF" = false /\
  supported_extension "photo.PNG" = true.
Proof. vm_compute. repeat split. Qed.

Lemma add_image_element_rejects_witness :
  (path_exists "scan.tiff" Demo.world1 = false \/ supported_extension "scan.tiff" = false) /\
  SlideData.add_image_element "scan.tiff" (PInt 0) (PInt 0) (PInt 100) (PInt 100) []
    Demo.slide Demo.world1
  = Some (PNone, Demo.slide, Demo.world1).
Proof.
  assert (H : path_exists "scan.tiff" Demo.world1 = false
              \/ supported_extension "scan.tiff" = false)
    by (right; vm_compute; reflexivity).
  split; [exact H|].
  exact (add_image_element_rejects "scan.tiff" (PInt 0) (PInt 0) (PInt 100) (PInt 100) []
           Demo.slide Demo.world1 H).
Defined.

(* --------------------------------------------------------------------- *)
(** ** C5 *)

Definition reordered_texts : list call :=
  [add_text "Hello" []; add_text "World" []; ReorderElement "id-0" (PInt 5)].

(** C5 fails as stated: after the first of two texts is given the higher
    z-index, [element_order] has it last, and [get_all_text_content] still
    has its text first. *)
Lemma text_content_not_in_element_order :
  SlideData.element_order (fst (after reordered_texts)) = ["id-1"; "id-0"] /\
  SlideData.get_all_text_content (fst (after reordered_texts))
  = Some ("Hello" ++ newline ++ "World") /\
  text_content_in_element_order (fst (after reordered_texts))
  = Some ("World" ++ newline ++ "Hello").
Proof. vm_compute. repeat split. Qed.

Lemma text_content_follows_insertion_order_witness :
  exists a s' w',
    SlideData.reorder_element "id-0" (PInt 5)
      (fst (after [add_text "Hello" []; add_text "World" []]))
      (snd (after [add_text "Hello" []; add_text "World" []]))
    = Some (a, s', w') /\
    SlideData.get_all_text_content s'
    = joined (texts_in_insertion_order
                (SlideData.elements (fst (after [add_text "Hello" []; add_text "World" []]))))
    /\
    SlideData.get_all_text_content s'
    = SlideData.get_all_text_content
        (fst (after [add_text "Hello" []; add_text "World" []])).
Proof.
  destruct (returned
              (SlideData.reorder_element "id-0" (PInt 5)
                 (fst (after [add_text "Hello" []; add_text "World" []]))
                 (snd (after [add_text "Hello" []; add_text "World" []]))))
    as [[[a s'] w'] E]; [vm_compute; reflexivity|].
  exists a, s', w'. split; [exact E|].
  exact (text_content_follows_insertion_order _ _ _ _ _ _ _ E).
Defined.

(* --------------------------------------------------------------------- *)
(** ** C6 *)

Example sepia_of_a_pixel :
  ImageElement.sepia_pixel (NInt 100) (200, 100, 50) = Some (164, 146, 114) /\
  ImageElement.sepia_pixel (NInt 0) (200, 100, 50) = Some (200, 100, 50) /\
  ImageElement.sepia_pixel (NInt 100) (255, 255, 255) = Some (255, 255, 238).
Proof. vm_compute. repeat split. Qed.




(** Two rows of two pixels. *)
Definition four_pixels : Raster.raster :=
  [[(10, 20, 30); (200, 100, 50)]; [(0, 0, 0); (255, 255, 255)]].

Example four_pixels_in_sepia :
  ImageElement._apply_sepia four_pixels (PInt 100)
  = Some [[(24, 22, 17); (164, 146, 114)]; [(0, 0, 0); (255, 255, 238)]] /\
  ImageElement._apply_sepia four_pixels (PInt 0) = Some four_pixels /\
  ImageElement._apply_sepia four_pixels (PInt 50)
  = Some [[(17, 21, 23); (182, 123, 82)]; [(0, 0, 0); (255, 255, 246)]].
Proof. split; [|split]; vm_compute; reflexivity. Qed.


(* --------------------------------------------------------------------- *)
(** ** C7 *)

(** A hundred and five texts, one after the other. *)
Definition many_texts : list call := repeat (add_text "x" []) 105.

Example history_is_capped :
  List.length (SlideData.change_history Demo.slide) = 0%nat /\
  SlideData.version (fst (after many_texts)) = 106 /\
  List.length (SlideData.change_history (fst (after many_texts))) = 100%nat /\
  List.length (SlideData.element_order (fst (after many_texts))) = 105%nat.
Proof. vm_compute. repeat split. Qed.

Lemma change_history_witness :
  exists answers s' w',
    run_calls many_texts Demo.slide Demo.world1 = Some (answers, s', w') /\
    exists entries,
      Z.of_nat (List.length entries) = successes many_texts answers /\
      SlideData.change_history s' =
        match entries with
        | [] => SlideData.change_history Demo.slide
        | _ => last_n 100 (SlideData.change_history Demo.slide ++ entries)
        end /\
      ((List.length (SlideData.change_history Demo.slide) <= 100)%nat ->
       (List.length (SlideData.change_history s') <= 100)%nat) /\
      (0 < successes many_texts answers ->
       (List.length (SlideData.change_history s') <= 100)%nat) /\
      (successes many_texts answers = 0 ->
       SlideData.change_history s' = SlideData.change_history Demo.slide).
Proof.
  destruct (returned (run_calls many_texts Demo.slide Demo.world1))
    as [[[answers s'] w'] E]; [vm_compute; reflexivity|].
  exists answers, s', w'. split; [exact E|].
  exact (change_history_keeps_last_hundred many_texts _ _ _ _ _ E).
Defined.

(** A saved slide whose history holds a hundred and one entries. *)
Definition old_entry : pyval :=
  PDict [("timestamp", PStr "2023-12-31T00:00:00");
         ("action", PStr "add_element"); ("element_id", PStr "gone");
         ("data", PDict [("type", PStr "text")]); ("version", PInt 1)].

Definition long_document : list (string * pyval) :=
  [("slide_id", PInt 1); ("title", PStr "Demo"); ("version", PInt 102);
   ("change_history", PList (repeat old_entry 101))].

(** Calls that change nothing: a removal of an unknown id and two queries. *)
Definition idle_calls : list call :=
  [RemoveElement "nobody"; GetAllTextContent; GetSlideStatistics].

(** C7 fails as stated: [from_dict] loads a history of a hundred and one
    entries as it is, and the slide keeps them all through calls that
    change nothing. *)
Lemma loaded_history_stays_long :
  option_map (fun r => List.length (SlideData.change_history (fst r)))
    (SlideData.from_dict long_document Demo.world) = Some 101%nat /\
  (r <- SlideData.from_dict long_document Demo.world ;;
   r' <- run_calls idle_calls (fst r) (snd r) ;;
   Some (List.length (SlideData.change_history (snd (fst r'))))) = Some 101%nat.
Proof. split; vm_compute; reflexivity. Qed.

(* --------------------------------------------------------------------- *)
(** ** C8 *)

Definition two_texts : list call := [add_text "A" []; add_text "E" []].

(** C8 fails as stated: the second of two texts of z-index 0 is reordered to
    z-index 0; no element has a smaller z-index, and it stays at position 1,
    behind the element of equal z-index that came before it. *)
Lemma reorder_keeps_equal_z_before :
  SlideData.element_order (fst (after (two_texts ++ [ReorderElement "id-1" (PInt 0)])))
  = ["id-0"; "id-1"] /\
  position "id-1"
    (SlideData.element_order (fst (after (two_texts ++ [ReorderElement "id-1" (PInt 0)]))))
  = Some 1%nat /\
  count_below (fst (after (two_texts ++ [ReorderElement "id-1" (PInt 0)]))) 0
    (SlideData.element_order (fst (after (two_texts ++ [ReorderElement "id-1" (PInt 0)]))))
  = 0%nat /\
  SlideData.z_key
    (SlideData.elements (fst (after (two_texts ++ [ReorderElement "id-1" (PInt 0)])))) "id-0"
  = Some 0.
Proof. vm_compute. repeat split. Qed.

Lemma all_have_z_key els l :
  forallb (fun i => returns (SlideData.z_key els i)) l = true ->
  Forall (fun i => SlideData.z_key els i <> None) l.
Proof.
  intros H. apply Forall_forall. intros i Hi.
  rewrite forallb_forall in H. specialize (H i Hi).
  destruct (SlideData.z_key els i); [discriminate|discriminate H].
Qed.

Lemma reorder_element_witness :
  exists old,
    dict_get "id-0" (SlideData.elements (fst (after two_texts))) = Some old /\
    Forall (fun i => SlideData.z_key (SlideData.elements (fst (after two_texts))) i <> None)
      (SlideData.element_order (fst (after two_texts))) /\
    exists s' w',
      SlideData.reorder_element "id-0" (PInt 5) (fst (after two_texts)) (snd (after two_texts))
      = Some (PBool true, s', w') /\
      SlideData.z_key (SlideData.elements s') "id-0" = Some 5 /\
      (forall i, i <> "id-0" ->
                 SlideData.z_key (SlideData.elements s') i
                 = SlideData.z_key (SlideData.elements (fst (after two_texts))) i) /\
      Permutation (SlideData.element_order (fst (after two_texts)))
        (SlideData.element_order s') /\
      StronglySorted (fun a b => z_of s' a <= z_of s' b) (SlideData.element_order s') /\
      (forall k, filter (fun i => z_of s' i =? k) (SlideData.element_order s')
                 = filter (fun i => z_of s' i =? k)
                     (SlideData.element_order (fst (after two_texts)))) /\
      (forall x, In x (SlideData.element_order (fst (after two_texts))) ->
                 In "id-0" (SlideData.element_order (fst (after two_texts))) ->
                 (z_of s' x < 5 -> precedes x "id-0" (SlideData.element_order s')) /\
                 (5 < z_of s' x -> precedes "id-0" x (SlideData.element_order s'))).
Proof.
  destruct (returned (dict_get "id-0" (SlideData.elements (fst (after two_texts)))))
    as [old E]; [vm_compute; reflexivity|].
  assert (F : Forall (fun i => SlideData.z_key
                                 (SlideData.elements (fst (after two_texts))) i <> None)
                (SlideData.element_order (fst (after two_texts))))
    by (apply all_have_z_key; vm_compute; reflexivity).
  exists old. split; [exact E|]. split; [exact F|].
  exact (reorder_element_stable_sort "id-0" 5 old (fst (after two_texts))
           (snd (after two_texts)) E F).
Defined.

Example reorder_moves_behind :
  SlideData.element_order (fst (after (two_texts ++ [ReorderElement "id-0" (PInt 5)])))
  = ["id-1"; "id-0"].
Proof. vm_compute. reflexivity. Qed.

(* --------------------------------------------------------------------- *)
(** ** C9 *)

(** [ImageElement("photo.png")] with an id and timestamps of its own. *)
Definition photo_element : ImageElement.t :=
  ImageElement.mk
    (ContentElement.mk (PStr "img") (PStr "image") (PFloat 0) (PFloat 0)
       (PFloat 200) (PFloat 150) (PInt 0) (PBool true) (PBool false)
       "2024-01-01T00:00:00" "2024-01-01T00:00:00" ElementStyle.default default_animation)
    (PStr "photo.png") (PStr "photo.png") (PStr "") (PStr "contain") (PInt 85)
    (PBool true) ImageElement.default_filter_effects ImageElement.default_crop ImageElement.default_image_info.

Definition turned_filter_effects : pyval :=
  PDict [("brightness", PInt 100); ("contrast", PInt 100); ("saturation", PInt 100);
         ("hue", PInt 180); ("blur", PInt 0); ("grayscale", PInt 0);
         ("sepia", PInt 0); ("invert", PInt 100)].

Lemma turned_same_but_hue_and_invert :
  same_but_hue_and_invert ImageElement.default_filter_effects turned_filter_effects.
Proof.
  intros k Hh Hi. apply String.eqb_neq in Hh, Hi.
  unfold ImageElement.default_filter_effects, turned_filter_effects, py_getitem.
  cbn [dict_get]. rewrite Hh, Hi. reflexivity.
Qed.

Lemma apply_filters_witness :
  same_but_hue_and_invert ImageElement.default_filter_effects turned_filter_effects /\
  ImageElement.apply_filters
    (with_filter_effects photo_element ImageElement.default_filter_effects) 1 Demo.world1
  = ImageElement.apply_filters
      (with_filter_effects photo_element turned_filter_effects) 1 Demo.world1.
Proof.
  split; [exact turned_same_but_hue_and_invert|].
  exact (apply_filters_ignores_hue_and_invert photo_element ImageElement.default_filter_effects
           turned_filter_effects 1 Demo.world1 turned_same_but_hue_and_invert).
Defined.

Example filters_are_applied :
  fst (ImageElement.apply_filters
         (with_filter_effects photo_element turned_filter_effects) 1 Demo.world1) = true.
Proof. vm_compute. reflexivity. Qed.

(* --------------------------------------------------------------------- *)
(** ** One text on the demo slide *)

(** The demo slide and its world after [add_text_element("Hello")]. *)
Definition hello_slide : SlideData.t :=
  SlideData.mk 1 "Demo" (PStr "#ffffff") PNone PNone "2024-01-01T00:00:05" 2
    "2024-01-01T00:00:01" [("id-0", EText hello_text)] ["id-0"]
    SlideData.default_config
    [PDict [("timestamp", PStr "2024-01-01T00:00:04");
            ("action", PStr "add_element"); ("element_id", PStr "id-0");
            ("data", PDict [("type", PStr "text"); ("text", PStr "Hello")]);
            ("version", PInt 1)]].

Definition hello_after : World :=
  mkWorld Demo.clock 6 Demo.uuids 1
    [("photo.png", Demo.photo); ("scan.tiff", Demo.photo)] (fun _ => true).

Example hello_slide_is_reached :
  run_call (add_text "Hello" []) Demo.slide Demo.world1
  = Some (Value (PStr "id-0"), hello_slide, hello_after).
Proof. reflexivity. Qed.

Lemma unknown_id_witness :
  dict_get "nobody" (SlideData.elements hello_slide) = None /\
  SlideData.remove_element "nobody" hello_slide hello_after
  = Some (PBool false, hello_slide, hello_after) /\
  (forall updates,
     SlideData.update_element "nobody" updates hello_slide hello_after
     = Some (PBool false, hello_slide, hello_after)) /\
  (forall z,
     SlideData.reorder_element "nobody" z hello_slide hello_after
     = Some (PBool false, hello_slide, hello_after)).
Proof.
  assert (H : dict_get "nobody" (SlideData.elements hello_slide) = None)
    by reflexivity.
  split; [exact H|].
  exact (unknown_id_changes_nothing "nobody" hello_slide hello_after H).
Defined.

Lemma rejected_option_witness :
  In "font_weight" (dict_keys [("font_weight", PStr "bold")]) /\
  "font_weight" <> "element_id" /\
  (forall text x y width height,
     "font_weight" <> "font_family" -> "font_weight" <> "font_size" ->
     SlideData.add_text_element text x y width height [("font_weight", PStr "bold")]
       Demo.slide Demo.world1 = None) /\
  (forall icon_code x y size,
     "font_weight" <> "icon_type" ->
     SlideData.add_icon_element icon_code x y size [("font_weight", PStr "bold")]
       Demo.slide Demo.world1 = None) /\
  (forall symbol x y size,
     "font_weight" <> "symbol_type" ->
     SlideData.add_symbol_element symbol x y size [("font_weight", PStr "bold")]
       Demo.slide Demo.world1 = None).
Proof.
  assert (H1 : In "font_weight" (dict_keys [("font_weight", PStr "bold")]))
    by (simpl; tauto).
  assert (H2 : "font_weight" <> "element_id") by discriminate.
  split; [exact H1|]. split; [exact H2|].
  exact (add_element_rejects_other_options "font_weight" _ Demo.slide Demo.world1 H1 H2).
Defined.

Example bold_text_is_refused :
  SlideData.add_text_element "Hello" (PInt 0) (PInt 0) (PInt 200) (PInt 50)
    [("font_weight", PStr "bold")] Demo.slide Demo.world1 = None.
Proof. reflexivity. Qed.

Lemma add_text_element_witness :
  py_float (PInt 10) = Some 10%float /\ py_float (PInt 20) = Some 20%float /\
  py_float (PInt 200) = Some 200%float /\ py_float (PFloat 50) = Some 50%float /\
  let eid := uuid_source Demo.world1 (uuid_drawn Demo.world1) in
  exists e s' w' entry,
    SlideData.add_text_element "Hello" (PInt 10) (PInt 20) (PInt 200) (PFloat 50) []
      Demo.slide Demo.world1 = Some (PStr eid, s', w') /\
    dict_get eid (SlideData.elements s') = Some (EText e) /\
    TextElement.text e = PStr "Hello" /\
    TextElement.font_family e = PStr "Arial" /\
    TextElement.font_size e = PInt 16 /\
    ContentElement.id (TextElement.base e) = PStr eid /\
    ContentElement.type (TextElement.base e) = PStr "text" /\
    ContentElement.x (TextElement.base e) = PFloat 10 /\
    ContentElement.y (TextElement.base e) = PFloat 20 /\
    ContentElement.width (TextElement.base e) = PFloat 200 /\
    ContentElement.height (TextElement.base e) = PFloat 50 /\
    ContentElement.z_index (TextElement.base e) = PInt 0 /\
    (forall k, k <> eid ->
               dict_get k (SlideData.elements s')
               = dict_get k (SlideData.elements Demo.slide)) /\
    SlideData.element_order s' = (SlideData.element_order Demo.slide ++ [eid])%list /\
    SlideData.version s' = SlideData.version Demo.slide + 1 /\
    SlideData.change_history s'
    = last_n 100 (SlideData.change_history Demo.slide ++ [entry]) /\
    py_getitem entry "action" = Some (PStr "add_element") /\
    py_getitem entry "element_id" = Some (PStr eid) /\
    py_getitem entry "version" = Some (PInt (SlideData.version Demo.slide)).
Proof.
  assert (H1 : py_float (PInt 10) = Some 10%float) by reflexivity.
  assert (H2 : py_float (PInt 20) = Some 20%float) by reflexivity.
  assert (H3 : py_float (PInt 200) = Some 200%float) by reflexivity.
  assert (H4 : py_float (PFloat 50) = Some 50%float) by reflexivity.
  split; [exact H1|]. split; [exact H2|]. split; [exact H3|]. split; [exact H4|].
  exact (add_text_element_stores_text "Hello" (PInt 10) (PInt 20) (PInt 200)
           (PFloat 50) _ _ _ _ Demo.slide Demo.world1 H1 H2 H3 H4).
Defined.

Lemma remove_undoes_add_witness :
  is_add (add_text "Hello" []) = true /\
  run_call (add_text "Hello" []) Demo.slide Demo.world1
  = Some (Value (PStr "id-0"), hello_slide, hello_after) /\
  ~ In "id-0" (dict_keys (SlideData.elements Demo.slide)) /\
  ~ In "id-0" (SlideData.element_order Demo.slide) /\
  exists s2 w2,
    SlideData.remove_element "id-0" hello_slide hello_after = Some (PBool true, s2, w2) /\
    SlideData.elements s2 = SlideData.elements Demo.slide /\
    SlideData.element_order s2 = SlideData.element_order Demo.slide /\
    SlideData.version s2 = SlideData.version Demo.slide + 2.
Proof.
  assert (H1 : is_add (add_text "Hello" []) = true) by reflexivity.
  assert (H2 : run_call (add_text "Hello" []) Demo.slide Demo.world1
               = Some (Value (PStr "id-0"), hello_slide, hello_after))
    by reflexivity.
  assert (H3 : ~ In "id-0" (dict_keys (SlideData.elements Demo.slide)))
    by (simpl; tauto).
  assert (H4 : ~ In "id-0" (SlideData.element_order Demo.slide)) by (simpl; tauto).
  split; [exact H1|]. split; [exact H2|]. split; [exact H3|]. split; [exact H4|].
  exact (remove_undoes_add _ Demo.slide Demo.world1 "id-0" hello_slide hello_after
           H1 H2 H3 H4).
Defined.

(* --------------------------------------------------------------------- *)
(** ** Updates *)

Lemma returned_true {A B} (o : option (pyval * A * B)) :
  match o with Some (PBool true, _, _) => true | _ => false end = true ->
  exists a b, o = Some (PBool true, a, b).
Proof.
  destruct o as [[[[| [|] | | | | | |] a] b]|]; try discriminate. eauto.
Qed.

Lemma update_element_keeps_order_witness :
  exists s' w',
    SlideData.update_element "id-0" [("z_index", PInt 7)] hello_slide hello_after
    = Some (PBool true, s', w') /\
    SlideData.element_order s' = SlideData.element_order hello_slide /\
    dict_keys (SlideData.elements s') = dict_keys (SlideData.elements hello_slide) /\
    (forall k, k <> "id-0" ->
               dict_get k (SlideData.elements s')
               = dict_get k (SlideData.elements hello_slide)) /\
    SlideData.version s' = SlideData.version hello_slide + 1.
Proof.
  destruct (returned_true
              (SlideData.update_element "id-0" [("z_index", PInt 7)]
                 hello_slide hello_after)) as (s' & w' & E);
    [vm_compute; reflexivity|].
  exists s', w'. split; [exact E|].
  exact (update_element_keeps_order _ _ _ _ _ _ E).
Defined.

Lemma update_unknown_attribute_witness :
  dict_get "id-0" (SlideData.elements hello_slide) = Some (EText hello_text) /\
  element_to_dict (EText hello_text) = Some (TextElement.to_dict hello_text) /\
  image_is_image (EText hello_text) /\
  Forall (fun kv => element_hasattr (EText hello_text) (fst kv) = false)
    [("colour", PStr "red")] /\
  exists s' w',
    SlideData.update_element "id-0" [("colour", PStr "red")] hello_slide hello_after
    = Some (PBool true, s', w') /\
    SlideData.elements s' =
      dict_set "id-0"
        (element_with_base (EText hello_text)
           (ContentElement.set_modified_at (element_base (EText hello_text))
              (clock hello_after (ticks hello_after))))
        (SlideData.elements hello_slide) /\
    SlideData.element_order s' = SlideData.element_order hello_slide /\
    SlideData.version s' = SlideData.version hello_slide + 1.
Proof.
  assert (H1 : dict_get "id-0" (SlideData.elements hello_slide)
               = Some (EText hello_text)) by reflexivity.
  assert (H2 : element_to_dict (EText hello_text)
               = Some (TextElement.to_dict hello_text)) by reflexivity.
  assert (H3 : image_is_image (EText hello_text)) by reflexivity.
  assert (H4 : Forall (fun kv => element_hasattr (EText hello_text) (fst kv) = false)
                 [("colour", PStr "red")]) by (repeat constructor).
  split; [exact H1|]. split; [exact H2|]. split; [exact H3|]. split; [exact H4|].
  exact (update_element_ignores_unknown_attributes "id-0" _ _ _ hello_slide
           hello_after H1 H2 H3 H4).
Defined.

(* --------------------------------------------------------------------- *)
(** ** Statistics, saving and loading *)

Lemma slide_statistics_witness :
  exists stats,
    SlideData.get_slide_statistics hello_slide = Some stats /\
    exists by_type,
      py_getitem stats "total_elements"
        = Some (PInt (Z.of_nat (List.length (SlideData.elements hello_slide)))) /\
      py_getitem stats "by_type" = Some (PDict by_type) /\
      (forall t, dict_get t by_type
                 = counted (Z.of_nat (List.length
                                        (SlideData.get_elements_by_type t hello_slide)))) /\
      py_getitem stats "image_count"
        = Some (PInt (Z.of_nat (List.length
                                  (SlideData.get_elements_by_type "image" hello_slide)))) /\
      py_getitem stats "total_characters"
        = Some (PInt (total_characters (dict_values (SlideData.elements hello_slide)))).
Proof.
  destruct (returned (SlideData.get_slide_statistics hello_slide)) as [stats E];
    [vm_compute; reflexivity|].
  exists stats. split; [exact E|].
  exact (get_slide_statistics_counts hello_slide stats E).
Defined.

Example hello_statistics :
  SlideData.get_slide_statistics hello_slide
  = Some (PDict [("total_elements", PInt 1); ("by_type", PDict [("text", PInt 1)]);
                 ("total_characters", PInt 5); ("total_words", PInt 1);
                 ("image_count", PInt 0); ("file_sizes", PDict [])]).
Proof. reflexivity. Qed.

Lemma slide_round_trip_witness :
  NoDup (dict_keys (SlideData.elements hello_slide)) /\
  Forall (fun kv => saveable (snd kv)) (SlideData.elements hello_slide) /\
  fromisoformat (isoformat (SlideData.created_at hello_slide))
  = Some (SlideData.created_at hello_slide) /\
  fromisoformat (isoformat (SlideData.last_modified hello_slide))
  = Some (SlideData.last_modified hello_slide) /\
  exists d w',
    SlideData.to_dict hello_slide = Some d /\
    SlideData.from_dict d hello_after
    = Some (SlideData.with_change_history hello_slide
              (last_n 10 (SlideData.change_history hello_slide)), w').
Proof.
  assert (H1 : NoDup (dict_keys (SlideData.elements hello_slide)))
    by (repeat constructor; simpl; tauto).
  assert (H2 : Forall (fun kv => saveable (snd kv)) (SlideData.elements hello_slide)).
  { constructor; [|constructor]. split; [reflexivity|].
    split; [lazy; tauto|split; reflexivity]. }
  assert (H3 : fromisoformat (isoformat (SlideData.created_at hello_slide))
               = Some (SlideData.created_at hello_slide)) by reflexivity.
  assert (H4 : fromisoformat (isoformat (SlideData.last_modified hello_slide))
               = Some (SlideData.last_modified hello_slide)) by reflexivity.
  split; [exact H1|]. split; [exact H2|]. split; [exact H3|]. split; [exact H4|].
  exact (slide_round_trip hello_slide hello_after H1 H2 H3 H4).
Defined.

(* --------------------------------------------------------------------- *)
(** ** Files *)

(** A world that holds the original of the photo under [content/], its
    processed version, and a file that has nothing to do with it. *)
Definition stored_world : World :=
  mkWorld Demo.clock 0 Demo.uuids 0
    [("content/photo.png", Demo.photo);
     ("notes.txt", Demo.photo);
     ("content/slide_1/images/processed/photo_processed_img.png", Demo.photo)]
    (fun _ => true).

Example remove_image_files_run :
  path_exists "content/photo.png" stored_world = true /\
  path_exists "content/slide_1/images/processed/photo_processed_img.png" stored_world
  = true /\
  files (SlideData._remove_image_files photo_element Demo.slide stored_world)
  = [("notes.txt", Demo.photo)].
Proof. split; [reflexivity|]. split; reflexivity. Qed.

Lemma remove_image_files_witness :
  (forall p, py_str (ImageElement.image_path photo_element) = Some p ->
             "notes.txt" <> path_join2 "content" p) /\
  (forall p, ImageElement.get_processed_path photo_element
               (SlideData.slide_id Demo.slide) = Some p -> "notes.txt" <> p) /\
  (forall p, SlideData._get_thumbnail_path photo_element Demo.slide = Some p ->
             "notes.txt" <> p) /\
  path_exists "content/photo.png" stored_world = true /\
  dict_get "notes.txt" (files stored_world) = Some Demo.photo /\
  dict_get "notes.txt"
    (files (SlideData._remove_image_files photo_element Demo.slide stored_world))
  = dict_get "notes.txt" (files stored_world).
Proof.
  assert (H1 : forall p, py_str (ImageElement.image_path photo_element) = Some p ->
                         "notes.txt" <> path_join2 "content" p).
  { intros p H. vm_compute in H. inversion H. vm_compute. discriminate. }
  assert (H2 : forall p, ImageElement.get_processed_path photo_element
                           (SlideData.slide_id Demo.slide) = Some p ->
                         "notes.txt" <> p).
  { intros p H. vm_compute in H. inversion H. discriminate. }
  assert (H3 : forall p, SlideData._get_thumbnail_path photo_element Demo.slide
                         = Some p -> "notes.txt" <> p).
  { intros p H. vm_compute in H. inversion H. discriminate. }
  split; [exact H1|]. split; [exact H2|]. split; [exact H3|].
  split; [reflexivity|]. split; [reflexivity|].
  exact (remove_image_files_touches_three_paths photo_element Demo.slide stored_world
           "notes.txt" H1 H2 H3).
Defined.

Example processed_path_of_photo :
  ImageElement.get_processed_path photo_element 1
  = Some "content/slide_1/images/processed/photo_processed_img.png".
Proof. vm_compute. reflexivity. Qed.

Lemma create_processed_version_witness :
  exists doc w',
    SlideData.create_processed_version hello_slide hello_after = Some (doc, w') /\
    (forall q f, dict_get q (files hello_after) = Some f ->
                 dict_get q (files w') = Some f) /\
    py_getitem doc "version" = Some (PInt (SlideData.version hello_slide)) /\
    py_getitem doc "element_order"
    = Some (PList (map PStr (SlideData.element_order hello_slide))) /\
    exists els,
      py_getitem doc "elements" = Some (PDict els) /\
      (NoDup (dict_keys (SlideData.elements hello_slide)) ->
       dict_keys els = dict_keys (SlideData.elements hello_slide)).
Proof.
  destruct (returned (SlideData.create_processed_version hello_slide hello_after))
    as [[doc w'] E]; [vm_compute; reflexivity|].
  exists doc, w'. split; [exact E|].
  exact (create_processed_version_keeps_files hello_slide hello_after doc w' E).
Defined.

(* --------------------------------------------------------------------- *)
(** ** Reordering *)

(** The slide with one text, as a document could restore it: its
    [element_order] lists an id that [elements] lacks. *)
Definition haunted_slide : SlideData.t :=
  SlideData.with_element_order hello_slide ["id-0"; "ghost"].

Lemma reorder_missing_key_witness :
  dict_get "id-0" (SlideData.elements haunted_slide) = Some (EText hello_text) /\
  In "ghost" (SlideData.element_order haunted_slide) /\
  dict_get "ghost" (SlideData.elements haunted_slide) = None /\
  SlideData.reorder_element "id-0" (PInt 3) haunted_slide hello_after = None.
Proof.
  assert (H1 : dict_get "id-0" (SlideData.elements haunted_slide)
               = Some (EText hello_text)) by reflexivity.
  assert (H2 : In "ghost" (SlideData.element_order haunted_slide))
    by (simpl; tauto).
  assert (H3 : dict_get "ghost" (SlideData.elements haunted_slide) = None)
    by reflexivity.
  split; [exact H1|]. split; [exact H2|]. split; [exact H3|].
  exact (reorder_element_raises_on_missing_key "id-0" (PInt 3) "ghost" _
           haunted_slide hello_after H1 H2 H3).
Defined.

Lemma reorder_same_z_witness :
  dict_get "id-0" (SlideData.elements hello_slide) = Some (EText hello_text) /\
  element_z_index (EText hello_text) = PInt 0 /\
  Forall (fun i => SlideData.z_key (SlideData.elements hello_slide) i <> None)
    (SlideData.element_order hello_slide) /\
  StronglySorted (fun a b => z_of hello_slide a <= z_of hello_slide b)
    (SlideData.element_order hello_slide) /\
  exists s' w',
    SlideData.reorder_element "id-0" (PInt 0) hello_slide hello_after
    = Some (PBool true, s', w') /\
    SlideData.elements s' = SlideData.elements hello_slide /\
    SlideData.element_order s' = SlideData.element_order hello_slide /\
    SlideData.version s' = SlideData.version hello_slide + 1.
Proof.
  assert (H1 : dict_get "id-0" (SlideData.elements hello_slide)
               = Some (EText hello_text)) by reflexivity.
  assert (H2 : element_z_index (EText hello_text) = PInt 0) by reflexivity.
  assert (H3 : Forall (fun i => SlideData.z_key (SlideData.elements hello_slide) i
                                <> None)
                 (SlideData.element_order hello_slide))
    by (apply all_have_z_key; vm_compute; reflexivity).
  assert (H4 : StronglySorted (fun a b => z_of hello_slide a <= z_of hello_slide b)
                 (SlideData.element_order hello_slide))
    by (repeat constructor).
  split; [exact H1|]. split; [exact H2|]. split; [exact H3|]. split; [exact H4|].
  exact (reorder_to_same_z_moves_nothing "id-0" 0 _ hello_slide hello_after
           H1 H2 H3 H4).
Defined.

(* --------------------------------------------------------------------- *)
(** ** A manager *)

(** A manager that holds the demo slide with its text, and one observer. *)
Definition demo_manager : ContentManager.t :=
  ContentManager.mk [(1, hello_slide)] ["panel"] "content" 1
    [("title", PStr "Demo"); ("total_slides", PInt 1)].

Example manager_cannot_be_constructed :
  ContentManager.init Demo.world = None.
Proof. reflexivity. Qed.

Example second_slide_is_created :
  fst (fst (fst (ContentManager.create_slide None "Next" demo_manager hello_after)))
  = 2.
Proof. reflexivity. Qed.

Example first_slide_is_kept :
  ContentManager.create_slide (Some 1) "Again" demo_manager hello_after
  = (1, demo_manager, hello_after, []).
Proof. reflexivity. Qed.

Lemma delete_slide_witness :
  NoDup (idict_keys (ContentManager.slides demo_manager)) /\
  match idict_get 1 (ContentManager.slides demo_manager) with
  | None =>
      ContentManager.delete_slide 1 demo_manager hello_after
      = (false, demo_manager, hello_after, [])
  | Some slide =>
      exists m' w',
        ContentManager.delete_slide 1 demo_manager hello_after
        = (true, m', w',
           map (fun cb => ContentManager.notified cb 1 None "delete")
               (ContentManager.content_observers demo_manager)) /\
        idict_get 1 (ContentManager.slides m') = None /\
        (forall k, k <> 1 ->
                   idict_get k (ContentManager.slides m')
                   = idict_get k (ContentManager.slides demo_manager)) /\
        S (List.length (ContentManager.slides m'))
        = List.length (ContentManager.slides demo_manager) /\
        total_slides_counted m' /\
        (forall q,
           (forall e, In (EImage e) (dict_values (SlideData.elements slide)) ->
              (forall p, py_str (ImageElement.image_path e) = Some p ->
                         q <> path_join2 "content" p) /\
              (forall p, ImageElement.get_processed_path e (SlideData.slide_id slide)
                         = Some p -> q <> p) /\
              (forall p, SlideData._get_thumbnail_path e slide = Some p -> q <> p)) ->
           dict_get q (files w') = dict_get q (files hello_after))
  end.
Proof.
  assert (H : NoDup (idict_keys (ContentManager.slides demo_manager)))
    by (repeat constructor; simpl; tauto).
  split; [exact H|].
  exact (delete_slide_removes_one_slide 1 demo_manager hello_after H).
Defined.

Lemma observers_witness :
  NoDup (ContentManager.content_observers demo_manager) /\
  NoDup (ContentManager.content_observers
           (ContentManager.add_observer "log" demo_manager)) /\
  In "log" (ContentManager.content_observers
              (ContentManager.add_observer "log" demo_manager)) /\
  ContentManager.add_observer "log" (ContentManager.add_observer "log" demo_manager)
  = ContentManager.add_observer "log" demo_manager /\
  NoDup (ContentManager.content_observers
           (ContentManager.remove_observer "log" demo_manager)) /\
  ~ In "log" (ContentManager.content_observers
                (ContentManager.remove_observer "log" demo_manager)) /\
  (~ In "log" (ContentManager.content_observers demo_manager) ->
   ContentManager.remove_observer "log" (ContentManager.add_observer "log" demo_manager)
   = demo_manager).
Proof.
  assert (H : NoDup (ContentManager.content_observers demo_manager))
    by (repeat constructor; simpl; tauto).
  split; [exact H|].
  exact (observers_are_registered_once "log" demo_manager H).
Defined.

Lemma presentation_statistics_witness :
  exists stats,
    ContentManager.get_presentation_statistics demo_manager = Some stats /\
    py_getitem stats "total_slides"
    = Some (PInt (Z.of_nat (List.length (ContentManager.slides demo_manager)))) /\
    py_getitem stats "total_elements"
    = Some (PInt (sum_over (fun s => Z.of_nat (List.length (SlideData.elements s)))
                    (idict_values (ContentManager.slides demo_manager)))) /\
    py_getitem stats "total_text_characters"
    = Some (PInt (sum_over
                    (fun s => total_characters (dict_values (SlideData.elements s)))
                    (idict_values (ContentManager.slides demo_manager)))) /\
    py_getitem stats "total_images"
    = Some (PInt (sum_over
                    (fun s => count_of_type "image" (dict_values (SlideData.elements s)))
                    (idict_values (ContentManager.slides demo_manager)))) /\
    exists by_type,
      py_getitem stats "elements_by_type" = Some (PDict by_type) /\
      forall t,
        dict_get t by_type
        = counted (sum_over
                     (fun s => count_of_type t (dict_values (SlideData.elements s)))
                     (idict_values (ContentManager.slides demo_manager))).
Proof.
  destruct (returned (ContentManager.get_presentation_statistics demo_manager))
    as [stats E]; [vm_compute; reflexivity|].
  exists stats. split; [exact E|].
  exact (get_presentation_statistics_sums demo_manager stats E).
Defined.

(* --------------------------------------------------------------------- *)
(** ** The versions in the history *)

Lemma history_versions_witness :
  exists answers s' w',
    run_calls many_texts
      (fst (SlideData.init 1 "Demo" (PStr "#ffffff") Demo.world))
      (snd (SlideData.init 1 "Demo" (PStr "#ffffff") Demo.world))
    = Some (answers, s', w') /\
    recorded_versions (SlideData.change_history s')
    = last_n 100 (map (fun v => Some (PInt v))
                    (versions_to (SlideData.version s' - 1))).
Proof.
  destruct (returned
              (run_calls many_texts
                 (fst (SlideData.init 1 "Demo" (PStr "#ffffff") Demo.world))
                 (snd (SlideData.init 1 "Demo" (PStr "#ffffff") Demo.world))))
    as [[[answers s'] w'] E]; [vm_compute; reflexivity|].
  exists answers, s', w'. split; [exact E|].
  exact (history_records_consecutive_versions 1 "Demo" (PStr "#ffffff") Demo.world
           many_texts answers s' w' E).
Defined.

Example oldest_version_kept :
  hd None (recorded_versions (SlideData.change_history (fst (after many_texts))))
  = Some (PInt 6) /\
  last (recorded_versions (SlideData.change_history (fst (after many_texts)))) None
  = Some (PInt 105).
Proof. vm_compute. split; reflexivity. Qed.
